(** * JordanOpenFinanceService: account aggregation and FX resolution

    A shallow embedding of the JoPACC integration service
    ([class JordanOpenFinanceService]): the header builders, the accounts
    and balances fetchers, the account-dependent aggregation
    [get_accounts_with_balances], and the FX resolvers
    [get_fx_rates], [get_fx_quote], [get_fx_rates_for_account] and
    [get_fx_quote_for_account].

    Python values are modelled by [json]; dictionaries are [gmap string _];
    floats are IEEE binary64 ([PrimFloat.float]), integers are [Z], and a
    [str] holds one [ascii] per character.
    The service is effectful: it draws UUIDs, reads the clock and the process
    environment, and exchanges HTTP messages with the partner.  These effects
    are threaded through a state-and-exception monad [M] over a [world] that
    counts the draws and records every outbound request.  The [print] calls
    of the source have no effect on what it returns or sends and are left
    out.  Dictionary literals that a statement has to mention are named
    ([quote_dict], [rates_dict], ...); the code that fills them is inline in
    the source. *)

From Stdlib Require Import ZArith PrimFloat SpecFloat FloatOps.
From stdpp Require Import gmap strings list pretty.

Set Warnings "-inexact-float,-register-all".
Set Default Proof Using "Type".

Local Open Scope Z_scope.

(** ** Python values *)

Inductive json :=
| JNull
| JBool (b : bool)
| JInt (z : Z)
| JFloat (f : float)
| JStr (s : string)
| JArr (l : list json)
| JObj (m : gmap string json).

(** Exceptions; every one of them is an instance of Python's [Exception],
    so [except Exception] catches them all. *)
Inductive exn :=
| Exception (msg : string)
| ValueError (msg : string)
| TypeError
| AttributeError
| KeyError
| IndexError
| OverflowError
| MemoryError
| JSONDecodeError
| TransportError.

Definition res (A : Type) : Type := exn + A.

Definition res_bind {A B} (r : res A) (k : A → res B) : res B :=
  match r with
  | inl e => inl e
  | inr a => k a
  end.

(** [bool(v)] *)
Definition truthy (v : json) : bool :=
  match v with
  | JNull => false
  | JBool b => b
  | JInt z => negb (z =? 0)
  | JFloat f => negb (PrimFloat.eqb f 0%float)
  | JStr s => negb (String.eqb s EmptyString)
  | JArr l => match l with [] => false | _ => true end
  | JObj m => match map_to_list m with [] => false | _ => true end
  end.

(** [v == s] for a [str] [s] *)
Definition py_eq_str (v : json) (s : string) : bool :=
  match v with
  | JStr s' => String.eqb s' s
  | _ => false
  end.

(** [d.get(k, dflt)]; only dictionaries have a [get] attribute. *)
Definition py_get_default (d : json) (k : string) (dflt : json) : res json :=
  match d with
  | JObj m => inr (default dflt (m !! k))
  | _ => inl AttributeError
  end.

(** [d.get(k)] *)
Definition py_get (d : json) (k : string) : res json :=
  py_get_default d k JNull.

Fixpoint str_contains (needle hay : string) : bool :=
  String.prefix needle hay ||
  match hay with
  | EmptyString => false
  | String _ hay' => str_contains needle hay'
  end.

(** [k in v] for a [str] [k] *)
Definition py_in (k : string) (v : json) : res bool :=
  match v with
  | JObj m => inr (bool_decide (is_Some (m !! k)))
  | JArr l => inr (existsb (λ x, py_eq_str x k) l)
  | JStr s => inr (str_contains k s)
  | _ => inl TypeError
  end.

(** [v[k]] for a [str] [k] *)
Definition py_getitem (v : json) (k : string) : res json :=
  match v with
  | JObj m => match m !! k with Some x => inr x | None => inl KeyError end
  | _ => inl TypeError
  end.

Definition str_chars (s : string) : list json :=
  (λ c, JStr (String c EmptyString)) <$> String.list_ascii_of_string s.

(** [v[0]] *)
Definition py_first (v : json) : res json :=
  match v with
  | JArr l => match l with x :: _ => inr x | [] => inl IndexError end
  | JStr s => match str_chars s with x :: _ => inr x | [] => inl IndexError end
  | JObj _ => inl KeyError
  | _ => inl TypeError
  end.

(** The elements a [for] loop over [v] visits.  A dictionary yields its
    keys (here in the map's key order). *)
Definition py_iter (v : json) : res (list json) :=
  match v with
  | JArr l => inr l
  | JObj m => inr ((λ kv, JStr kv.1) <$> map_to_list m)
  | JStr s => inr (str_chars s)
  | _ => inl TypeError
  end.

(** ** Python arithmetic *)

(** [float(z)]: correctly rounded, [OverflowError] beyond the binary64 range *)
Definition float_of_int (z : Z) : res float :=
  let f := SF2Prim (binary_normalize prec emax z 0 false) in
  if PrimFloat.is_infinity f then inl OverflowError else inr f.

(** [bool] is a subclass of [int]. *)
Definition as_int (v : json) : option Z :=
  match v with
  | JInt z => Some z
  | JBool b => Some (Z.b2z b)
  | _ => None
  end.

Fixpoint str_repeat (n : nat) (s : string) : string :=
  match n with
  | O => EmptyString
  | S n' => s +:+ str_repeat n' s
  end.

(** [sys.maxsize]: the largest index-sized integer of a 64-bit build *)
Definition index_max : Z := 2 ^ 63 - 1.

(** How often [x * seq] repeats a sequence of [len] items.  The count has
    to fit an index-sized integer ([OverflowError] if it does not, whatever
    the sequence); a count below 1 and an empty sequence give the empty
    result; the length of the result has to fit an index-sized integer too
    ([too_long] is what the sequence type raises if it does not) and the
    result has to fit [memory], the longest sequence the process can
    allocate ([MemoryError] otherwise). *)
Definition repeat_count (memory : Z) (too_long : exn) (x : Z) (len : nat) : res nat :=
  if (x <? - index_max - 1) || (index_max <? x) then inl OverflowError
  else if (x <=? 0) || (len =? 0)%nat then inr O
  else if index_max / x <? Z.of_nat len then inl too_long
  else if memory <? x * Z.of_nat len then inl MemoryError
  else inr (Z.to_nat x).

(** [x * v] for an [int] [x] and a [v] that is not an [int] *)
Definition py_mul_int (memory : Z) (x : Z) (v : json) : res json :=
  match v with
  | JFloat y => res_bind (float_of_int x) (λ fx, inr (JFloat (fx * y)%float))
  | JStr s =>
      res_bind (repeat_count memory OverflowError x (String.length s)) (λ n,
        inr (JStr (str_repeat n s)))
  | JArr l =>
      res_bind (repeat_count memory MemoryError x (length l)) (λ n,
        inr (JArr (concat (replicate n l))))
  | _ => inl TypeError
  end.

(** [a * b] *)
Definition py_mul (memory : Z) (a b : json) : res json :=
  match as_int a, as_int b with
  | Some x, Some y => inr (JInt (x * y))
  | Some x, None => py_mul_int memory x b
  | None, Some y => py_mul_int memory y a
  | None, None =>
      match a, b with
      | JFloat x, JFloat y => inr (JFloat (x * y)%float)
      | _, _ => inl TypeError
      end
  end.

(** [a + b] on numbers (the only addition the balance total needs) *)
Definition py_add (a b : json) : res json :=
  match as_int a, as_int b with
  | Some x, Some y => inr (JInt (x + y))
  | Some x, None =>
      match b with
      | JFloat y => res_bind (float_of_int x) (λ fx, inr (JFloat (fx + y)%float))
      | _ => inl TypeError
      end
  | None, Some y =>
      match a with
      | JFloat x => res_bind (float_of_int y) (λ fy, inr (JFloat (x + fy)%float))
      | _ => inl TypeError
      end
  | None, None =>
      match a, b with
      | JFloat x, JFloat y => inr (JFloat (x + y)%float)
      | _, _ => inl TypeError
      end
  end.

(** ** The outside world *)

Inductive endpoint :=
| EpAccounts                      (* GET /gateway/Accounts/v0.4.3/accounts *)
| EpBalances (account_id : json)  (* GET /gateway/Balances/v0.4.3/accounts/{account_id}/balances *)
| EpFXRates                       (* GET /gateway/Foreign%20Exchange/v1.3/institution/FXs *)
| EpFXQuote.                      (* GET /gateway/Foreign%20Exchange%20%28FX%29/v0.4.3/institution/FXs *)

Record request := Request {
  endpoint_of : endpoint;
  headers : gmap string string;
  params : gmap string json
}.

Record response := Response {
  status_code : Z;
  text : string;
  json_body : option json   (* [None]: the body is not JSON, [response.json()] raises *)
}.

(** What the service cannot decide: the process environment, the UUID
    generator, the clock (with its two formatters), the partner and the
    memory the process has. *)
Record environment := Environment {
  getenv : string → option string;
  uuid4 : nat → string;            (* [str(uuid.uuid4())], by draw number *)
  utcnow : nat → Z;                (* [datetime.utcnow()], by read number, in microseconds *)
  strftime : Z → string;           (* [.strftime('%Y-%m-%dT%H:%M:%SZ')] *)
  isoformat : Z → string;          (* [.isoformat()] *)
  partner : nat → request → res response;  (* reply to the n-th outbound request *)
  memory : Z                       (* the longest sequence the process can allocate *)
}.

Record world := World {
  uuids : nat;            (* UUIDs drawn so far *)
  clock : nat;            (* clock reads so far *)
  sent : list request     (* outbound requests so far, oldest first *)
}.

Definition M (A : Type) : Type := world → res A * world.

Definition ret {A} (a : A) : M A := λ w, (inr a, w).
Definition raise {A} (e : exn) : M A := λ w, (inl e, w).
Definition lift {A} (r : res A) : M A := λ w, (r, w).

Definition bind {A B} (m : M A) (k : A → M B) : M B :=
  λ w, match m w with
       | (inl e, w') => (inl e, w')
       | (inr a, w') => k a w'
       end.

(** [try: m except Exception as e: h e] *)
Definition try_except {A} (m : M A) (h : exn → M A) : M A :=
  λ w, match m w with
       | (inl e, w') => h e w'
       | (inr a, w') => (inr a, w')
       end.

Notation "'let!' x ':=' m 'in' k" := (bind m (λ x, k))
  (at level 10, x name, m at level 100, k at level 200).

(** The ["warning"] values of the two account-scoped FX operations. *)
Definition rates_warning : json :=
  JStr "Account verification failed, using default FX rates".
Definition quote_warning : json :=
  JStr "Account verification failed, using default FX quote".

(** ** The service *)

Section Service.
Context (env : environment).

(** [str(uuid.uuid4())] *)
Definition fresh_uuid : M string :=
  λ w, (inr (uuid4 env (uuids w)),
        {| uuids := S (uuids w); clock := clock w; sent := sent w |}).

(** [datetime.utcnow()] *)
Definition clock_read : M Z :=
  λ w, (inr (utcnow env (clock w)),
        {| uuids := uuids w; clock := S (clock w); sent := sent w |}).

(** [await client.get(url, headers=..., params=...)] *)
Definition http_get (ep : endpoint) (hs : gmap string string)
    (ps : gmap string json) : M response :=
  λ w, let rq := Request ep hs ps in
       (partner env (length (sent w)) rq,
        {| uuids := uuids w; clock := clock w; sent := sent w ++ [rq] |}).

(** [os.getenv(name, dflt)] *)
Definition getenv_default (name dflt : string) : string :=
  default dflt (getenv env name).

(** [response.json()] *)
Definition response_json (r : response) : res json :=
  match json_body r with
  | Some v => inr v
  | None => inl JSONDecodeError
  end.

(** f"{prefix}{response.status_code} - {response.text}" *)
Definition error_message (prefix : string) (r : response) : string :=
  prefix +:+ pretty (status_code r) +:+ " - " +:+ text r.

(** The header dictionary of [get_headers]. *)
Definition standard_headers (customer_ip interaction_id idempotency_key : string)
    (now : Z) : gmap string string :=
  list_to_map [
    ("Authorization", getenv_default "JOPACC_AUTHORIZATION" "Bearer demo_token");
    ("x-financial-id", getenv_default "JOPACC_FINANCIAL_ID" "001");
    ("x-customer-ip-address", customer_ip);
    ("x-customer-user-agent", "StableCoin-Fintech-App/1.0");
    ("x-interactions-id", interaction_id);
    ("x-idempotency-key", idempotency_key);
    ("x-jws-signature", getenv_default "JOPACC_JWS_SIGNATURE" EmptyString);
    ("x-auth-date", strftime env now);
    ("x-customer-id", getenv_default "JOPACC_CUSTOMER_ID" "customer_123");
    ("Content-Type", "application/json");
    ("Accept", "application/json")
  ].

Definition get_headers (customer_ip : string) : M (gmap string string) :=
  let! interaction_id := fresh_uuid in
  let! idempotency_key := fresh_uuid in
  let! now := clock_read in
  ret (standard_headers customer_ip interaction_id idempotency_key now).

(** The header dictionary of [get_accounts_new]. *)
Definition accounts_headers (now : Z) (idempotency_key interaction_id : string)
    : gmap string string :=
  list_to_map [
    ("x-jws-signature", getenv_default "JOPACC_JWS_SIGNATURE" EmptyString);
    ("x-auth-date", strftime env now);
    ("x-idempotency-key", idempotency_key);
    ("Authorization", getenv_default "JOPACC_AUTHORIZATION" "Bearer demo_token");
    ("x-customer-user-agent", "StableCoin-Fintech-App/1.0");
    ("x-financial-id", getenv_default "JOPACC_FINANCIAL_ID" "001");
    ("x-customer-ip-address", "127.0.0.1");
    ("x-interactions-id", interaction_id);
    ("x-customer-id", getenv_default "JOPACC_CUSTOMER_ID" "customer_123")
  ].

(** An optional string argument that is set and not empty ([if account_type:]) *)
Definition if_set (k : string) (o : option string) (q : gmap string json)
    : gmap string json :=
  match o with
  | Some s => if String.eqb s EmptyString then q else <[k := JStr s]> q
  | None => q
  end.

Definition accounts_query (skip : Z) (account_type : option string) (limit : Z)
    (account_status : option string) (sort : string) : gmap string json :=
  if_set "accountStatus" account_status
    (if_set "accountType" account_type
      (list_to_map [("skip", JInt skip); ("limit", JInt limit); ("sort", JStr sort)])).

Definition get_accounts_new (skip : Z) (account_type : option string) (limit : Z)
    (account_status : option string) (sort : string) : M json :=
  let! now := clock_read in
  let! idempotency_key := fresh_uuid in
  let! interaction_id := fresh_uuid in
  let! response := http_get EpAccounts
                     (accounts_headers now idempotency_key interaction_id)
                     (accounts_query skip account_type limit account_status sort) in
  if status_code response =? 200 then lift (response_json response)
  else raise (Exception (error_message "JoPACC API Error: " response)).

(** The header dictionary of [get_account_balances]: no [x-customer-id]. *)
Definition balances_headers (customer_ip : string) (now : Z)
    (idempotency_key interaction_id : string) : gmap string string :=
  list_to_map [
    ("x-customer-ip-address", customer_ip);
    ("x-customer-user-agent", "StableCoin-Fintech-App/1.0");
    ("Authorization", getenv_default "JOPACC_AUTHORIZATION" "Bearer demo_token");
    ("x-financial-id", getenv_default "JOPACC_FINANCIAL_ID" "001");
    ("x-auth-date", strftime env now);
    ("x-idempotency-key", idempotency_key);
    ("x-jws-signature", getenv_default "JOPACC_JWS_SIGNATURE" EmptyString);
    ("x-interactions-id", interaction_id)
  ].

Definition get_account_balances (account_id : json) (customer_ip : string) : M json :=
  let! now := clock_read in
  let! idempotency_key := fresh_uuid in
  let! interaction_id := fresh_uuid in
  let! response := http_get (EpBalances account_id)
                     (balances_headers customer_ip now idempotency_key interaction_id)
                     ∅ in
  if status_code response =? 200 then lift (response_json response)
  else raise (Exception (error_message "JoPACC Balance API Error: " response)).

(** [{**account, "detailed_balances": ..., "balance_last_updated": ...}] *)
Definition with_balance (account : gmap string json)
    (detailed_balances balance_last_updated : json) : gmap string json :=
  <["balance_last_updated" := balance_last_updated]>
    (<["detailed_balances" := detailed_balances]> account).

(** The [try] block of the aggregation loop. *)
Definition enrich_account (account account_id : json) : M json :=
  let! balance_response := get_account_balances account_id "127.0.0.1" in
  let! balances := lift (py_get_default balance_response "balances" (JArr [])) in
  let! last_updated := lift (py_get account "lastUpdated") in
  let! balance_last_updated :=
    lift (py_get_default balance_response "lastUpdated" last_updated) in
  match account with
  | JObj a => ret (JObj (with_balance a balances balance_last_updated))
  | _ => raise TypeError
  end.

(** The [for account in ...] loop of [get_accounts_with_balances];
    [enriched_accounts] is the list built so far. *)
Fixpoint enrich_loop (accounts enriched_accounts : list json) : M (list json) :=
  match accounts with
  | [] => ret enriched_accounts
  | account :: rest =>
      let! account_id := lift (py_get account "accountId") in
      let! entry :=
        (if truthy account_id then
           try_except (enrich_account account account_id) (λ _, ret account)
         else ret account) in
      enrich_loop rest (enriched_accounts ++ [entry])
  end.

Definition get_accounts_with_balances (skip limit : Z) : M json :=
  let! accounts_response := get_accounts_new skip None limit None "desc" in
  let! listed := lift (py_get_default accounts_response "accounts" (JArr [])) in
  let! accounts := lift (py_iter listed) in
  let! enriched_accounts := enrich_loop accounts [] in
  let! has_more := lift (py_get_default accounts_response "hasMore" (JBool false)) in
  ret (JObj (list_to_map [
    ("accounts", JArr enriched_accounts);
    ("totalCount", JInt (Z.of_nat (length enriched_accounts)));
    ("hasMore", has_more)
  ])).

Definition get_fx_rates : M json :=
  let! hs := get_headers "127.0.0.1" in
  let! response := http_get EpFXRates hs ∅ in
  if status_code response =? 200 then lift (response_json response)
  else raise (Exception (error_message "JoPACC FX Rates API Error: " response)).

(** The header dictionary of [get_fx_quote]. *)
Definition quote_headers (interaction_id idempotency_key : string)
    : gmap string string :=
  list_to_map [
    ("x-interactions-id", interaction_id);
    ("Authorization", getenv_default "JOPACC_AUTHORIZATION" "Bearer demo_token");
    ("x-financial-id", getenv_default "JOPACC_FINANCIAL_ID" "001");
    ("x-jws-signature", getenv_default "JOPACC_JWS_SIGNATURE" EmptyString);
    ("x-idempotency-key", idempotency_key)
  ].

(** [(t + timedelta(minutes=5))], in microseconds *)
Definition plus_five_minutes (t : Z) : Z := t + 5 * 60 * 1000000.

(** The dictionary literal both branches of [get_fx_quote] return. *)
Definition quote_dict (quote_id : string) (base target rate amount converted_amount : json)
    (valid_until timestamp : string) : gmap string json :=
  list_to_map [
    ("quoteId", JStr quote_id);
    ("baseCurrency", base);
    ("targetCurrency", target);
    ("rate", rate);
    ("amount", amount);
    ("convertedAmount", converted_amount);
    ("validUntil", JStr valid_until);
    ("timestamp", JStr timestamp)
  ].

(** The return statement both branches of [get_fx_quote] share, built
    from the chosen rate entry; [target] is what the branch puts under
    ["targetCurrency"]. *)
Definition make_quote (fx_rate target amount : json) : M json :=
  let! rate := lift (py_get_default fx_rate "conversionValue" (JFloat 1.0)) in
  let! converted_amount :=
    (if truthy amount then lift (py_mul (memory env) amount rate) else ret JNull) in
  let! quote_id := fresh_uuid in
  let! base := lift (py_get_default fx_rate "sourceCurrency" (JStr "JOD")) in
  let! valid_from := clock_read in
  let! now := clock_read in
  ret (JObj (quote_dict quote_id base target rate amount converted_amount
               (isoformat env (plus_five_minutes valid_from) +:+ "Z")
               (isoformat env now +:+ "Z"))).

(** The [for fx_rate in fx_data["data"]] loop: it returns from
    [get_fx_quote] at the first entry whose target currency matches
    ([Some quote]) or runs to the end ([None]). *)
Fixpoint quote_loop (target_currency : string) (amount : json)
    (data : list json) : M (option json) :=
  match data with
  | [] => ret None
  | fx_rate :: rest =>
      let! target := lift (py_get fx_rate "targetCurrency") in
      if py_eq_str target target_currency then
        let! quote := make_quote fx_rate (JStr target_currency) amount in
        ret (Some quote)
      else quote_loop target_currency amount rest
  end.

(** The status-200 branch of [get_fx_quote]. *)
Definition convert_fx_response (target_currency : string) (amount fx_data : json)
    : M json :=
  let no_data : M json := raise (Exception "JoPACC FX API returned no data") in
  let! has_data := lift (py_in "data" fx_data) in
  let! data := (if has_data then lift (py_getitem fx_data "data") else ret JNull) in
  if has_data && truthy data then
    let! entries := lift (py_iter data) in
    let! found := quote_loop target_currency amount entries in
    match found with
    | Some quote => ret quote
    | None =>
        if truthy data then
          let! first_rate := lift (py_first data) in
          let! target :=
            lift (py_get_default first_rate "targetCurrency" (JStr target_currency)) in
          make_quote first_rate target amount
        else no_data
    end
  else no_data.

Definition get_fx_quote (target_currency : string) (amount : json) : M json :=
  let! interaction_id := fresh_uuid in
  let! idempotency_key := fresh_uuid in
  let! response := http_get EpFXQuote (quote_headers interaction_id idempotency_key) ∅ in
  if status_code response =? 200 then
    let! fx_data := lift (response_json response) in
    convert_fx_response target_currency amount fx_data
  else raise (Exception (error_message "JoPACC FX API Error: " response)).

(** The verification loop of the two account-scoped FX operations:
    [None] when [account_exists] stays [False], else the account's currency. *)
Fixpoint find_account (account_id : string) (accounts : list json)
    : res (option json) :=
  match accounts with
  | [] => inr None
  | account :: rest =>
      res_bind (py_get account "accountId") (λ listed_id,
        if py_eq_str listed_id account_id then
          res_bind (py_get_default account "currency" (JStr "JOD")) (λ c, inr (Some c))
        else find_account account_id rest)
  end.

(** Account verification, the first half of both [try] blocks. *)
Definition verify_account (account_id : string) : M json :=
  let! accounts_response := get_accounts_new 0 None 50 None "desc" in
  let! listed := lift (py_get_default accounts_response "accounts" (JArr [])) in
  let! accounts := lift (py_iter listed) in
  let! found := lift (find_account account_id accounts) in
  match found with
  | Some account_currency => ret account_currency
  | None => raise (ValueError ("Account " +:+ account_id +:+ " not found"))
  end.

(** The dictionary literal of [get_fx_rates_for_account] (both branches;
    the [except] branch adds ["warning"]). *)
Definition rates_dict (account_id : string)
    (account_currency fx_response rates last_updated : json) : gmap string json :=
  list_to_map [
    ("account_id", JStr account_id);
    ("account_currency", account_currency);
    ("fx_data", fx_response);
    ("rates_for_account", rates);
    ("last_updated", last_updated)
  ].

(** The dictionary [get_fx_rates_for_account] builds around an FX response. *)
Definition rates_result (account_id : string) (account_currency fx_response : json)
    : M (gmap string json) :=
  let! rates := lift (py_get_default fx_response "rates" (JArr [])) in
  let! now := clock_read in
  let! last_updated :=
    lift (py_get_default fx_response "lastUpdated" (JStr (isoformat env now +:+ "Z"))) in
  ret (rates_dict account_id account_currency fx_response rates last_updated).

Definition get_fx_rates_for_account (account_id : string) : M json :=
  try_except
    (let! account_currency := verify_account account_id in
     let! fx_response := get_fx_rates in
     let! result := rates_result account_id account_currency fx_response in
     ret (JObj result))
    (λ _,
     let! fx_response := get_fx_rates in
     let! result := rates_result account_id (JStr "JOD") fx_response in
     ret (JObj (<["warning" := rates_warning]> result))).

(** [{"account_id": ..., "account_currency": "JOD", "quote_data": q, **q}] *)
Definition spread_quote (account_id : string) (quote_response : json)
    : res (gmap string json) :=
  match quote_response with
  | JObj q =>
      inr (q ∪ list_to_map [
             ("account_id", JStr account_id);
             ("account_currency", JStr "JOD");
             ("quote_data", quote_response)
           ])
  | _ => inl TypeError
  end.

(** The dictionary literal of the [try] branch of [get_fx_quote_for_account]. *)
Definition account_quote_dict (account_id : string)
    (account_currency quote_response base : json) (target_currency : string)
    (rate amount converted quote_id valid_until timestamp : json)
    : gmap string json :=
  list_to_map [
    ("account_id", JStr account_id);
    ("account_currency", account_currency);
    ("quote_data", quote_response);
    ("base_currency", base);
    ("target_currency", JStr target_currency);
    ("rate", rate);
    ("amount", amount);
    ("converted_amount", converted);
    ("quote_id", quote_id);
    ("valid_until", valid_until);
    ("timestamp", timestamp)
  ].

Definition get_fx_quote_for_account (account_id target_currency : string)
    (amount : json) : M json :=
  try_except
    (let! account_currency := verify_account account_id in
     let! quote_response := get_fx_quote target_currency amount in
     let! base := lift (py_get_default quote_response "baseCurrency" account_currency) in
     let! rate := lift (py_get_default quote_response "rate" (JFloat 1.0)) in
     let! converted := lift (py_get quote_response "convertedAmount") in
     let! quote_id := lift (py_get quote_response "quoteId") in
     let! valid_until := lift (py_get quote_response "validUntil") in
     let! timestamp := lift (py_get quote_response "timestamp") in
     ret (JObj (account_quote_dict account_id account_currency quote_response base
                  target_currency rate amount converted quote_id valid_until
                  timestamp)))
    (λ _,
     let! quote_response := get_fx_quote target_currency amount in
     let! spread := lift (spread_quote account_id quote_response) in
     ret (JObj (<["warning" := quote_warning]> spread))).

End Service.


(** ** Specification vocabulary *)

Section Vocabulary.
Context (env : environment).

(** How a fetcher turns the transport's answer into its own result. *)
Definition classify (prefix : string) (reply : res response) : res json :=
  match reply with
  | inl e => inl e
  | inr r =>
      if status_code r =? 200 then response_json r
      else inl (Exception (error_message prefix r))
  end.

Definition accounts_request (skip : Z) (account_type : option string) (limit : Z)
    (account_status : option string) (sort : string) (w : world) : request :=
  Request EpAccounts
    (accounts_headers env (utcnow env (clock w)) (uuid4 env (uuids w))
       (uuid4 env (S (uuids w))))
    (accounts_query skip account_type limit account_status sort).

Definition balances_request (account_id : json) (customer_ip : string) (w : world)
    : request :=
  Request (EpBalances account_id)
    (balances_headers env customer_ip (utcnow env (clock w)) (uuid4 env (uuids w))
       (uuid4 env (S (uuids w))))
    ∅.

Definition rates_request (w : world) : request :=
  Request EpFXRates
    (standard_headers env "127.0.0.1" (uuid4 env (uuids w)) (uuid4 env (S (uuids w)))
       (utcnow env (clock w)))
    ∅.

Definition quote_request (w : world) : request :=
  Request EpFXQuote (quote_headers env (uuid4 env (uuids w)) (uuid4 env (S (uuids w)))) ∅.

(** The world after one exchange that drew two UUIDs and read the clock
    [c] times. *)
Definition after_exchange (c : nat) (rq : request) (w : world) : world :=
  {| uuids := S (S (uuids w)); clock := c + clock w; sent := sent w ++ [rq] |}.

(** The service's operations, as a caller invokes them. *)
Inductive call :=
| GetAccountsNew (skip : Z) (account_type : option string) (limit : Z)
    (account_status : option string) (sort : string)
| GetAccountBalances (account_id : json) (customer_ip : string)
| GetAccountsWithBalances (skip limit : Z)
| GetFxRates
| GetFxQuote (target_currency : string) (amount : json)
| GetFxRatesForAccount (account_id : string)
| GetFxQuoteForAccount (account_id target_currency : string) (amount : json).

Definition run_call (c : call) : M json :=
  match c with
  | GetAccountsNew skip account_type limit account_status sort =>
      get_accounts_new env skip account_type limit account_status sort
  | GetAccountBalances account_id customer_ip =>
      get_account_balances env account_id customer_ip
  | GetAccountsWithBalances skip limit => get_accounts_with_balances env skip limit
  | GetFxRates => get_fx_rates env
  | GetFxQuote target_currency amount => get_fx_quote env target_currency amount
  | GetFxRatesForAccount account_id => get_fx_rates_for_account env account_id
  | GetFxQuoteForAccount account_id target_currency amount =>
      get_fx_quote_for_account env account_id target_currency amount
  end.

(** The world after a sequence of operations, whatever each one returned
    or raised. *)
Fixpoint run_calls (cs : list call) (w : world) : world :=
  match cs with
  | [] => w
  | c :: rest => run_calls rest (run_call c w).2
  end.

(** *** Headers of an outbound request *)

Definition customer_id (rq : request) : option string := headers rq !! "x-customer-id".
Definition interaction_id (rq : request) : option string :=
  headers rq !! "x-interactions-id".
Definition idempotency_key (rq : request) : option string :=
  headers rq !! "x-idempotency-key".

(** Which call profiles carry [x-customer-id]. *)
Definition carries_customer_id (ep : endpoint) : bool :=
  match ep with
  | EpAccounts | EpFXRates => true
  | EpBalances _ | EpFXQuote => false
  end.

Definition customer_id_policy (rq : request) : Prop :=
  if carries_customer_id (endpoint_of rq) then is_Some (customer_id rq)
  else customer_id rq = None.

Definition call_ids (rq : request) : list (option string) :=
  [interaction_id rq; idempotency_key rq].

(** Every interaction id and idempotency key on the log, in order. *)
Definition log_ids (log : list request) : list (option string) :=
  log ≫= call_ids.

(** An exchange that starts when [n] UUIDs have been drawn puts draws
    [n] and [n+1] into the two id headers. *)
Definition outbound (n : nat) (rq : request) : Prop :=
  customer_id_policy rq ∧
  ((interaction_id rq = Some (uuid4 env n) ∧
    idempotency_key rq = Some (uuid4 env (S n))) ∨
   (interaction_id rq = Some (uuid4 env (S n)) ∧
    idempotency_key rq = Some (uuid4 env n))).

(** What one effect does to the world. *)
Inductive step : world → world → Prop :=
| step_uuid w : step w (World (S (uuids w)) (clock w) (sent w))
| step_clock w : step w (World (uuids w) (S (clock w)) (sent w))
| step_exchange w c rq : outbound (uuids w) rq → step w (after_exchange c rq w).

(** A computation whose effects are all steps. *)
Definition tracks {A} (m : M A) : Prop := ∀ w, rtc step w (m w).2.

(** The ids on the log are distinct draws of the generator. *)
Definition fresh_log (w : world) : Prop :=
  ∃ draws : list nat,
    log_ids (sent w) = (λ n, Some (uuid4 env n)) <$> draws ∧
    NoDup draws ∧
    Forall (λ n, (n < uuids w)%nat) draws.

(** *** Rate selection *)

(** The entry at which the [for fx_rate in ...] loop of [get_fx_quote]
    returns: the first one whose ["targetCurrency"] equals the request. *)
Fixpoint select_rate (target_currency : string) (data : list json)
    : res (option json) :=
  match data with
  | [] => inr None
  | fx_rate :: rest =>
      res_bind (py_get fx_rate "targetCurrency") (λ target,
        if py_eq_str target target_currency then inr (Some fx_rate)
        else select_rate target_currency rest)
  end.

(** [amount * rate if amount else None] *)
Definition converted_amount (amount rate : json) : res json :=
  if truthy amount then py_mul (memory env) amount rate else inr JNull.

(** The world after [make_quote] built its dictionary. *)
Definition after_quote (w : world) : world :=
  {| uuids := S (uuids w); clock := S (S (clock w)); sent := sent w |}.

(** *** Accounts and balances *)

(** [account["balance"]["current"]] *)
Definition balance_current (account : json) : res json :=
  res_bind (py_getitem account "balance") (λ b, py_getitem b "current").

(** The running total [acc + c1 + c2 + ...] of
    [account["balance"]["current"]] over the accounts, left to right *)
Fixpoint total_current_from (acc : json) (accounts : list json) : res json :=
  match accounts with
  | [] => inr acc
  | account :: rest =>
      res_bind (balance_current account) (λ c,
        res_bind (py_add acc c) (λ acc', total_current_from acc' rest))
  end.

(** The total of [balance.current], starting from [0] as [sum] does *)
Definition total_current (accounts : list json) : res json :=
  total_current_from (JInt 0) accounts.

Definition is_object (v : json) : Prop := ∃ m, v = JObj m.

(** The accounts a payload lists: its ["accounts"] array, none if absent. *)
Definition lists_accounts (payload : gmap string json) (accounts : list json) : Prop :=
  default (JArr []) (payload !! "accounts") = JArr accounts.

(** Enrichment touches two keys only. *)
Definition same_but_enrichment (account entry : json) : Prop :=
  ∃ a e, account = JObj a ∧ entry = JObj e ∧
    ∀ k, k ≠ "detailed_balances" → k ≠ "balance_last_updated" → e !! k = a !! k.

(** The payload of a balance reply the aggregation can use: status 200
    with a JSON object. *)
Definition balance_payload (reply : res response) : option (gmap string json) :=
  match classify "JoPACC Balance API Error: " reply with
  | inr (JObj b) => Some b
  | _ => None
  end.

(** An account with the balance payload [b] merged in. *)
Definition enriched_entry (a b : gmap string json) : json :=
  JObj (with_balance a
          (default (JArr []) (b !! "balances"))
          (default (default JNull (a !! "lastUpdated")) (b !! "lastUpdated"))).

(** The accounts the aggregation loops over:
    [accounts_response.get("accounts", [])], iterated. *)
Definition listed_accounts (accounts_response : json) : res (list json) :=
  res_bind (py_get_default accounts_response "accounts" (JArr [])) py_iter.

(** The outcome of the balance call the aggregation makes for each listed
    account, in the listed order and in the world the loop has reached by
    then; [None] for an account without a truthy id, for which no call is
    made. *)
Fixpoint balance_calls (objs : list (gmap string json)) (w : world)
    : list (option (res json)) :=
  match objs with
  | [] => []
  | a :: rest =>
      let account_id := default JNull (a !! "accountId") in
      if truthy account_id then
        let call := get_account_balances env account_id "127.0.0.1" w in
        Some call.1 :: balance_calls rest call.2
      else None :: balance_calls rest w
  end.

(** What an entry [e] has taken from the balance payload [b] of its
    account [a]: the two enrichment keys, and nothing else. *)
Definition enriched_from (a b e : gmap string json) : Prop :=
  e !! "detailed_balances" = Some (default (JArr []) (b !! "balances")) ∧
  e !! "balance_last_updated" =
    Some (default (default JNull (a !! "lastUpdated")) (b !! "lastUpdated")) ∧
  ∀ k, k ≠ "detailed_balances" → k ≠ "balance_last_updated" → e !! k = a !! k.

(** The entry of an account, given the outcome of its balance call: enriched
    when the call returned a JSON object, the account as listed when the
    call raised, returned something else, or was not made. *)
Definition entry_matches (a : gmap string json) (outcome : option (res json))
    (entry : json) : Prop :=
  match outcome with
  | Some (inr (JObj b)) => ∃ e, entry = JObj e ∧ enriched_from a b e
  | _ => entry = JObj a
  end.

(** The entry the loop appends for an account object. *)
Definition entry_for (a : gmap string json) (w : world) : json :=
  let account_id := default JNull (a !! "accountId") in
  if truthy account_id then
    match balance_payload
            (partner env (length (sent w))
               (balances_request account_id "127.0.0.1" w)) with
    | Some b => enriched_entry a b
    | None => JObj a
    end
  else JObj a.
(** *** Results of the account-scoped FX operations *)

(** What a result [r] of [get_fx_rates_for_account] reports, built around
    the FX response [fx] when the clock read [now]: five keys, and no other
    but, possibly, ["warning"]. *)
Definition reports_rates (account_id : string) (account_currency : json)
    (fx : gmap string json) (now : Z) (r : gmap string json) : Prop :=
  r !! "account_id" = Some (JStr account_id) ∧
  r !! "account_currency" = Some account_currency ∧
  r !! "fx_data" = Some (JObj fx) ∧
  r !! "rates_for_account" = Some (default (JArr []) (fx !! "rates")) ∧
  r !! "last_updated" =
    Some (default (JStr (isoformat env now +:+ "Z")) (fx !! "lastUpdated")) ∧
  ∀ k, k ∉ ["account_id"; "account_currency"; "fx_data"; "rates_for_account";
            "last_updated"; "warning"] → r !! k = None.

(** What a result [r] of the [try] branch of [get_fx_quote_for_account]
    reports about the quote [q]: eleven keys, and no other. *)
Definition reports_quote (account_id : string) (account_currency : json)
    (target_currency : string) (amount : json) (q r : gmap string json) : Prop :=
  r !! "account_id" = Some (JStr account_id) ∧
  r !! "account_currency" = Some account_currency ∧
  r !! "quote_data" = Some (JObj q) ∧
  r !! "base_currency" = Some (default account_currency (q !! "baseCurrency")) ∧
  r !! "target_currency" = Some (JStr target_currency) ∧
  r !! "rate" = Some (default (JFloat 1.0) (q !! "rate")) ∧
  r !! "amount" = Some amount ∧
  r !! "converted_amount" = Some (default JNull (q !! "convertedAmount")) ∧
  r !! "quote_id" = Some (default JNull (q !! "quoteId")) ∧
  r !! "valid_until" = Some (default JNull (q !! "validUntil")) ∧
  r !! "timestamp" = Some (default JNull (q !! "timestamp")) ∧
  ∀ k, k ∉ ["account_id"; "account_currency"; "quote_data"; "base_currency";
            "target_currency"; "rate"; "amount"; "converted_amount"; "quote_id";
            "valid_until"; "timestamp"] → r !! k = None.

(** What a result [r] of the [except] branch of [get_fx_quote_for_account]
    reports: the quote [q] spread into it, next to the account id, the
    default currency, the quote itself and the warning. *)
Definition spreads_quote (account_id : string) (q r : gmap string json) : Prop :=
  r !! "account_id" = Some (JStr account_id) ∧
  r !! "account_currency" = Some (JStr "JOD") ∧
  r !! "quote_data" = Some (JObj q) ∧
  r !! "warning" = Some quote_warning ∧
  (∀ k v, q !! k = Some v → r !! k = Some v) ∧
  ∀ k, q !! k = None →
       k ∉ ["account_id"; "account_currency"; "quote_data"; "warning"] →
       r !! k = None.
End Vocabulary.

Definition initial_world : world := World 0 0 [].

(** The field [k] of the dictionary a run returned, if it returned one. *)
Definition field (k : string) (run : res json * world) : option json :=
  match run.1 with
  | inr (JObj m) => m !! k
  | _ => None
  end.

(** [v[k1][k2]...] on dictionaries *)
Fixpoint at_path (path : list string) (v : json) : option json :=
  match path with
  | [] => Some v
  | k :: rest =>
      match v with
      | JObj m => m !! k ≫= at_path rest
      | _ => None
      end
  end.

(** The entries under ["accounts"] of the dictionary a run returned. *)
Definition returned_accounts (run : res json * world) : list json :=
  match field "accounts" run with
  | Some (JArr entries) => entries
  | _ => []
  end.

(** Whether a run returned rather than raised. *)
Definition has_returned {A} (run : res A * world) : bool :=
  match run.1 with
  | inr _ => true
  | inl _ => false
  end.

(** The exception a run raised, if it raised. *)
Definition raised (run : res json * world) : option exn :=
  match run.1 with
  | inl e => Some e
  | inr _ => None
  end.

(** ** Scenarios *)

Module Scenario.
Definition account (account_id : string) (current : float) : json :=
  JObj (list_to_map [
    ("accountId", JStr account_id);
    ("currency", JStr "JOD");
    ("balance", JObj (list_to_map [("current", JFloat current);
                                   ("available", JFloat current)]));
    ("lastUpdated", JStr "2025-01-01T00:00:00Z")
  ]).

Definition accounts : list json :=
  [account "acc_1" 100.00; account "acc_2" 200.50; account "acc_3" 50.25].

Definition listing_fields : gmap string json :=
  list_to_map [("accounts", JArr accounts); ("hasMore", JBool false)].

Definition listing : json := JObj listing_fields.

Definition balance_lines : json :=
  JArr [JObj (list_to_map [("type", JStr "ClosingAvailable");
                           ("amount", JStr "100.00");
                           ("currency", JStr "JOD")])].

Definition balances : json :=
  JObj (list_to_map [("balances", balance_lines);
                     ("lastUpdated", JStr "2025-01-02T00:00:00Z")]).

Definition rate (target : string) (value : float) : json :=
  JObj (list_to_map [("sourceCurrency", JStr "JOD");
                     ("targetCurrency", JStr target);
                     ("conversionValue", JFloat value)]).

(** The rate table [{USD: 0.709, EUR: 0.647}]. *)
Definition rate_table : json :=
  JObj (list_to_map [("data", JArr [rate "USD" 0.709; rate "EUR" 0.647])]).

Definition rates_fields : gmap string json :=
  list_to_map [("rates", JArr [rate "USD" 0.709; rate "EUR" 0.647])].

Definition rates : json := JObj rates_fields.

Definition ok (payload : json) : res response := inr (Response 200 EmptyString (Some payload)).

Definition http_error (code : Z) (body : string) : res response :=
  inr (Response code body None).

(** The balance reply for each account id: [acc_2] fails with HTTP 500. *)
Definition balance_reply (account_id : json) : res response :=
  if py_eq_str account_id "acc_2" then http_error 500 "Internal Server Error"
  else ok balances.

Definition reply_to (n : nat) (rq : request) : res response :=
  match endpoint_of rq with
  | EpAccounts => ok listing
  | EpBalances account_id => balance_reply account_id
  | EpFXRates => ok rates
  | EpFXQuote => ok rate_table
  end.

Definition uuid (n : nat) : string := "uuid-" +:+ pretty n.

Definition env : environment :=
  {| getenv := λ _, None;
     uuid4 := uuid;
     utcnow := λ n, 1735689600000000 + Z.of_nat n;
     strftime := pretty;
     isoformat := pretty;
     partner := reply_to;
     memory := 2 ^ 30 |}.

(** The same process while the partner answers every request with 503. *)
Definition outage : environment :=
  {| getenv := λ _, None;
     uuid4 := uuid;
     utcnow := λ n, 1735689600000000 + Z.of_nat n;
     strftime := pretty;
     isoformat := pretty;
     partner := λ _ _, http_error 503 "Service Unavailable";
     memory := 2 ^ 30 |}.

(** The world once the accounts list has been fetched from [w]. *)
Definition listed (skip limit : Z) (w : world) : world :=
  after_exchange 1 (accounts_request env skip None limit None "desc" w) w.
(** A partner whose accounts list answers 200 with [{"accounts": null}]. *)
Definition null_listing : environment :=
  {| getenv := λ _, None;
     uuid4 := uuid;
     utcnow := λ n, 1735689600000000 + Z.of_nat n;
     strftime := pretty;
     isoformat := pretty;
     partner := λ _ _, ok (JObj (list_to_map [("accounts", JNull)]));
     memory := 2 ^ 30 |}.
End Scenario.

(** ** Legacy methods *)

Section Legacy.
Context (env : environment).

(** The dictionary literal [convert_currency] returns. *)
Definition conversion_dict (from_currency to_currency : string)
    (original_amount converted_amount exchange_rate conversion_date : json)
    : gmap string json :=
  list_to_map [
    ("from_currency", JStr from_currency);
    ("to_currency", JStr to_currency);
    ("original_amount", original_amount);
    ("converted_amount", converted_amount);
    ("exchange_rate", exchange_rate);
    ("conversion_date", conversion_date)
  ].

Definition convert_currency (from_currency to_currency : string) (amount : json)
    : M json :=
  if negb (String.eqb from_currency "JOD") then
    raise (ValueError "Only JOD base currency is supported")
  else
    let! quote := get_fx_quote env to_currency amount in
    let! converted_amount := lift (py_get_default quote "convertedAmount" amount) in
    let! exchange_rate := lift (py_get_default quote "rate" (JFloat 1.0)) in
    let! now := clock_read env in
    let! conversion_date :=
      lift (py_get_default quote "timestamp" (JStr (isoformat env now +:+ "Z"))) in
    ret (JObj (conversion_dict from_currency to_currency amount converted_amount
                 exchange_rate conversion_date)).

(** The dictionary literal [get_user_accounts] appends for one account. *)
Definition legacy_dict (account_id account_name account_number bank_name bank_code
    account_type currency balance available_balance last_updated : json)
    : gmap string json :=
  list_to_map [
    ("account_id", account_id);
    ("account_name", account_name);
    ("account_number", account_number);
    ("bank_name", bank_name);
    ("bank_code", bank_code);
    ("account_type", account_type);
    ("currency", currency);
    ("balance", balance);
    ("available_balance", available_balance);
    ("status", JStr "active");
    ("last_updated", last_updated)
  ].

(** [account[k1][k2]] *)
Definition py_getitem2 (v : json) (k1 k2 : string) : res json :=
  res_bind (py_getitem v k1) (λ inner, py_getitem inner k2).

(** The record built in the body of the [for] loop of [get_user_accounts];
    the subscripts are evaluated in the order of the literal. *)
Definition legacy_account (account : json) : res json :=
  res_bind (py_getitem account "accountId") (λ account_id,
  res_bind (py_getitem account "accountName") (λ account_name,
  res_bind (py_getitem account "accountNumber") (λ account_number,
  res_bind (py_getitem account "bankName") (λ bank_name,
  res_bind (py_getitem account "bankCode") (λ bank_code,
  res_bind (py_getitem account "accountType") (λ account_type,
  res_bind (py_getitem account "currency") (λ currency,
  res_bind (py_getitem2 account "balance" "current") (λ balance,
  res_bind (py_getitem2 account "balance" "available") (λ available_balance,
  res_bind (py_getitem account "lastUpdated") (λ last_updated,
    inr (JObj (legacy_dict account_id account_name account_number bank_name bank_code
                 account_type currency balance available_balance last_updated)))))))))))).

(** The [for account in accounts_response["accounts"]] loop. *)
Fixpoint legacy_loop (listed accounts : list json) : res (list json) :=
  match listed with
  | [] => inr accounts
  | account :: rest =>
      res_bind (legacy_account account) (λ record,
        legacy_loop rest (accounts ++ [record]))
  end.

Definition get_user_accounts (user_consent_id : string) : M json :=
  let! accounts_response := get_accounts_new env 0 None 10 None "desc" in
  let! listed_value := lift (py_getitem accounts_response "accounts") in
  let! listed := lift (py_iter listed_value) in
  let! accounts := lift (legacy_loop listed []) in
  ret (JArr accounts).
End Legacy.

(** ** Further vocabulary *)

Section MoreVocabulary.
Context (env : environment).

(** The requests a run added to the log. *)
Definition new_requests (w w' : world) : list request :=
  drop (length (sent w)) (sent w').

(** The balance endpoints the aggregation calls for a list of account
    objects: one per account whose ["accountId"] is truthy, in order. *)
Definition balance_endpoints (objs : list (gmap string json)) : list endpoint :=
  omap (λ a, let account_id := default JNull (a !! "accountId") in
             if truthy account_id then Some (EpBalances account_id) else None) objs.

(** The world in which the aggregation loop goes on after an account. *)
Definition after_account (a : gmap string json) (w : world) : world :=
  let account_id := default JNull (a !! "accountId") in
  if truthy account_id then
    after_exchange 1 (balances_request env account_id "127.0.0.1" w) w
  else w.

(** A request built by one of the four header builders. *)
Definition shaped (rq : request) : Prop :=
  (∃ skip account_type limit account_status sort w,
     rq = accounts_request env skip account_type limit account_status sort w) ∨
  (∃ account_id customer_ip w, rq = balances_request env account_id customer_ip w) ∨
  (∃ w, rq = rates_request env w) ∨
  (∃ w, rq = quote_request env w).

(** A computation that adds [shaped] requests only. *)
Definition keeps_shape {A} (m : M A) : Prop :=
  ∀ w, Forall shaped (sent w) → Forall shaped (sent (m w).2).

(** The three headers every builder takes from the process environment. *)
Definition credentials (rq : request) : Prop :=
  headers rq !! "Authorization" =
    Some (getenv_default env "JOPACC_AUTHORIZATION" "Bearer demo_token") ∧
  headers rq !! "x-financial-id" = Some (getenv_default env "JOPACC_FINANCIAL_ID" "001") ∧
  headers rq !! "x-jws-signature" =
    Some (getenv_default env "JOPACC_JWS_SIGNATURE" EmptyString).

(** The customer-context headers, absent from the FX-quote profile. *)
Definition customer_context (rq : request) : Prop :=
  match endpoint_of rq with
  | EpFXQuote =>
      headers rq !! "x-auth-date" = None ∧
      headers rq !! "x-customer-ip-address" = None ∧
      headers rq !! "x-customer-user-agent" = None
  | _ =>
      is_Some (headers rq !! "x-auth-date") ∧
      is_Some (headers rq !! "x-customer-ip-address") ∧
      headers rq !! "x-customer-user-agent" = Some "StableCoin-Fintech-App/1.0"
  end.
End MoreVocabulary.

(** The top-level keys [get_user_accounts] subscripts before it reads the
    balance amounts. *)
Definition legacy_keys : list string :=
  ["accountId"; "accountName"; "accountNumber"; "bankName"; "bankCode"; "accountType";
   "currency"; "balance"].

(** An account object with every field [get_user_accounts] reads. *)
Definition complete (v : json) : Prop :=
  ∃ a b, v = JObj a ∧
         Forall (λ k, is_Some (a !! k)) legacy_keys ∧
         a !! "balance" = Some (JObj b) ∧
         is_Some (b !! "current") ∧ is_Some (b !! "available") ∧
         is_Some (a !! "lastUpdated").

(** A listed element that is an account object with another id. *)
Definition other_account (account_id : string) (v : json) : Prop :=
  ∃ g, v = JObj g ∧ py_eq_str (default JNull (g !! "accountId")) account_id = false.

(** A computation that sends nothing. *)
Definition quiet {A} (m : M A) : Prop := ∀ w, sent (m w).2 = sent w.

(** ** More scenarios *)

Module Cases.
(** The fields of [Scenario.account] and of [Scenario.rate]. *)
Definition account_fields (account_id : string) (current : float) : gmap string json :=
  list_to_map [
    ("accountId", JStr account_id);
    ("currency", JStr "JOD");
    ("balance", JObj (list_to_map [("current", JFloat current);
                                   ("available", JFloat current)]));
    ("lastUpdated", JStr "2025-01-01T00:00:00Z")
  ].

Definition rate_fields (target : string) (value : float) : gmap string json :=
  list_to_map [("sourceCurrency", JStr "JOD");
               ("targetCurrency", JStr target);
               ("conversionValue", JFloat value)].

Definition table_fields : gmap string json :=
  list_to_map [("data", JArr [Scenario.rate "USD" 0.709; Scenario.rate "EUR" 0.647])].

Definition complete_account (account_id : string) (current available : float) : json :=
  JObj (list_to_map [
    ("accountId", JStr account_id);
    ("accountName", JStr "Main");
    ("accountNumber", JStr "0001");
    ("bankName", JStr "Bank");
    ("bankCode", JStr "BNK");
    ("accountType", JStr "current");
    ("currency", JStr "JOD");
    ("balance", JObj (list_to_map [("current", JFloat current);
                                   ("available", JFloat available)]));
    ("lastUpdated", JStr "2025-01-01T00:00:00Z")
  ]).

Definition complete_accounts : list json :=
  [complete_account "acc_1" 100.00 90.00; complete_account "acc_2" 200.50 200.50].

Definition complete_listing_fields : gmap string json :=
  list_to_map [("accounts", JArr complete_accounts); ("hasMore", JBool true);
               ("totalCount", JInt 57)].

(** A rate whose value arrives as a decimal string. *)
Definition string_rate : json :=
  JObj (list_to_map [("sourceCurrency", JStr "JOD");
                     ("targetCurrency", JStr "USD");
                     ("conversionValue", JStr "0.709")]).

Definition with_partner (reply : nat → request → res response) : environment :=
  {| getenv := λ _, None;
     uuid4 := Scenario.uuid;
     utcnow := λ n, 1735689600000000 + Z.of_nat n;
     strftime := pretty;
     isoformat := pretty;
     partner := reply;
     memory := 2 ^ 30 |}.

(** Complete accounts, with the partner's own paging fields. *)
Definition complete : environment :=
  with_partner (λ _ rq,
    match endpoint_of rq with
    | EpAccounts => Scenario.ok (JObj complete_listing_fields)
    | _ => Scenario.reply_to 0 rq
    end).

(** An accounts payload without an ["accounts"] key. *)
Definition unlisted : environment :=
  with_partner (λ _ rq,
    match endpoint_of rq with
    | EpAccounts => Scenario.ok (JObj ∅)
    | _ => Scenario.reply_to 0 rq
    end).

(** A listing whose second element is not an object. *)
Definition broken_fields : gmap string json :=
  list_to_map [("accounts", JArr [Scenario.account "acc_1" 100.00; JStr "acc_2"])].

Definition broken : environment :=
  with_partner (λ _ rq,
    match endpoint_of rq with
    | EpAccounts => Scenario.ok (JObj broken_fields)
    | _ => Scenario.reply_to 0 rq
    end).

(** An FX table with no entries. *)
Definition empty_table : environment :=
  with_partner (λ _ rq,
    match endpoint_of rq with
    | EpFXQuote => Scenario.ok (JObj (list_to_map [("data", JArr [])]))
    | _ => Scenario.reply_to 0 rq
    end).

Definition string_table_fields : gmap string json :=
  list_to_map [("data", JArr [string_rate])].

Definition string_table : environment :=
  with_partner (λ _ rq,
    match endpoint_of rq with
    | EpFXQuote => Scenario.ok (JObj string_table_fields)
    | _ => Scenario.reply_to 0 rq
    end).

(** The FX endpoints fail once, on the second request, then recover. *)
Definition flaky : environment :=
  with_partner (λ n rq,
    match endpoint_of rq with
    | EpFXRates | EpFXQuote =>
        if Nat.eqb n 1 then Scenario.http_error 503 "Service Unavailable"
        else Scenario.reply_to n rq
    | _ => Scenario.reply_to n rq
    end).
End Cases.
(** ** Running monadic code *)

Section Runs.
Context {A B : Type}.

Lemma bind_inr (m : M A) (k : A → M B) w a w1 :
  m w = (inr a, w1) → bind m k w = k a w1.
Proof. unfold bind. by intros ->. Qed.

Lemma bind_inl (m : M A) (k : A → M B) w e w1 :
  m w = (inl e, w1) → bind m k w = (inl e, w1).
Proof. unfold bind. by intros ->. Qed.

Lemma bind_inv (m : M A) (k : A → M B) w r w' :
  bind m k w = (r, w') →
  (∃ e, m w = (inl e, w') ∧ r = inl e) ∨
  (∃ a w1, m w = (inr a, w1) ∧ k a w1 = (r, w')).
Proof.
  unfold bind. destruct (m w) as [[e|a] w1]; intros H.
  - left. exists e. by inversion H.
  - right. by exists a, w1.
Qed.

Lemma try_except_inr (m : M A) h w a w1 :
  m w = (inr a, w1) → try_except m h w = (inr a, w1).
Proof. unfold try_except. by intros ->. Qed.

Lemma try_except_inl (m : M A) h w e w1 :
  m w = (inl e, w1) → try_except m h w = h e w1.
Proof. unfold try_except. by intros ->. Qed.
End Runs.

(** ** The fetchers, run *)

Section Fetchers.
Context (env : environment).

Lemma get_accounts_new_run skip account_type limit account_status sort w :
  let rq := accounts_request env skip account_type limit account_status sort w in
  get_accounts_new env skip account_type limit account_status sort w =
    (classify "JoPACC API Error: " (partner env (length (sent w)) rq),
     after_exchange 1 rq w).
Proof.
  cbv zeta. unfold get_accounts_new, bind, clock_read, fresh_uuid, http_get. cbn.
  fold (accounts_request env skip account_type limit account_status sort w).
  destruct (partner env _ _) as [e|r]; [done|]. cbn.
  by destruct (status_code r =? 200).
Qed.

Lemma get_account_balances_run account_id customer_ip w :
  let rq := balances_request env account_id customer_ip w in
  get_account_balances env account_id customer_ip w =
    (classify "JoPACC Balance API Error: " (partner env (length (sent w)) rq),
     after_exchange 1 rq w).
Proof.
  cbv zeta. unfold get_account_balances, bind, clock_read, fresh_uuid, http_get. cbn.
  fold (balances_request env account_id customer_ip w).
  destruct (partner env _ _) as [e|r]; [done|]. cbn.
  by destruct (status_code r =? 200).
Qed.

Lemma get_fx_rates_run w :
  let rq := rates_request env w in
  get_fx_rates env w =
    (classify "JoPACC FX Rates API Error: " (partner env (length (sent w)) rq),
     after_exchange 1 rq w).
Proof.
  cbv zeta.
  unfold get_fx_rates, get_headers, bind, ret, clock_read, fresh_uuid, http_get. cbn.
  fold (rates_request env w).
  destruct (partner env _ _) as [e|r]; [done|]. cbn.
  by destruct (status_code r =? 200).
Qed.
End Fetchers.

(** ** The aggregation loop *)

Section Aggregation.
Context (env : environment).

Lemma is_object_fmap (accounts : list json) :
  Forall is_object accounts → ∃ objs, accounts = JObj <$> objs.
Proof.
  induction 1 as [|v l [m ->] _ [objs ->]].
  - by exists [].
  - by exists (m :: objs).
Qed.

Lemma is_object_dec v : is_object v ∨ ¬ is_object v.
Proof. destruct v; (by left; eexists) || (right; by intros [? ?]). Qed.

(** One pass through the [try] block. *)
Lemma enrich_account_run (a : gmap string json) account_id w :
  let rq := balances_request env account_id "127.0.0.1" w in
  enrich_account env (JObj a) account_id w =
    (match classify "JoPACC Balance API Error: " (partner env (length (sent w)) rq) with
     | inl e => inl e
     | inr (JObj b) => inr (enriched_entry a b)
     | inr _ => inl AttributeError
     end, after_exchange 1 rq w).
Proof.
  cbv zeta. unfold enrich_account, bind at 1. rewrite get_account_balances_run.
  destruct (classify _ _) as [e|[]]; done.
Qed.

Lemma enrich_loop_cons_object (a : gmap string json) rest enriched w :
  ∃ w1, enrich_loop env (JObj a :: rest) enriched w =
          enrich_loop env rest (enriched ++ [entry_for env a w]) w1.
Proof.
  cbn [enrich_loop]. unfold entry_for, bind at 1, lift, py_get. cbn.
  destruct (truthy (default JNull (a !! "accountId"))).
  - unfold bind, try_except. rewrite enrich_account_run. unfold balance_payload.
    destruct (classify _ _) as [e|[]]; eauto.
  - unfold bind, ret. eauto.
Qed.

Lemma enrich_loop_cons_other v rest enriched w :
  ¬ is_object v →
  enrich_loop env (v :: rest) enriched w = (inl AttributeError, w).
Proof.
  intros Hv. cbn [enrich_loop]. unfold bind, lift, py_get, py_get_default.
  destruct v; try done. destruct Hv. by eexists.
Qed.

Lemma entry_for_same a w : same_but_enrichment (JObj a) (entry_for env a w).
Proof.
  unfold entry_for.
  assert (same_but_enrichment (JObj a) (JObj a)) as Hrefl by (by exists a, a).
  destruct (truthy _); [|done]. destruct (balance_payload _) as [b|]; [|done].
  eexists a, _. split_and!; [done..|]. intros k Hk1 Hk2. unfold with_balance.
  by rewrite !lookup_insert_ne.
Qed.

(** The loop keeps what was already collected and adds one entry per
    account, each differing from its account in the enrichment keys only. *)
Lemma enrich_loop_inv accounts : ∀ enriched w result w',
  enrich_loop env accounts enriched w = (inr result, w') →
  ∃ out, result = enriched ++ out ∧ Forall2 same_but_enrichment accounts out.
Proof.
  induction accounts as [|v rest IH]; intros enriched w result w' Hrun.
  - injection Hrun as <- <-. exists []. by rewrite app_nil_r.
  - destruct (is_object_dec v) as [[a ->]|Hv].
    + destruct (enrich_loop_cons_object a rest enriched w) as [w1 Heq].
      rewrite Heq in Hrun. apply IH in Hrun as (out & -> & Hout).
      exists (entry_for env a w :: out). split; [by rewrite <-app_assoc|].
      constructor; [apply entry_for_same|done].
    + by rewrite enrich_loop_cons_other in Hrun.
Qed.

(** On account objects the loop cannot fail. *)
Lemma enrich_loop_total objs : ∀ enriched w,
  ∃ out w', enrich_loop env (JObj <$> objs) enriched w = (inr (enriched ++ out), w') ∧
            length out = length objs.
Proof.
  induction objs as [|a rest IH]; intros enriched w.
  - exists [], w. by rewrite app_nil_r.
  - rewrite fmap_cons.
    destruct (enrich_loop_cons_object a (JObj <$> rest) enriched w) as [w1 ->].
    destruct (IH (enriched ++ [entry_for env a w]) w1) as (out & w' & -> & Hlen).
    exists (entry_for env a w :: out), w'. rewrite <-app_assoc. cbn. by rewrite Hlen.
Qed.

(** Every entry follows the outcome of its account's balance call. *)
Lemma entry_for_matches a w :
  let account_id := default JNull (a !! "accountId") in
  entry_matches a
    (if truthy account_id
     then Some (get_account_balances env account_id "127.0.0.1" w).1 else None)
    (entry_for env a w).
Proof.
  cbv zeta. unfold entry_for. destruct (truthy _); [|done].
  rewrite get_account_balances_run. cbv zeta. cbn [fst]. unfold balance_payload.
  destruct (classify _ _) as [e|[]]; try done.
  eexists. split; [done|]. unfold enriched_from, with_balance. split_and!.
  - by rewrite lookup_insert_ne, lookup_insert_eq.
  - by rewrite lookup_insert_eq.
  - intros k Hk1 Hk2. by rewrite !lookup_insert_ne.
Qed.

Lemma enrich_loop_cons_world (a : gmap string json) rest enriched w :
  let account_id := default JNull (a !! "accountId") in
  enrich_loop env (JObj a :: rest) enriched w =
    enrich_loop env rest (enriched ++ [entry_for env a w])
      (if truthy account_id
       then (get_account_balances env account_id "127.0.0.1" w).2 else w).
Proof.
  cbv zeta. rewrite get_account_balances_run. cbv zeta. cbn [snd enrich_loop].
  unfold entry_for, bind at 1, lift, py_get. cbn [py_get_default].
  destruct (truthy (default JNull (a !! "accountId"))).
  - unfold bind, try_except. rewrite enrich_account_run.
    unfold balance_payload. destruct (classify _ _) as [e|[]]; reflexivity.
  - reflexivity.
Qed.

Lemma enrich_loop_outcomes objs : ∀ enriched w,
  ∃ out w', enrich_loop env (JObj <$> objs) enriched w = (inr (enriched ++ out), w') ∧
            Forall3 entry_matches objs (balance_calls env objs w) out.
Proof.
  induction objs as [|a rest IH]; intros enriched w.
  - exists [], w. rewrite app_nil_r. split; [done|constructor].
  - rewrite fmap_cons, enrich_loop_cons_world. cbv zeta.
    pose proof (entry_for_matches a w) as Hentry. cbv zeta in Hentry.
    cbn [balance_calls].
    destruct (truthy (default JNull (a !! "accountId")));
      match goal with
      | |- context [enrich_loop env _ _ ?w1] =>
          destruct (IH (enriched ++ [entry_for env a w]) w1)
            as (out & w' & -> & Hout)
      end;
      exists (entry_for env a w :: out), w'; rewrite <-app_assoc;
      (split; [done|by constructor]).
Qed.

(** The loop stops with [AttributeError] at an element that is not an
    object. *)
Lemma enrich_loop_not_objects accounts : ∀ enriched w,
  ¬ Forall is_object accounts →
  (enrich_loop env accounts enriched w).1 = inl AttributeError.
Proof.
  induction accounts as [|v rest IH]; intros enriched w Hnot.
  - destruct Hnot. constructor.
  - destruct (is_object_dec v) as [[a ->]|Hv].
    + destruct (enrich_loop_cons_object a rest enriched w) as [w1 ->].
      apply IH. intros Hrest. apply Hnot. constructor; [by eexists|done].
    + by rewrite enrich_loop_cons_other.
Qed.
End Aggregation.

Section AggregationResults.
Context (env : environment).

Lemma get_accounts_with_balances_inv skip limit w raw w1 result w2 :
  get_accounts_new env skip None limit None "desc" w = (inr raw, w1) →
  get_accounts_with_balances env skip limit w = (inr result, w2) →
  ∃ listed accounts r out,
    py_get_default raw "accounts" (JArr []) = inr listed ∧
    py_iter listed = inr accounts ∧
    enrich_loop env accounts [] w1 = (inr out, w2) ∧
    result = JObj r ∧
    r !! "accounts" = Some (JArr out) ∧
    r !! "totalCount" = Some (JInt (Z.of_nat (length out))).
Proof.
  intros Hraw. unfold get_accounts_with_balances. rewrite (bind_inr _ _ _ _ _ Hraw).
  unfold bind at 1, lift.
  destruct (py_get_default raw "accounts" (JArr [])) as [e|listed] eqn:Hl; [done|].
  unfold bind at 1. destruct (py_iter listed) as [e|accounts] eqn:Hi; [done|].
  unfold bind at 1.
  destruct (enrich_loop env accounts [] w1) as [[e|out] w'] eqn:Hloop; [done|].
  unfold bind at 1. destruct (py_get_default raw "hasMore" _) as [e|hm]; [done|].
  unfold ret. intros [= <- <-]. by eexists listed, accounts, _, out.
Qed.

Lemma get_accounts_with_balances_listing skip limit w payload objs w1 out w2 :
  get_accounts_new env skip None limit None "desc" w = (inr (JObj payload), w1) →
  lists_accounts payload (JObj <$> objs) →
  enrich_loop env (JObj <$> objs) [] w1 = (inr out, w2) →
  ∃ r, get_accounts_with_balances env skip limit w = (inr (JObj r), w2) ∧
       r !! "accounts" = Some (JArr out) ∧
       r !! "totalCount" = Some (JInt (Z.of_nat (length out))).
Proof.
  intros Hraw Hlist Hloop. unfold get_accounts_with_balances.
  rewrite (bind_inr _ _ _ _ _ Hraw). unfold bind at 1, lift. cbn [py_get_default].
  rewrite Hlist. unfold bind at 1. cbn [py_iter]. unfold bind at 1. rewrite Hloop.
  unfold bind, ret. by eexists.
Qed.

(** The aggregation after a fetch that returned. *)
Lemma get_accounts_with_balances_cases skip limit w raw w1 :
  get_accounts_new env skip None limit None "desc" w = (inr raw, w1) →
  get_accounts_with_balances env skip limit w =
    match listed_accounts raw with
    | inl e => (inl e, w1)
    | inr accounts =>
        match enrich_loop env accounts [] w1 with
        | (inl e, w2) => (inl e, w2)
        | (inr out, w2) =>
            (res_bind (py_get_default raw "hasMore" (JBool false)) (λ has_more,
               inr (JObj (list_to_map [
                 ("accounts", JArr out);
                 ("totalCount", JInt (Z.of_nat (length out)));
                 ("hasMore", has_more)]))), w2)
        end
    end.
Proof.
  intros Hraw. unfold get_accounts_with_balances, listed_accounts.
  rewrite (bind_inr _ _ _ _ _ Hraw). unfold bind at 1, lift.
  destruct (py_get_default raw "accounts" _) as [e|listed]; [done|]. cbn [res_bind].
  unfold bind at 1. destruct (py_iter listed) as [e|accounts]; [done|].
  unfold bind at 1. destruct (enrich_loop env accounts [] w1) as [[e|out] w2]; [done|].
  unfold bind, ret. by destruct (py_get_default raw "hasMore" _).
Qed.

Lemma balance_current_same account entry :
  same_but_enrichment account entry → balance_current entry = balance_current account.
Proof.
  intros (a & e & -> & -> & Hsame). unfold balance_current. cbn [py_getitem].
  by rewrite Hsame.
Qed.

Lemma total_current_same accounts out :
  Forall2 same_but_enrichment accounts out →
  ∀ acc, total_current_from acc out = total_current_from acc accounts.
Proof.
  induction 1 as [|account entry accounts out Hsame _ IH]; intros acc; [done|].
  cbn [total_current_from]. rewrite (balance_current_same _ _ Hsame).
  destruct (balance_current account) as [e|c]; [done|]. cbn [res_bind].
  destruct (py_add acc c) as [e|acc']; [done|]. apply IH.
Qed.
End AggregationResults.

(** ** Properties of the aggregation *)

(** C1 (amended). Two-tier failure policy of
    [get_accounts_with_balances].  When the accounts-list fetch raises, the
    aggregation raises the same exception and does nothing else.  When the
    fetch returns, the aggregation returns exactly if the payload is a JSON
    object whose ["accounts"] (an empty list if absent) can be iterated and
    yields JSON objects only: it then returns one entry per listed account,
    in the listed order, each entry being its account up to the two
    enrichment keys, and a [totalCount] of the number of listed accounts,
    whatever the partner answers (or fails to answer) to the balance calls.
    On any other payload the aggregation raises although the fetch
    returned: the exception of reading or iterating ["accounts"], or
    [AttributeError] at an element that is not an object. *)
Theorem two_tier_failure_policy (env : environment) (skip limit : Z) (w : world) :
  let run := get_accounts_with_balances env skip limit w in
  (∀ e w1,
     get_accounts_new env skip None limit None "desc" w = (inl e, w1) →
     run = (inl e, w1)) ∧
  (∀ raw w1,
     get_accounts_new env skip None limit None "desc" w = (inr raw, w1) →
     (∀ accounts,
        listed_accounts raw = inr accounts →
        Forall is_object accounts →
        ∃ r out w2,
          run = (inr (JObj r), w2) ∧
          r !! "accounts" = Some (JArr out) ∧
          r !! "totalCount" = Some (JInt (Z.of_nat (length accounts))) ∧
          Forall2 same_but_enrichment accounts out) ∧
     (∀ e, listed_accounts raw = inl e → run = (inl e, w1)) ∧
     (∀ accounts,
        listed_accounts raw = inr accounts →
        ¬ Forall is_object accounts →
        run.1 = inl AttributeError)).
Proof.
  cbv zeta. split.
  - intros e w1 Hfail. unfold get_accounts_with_balances. by apply bind_inl.
  - intros raw w1 Hraw.
    rewrite (get_accounts_with_balances_cases env skip limit w raw w1 Hraw).
    split_and!.
    + intros accounts Hlisted Hobj. rewrite Hlisted.
      assert (is_object raw) as [payload ->]
        by (destruct raw; try done; by eexists).
      apply is_object_fmap in Hobj as [objs ->].
      destruct (enrich_loop_total env objs [] w1) as (out & w2 & Hloop & Hlen).
      pose proof (enrich_loop_inv env _ _ _ _ _ Hloop) as (out' & Hout' & Hsame).
      cbn [app] in Hloop, Hout'. subst out'. rewrite Hloop.
      cbn [py_get_default res_bind].
      eexists _, out, w2. split; [done|]. split; [done|]. split; [|done].
      by rewrite length_fmap, <-Hlen.
    + by intros e ->.
    + intros accounts -> Hnot.
      pose proof (enrich_loop_not_objects env accounts [] w1 Hnot) as Hloop.
      destruct (enrich_loop env accounts [] w1) as [[e|out] w2];
        cbn [fst] in Hloop |- *; [by injection Hloop as ->|discriminate Hloop].
Qed.

(** C2 (amended). Partial-failure result shape: when the accounts-list call
    returns a payload listing N account objects, the aggregation returns N
    entries in the listed order, each following the outcome of the balance
    call made for its account, whatever the other calls did.  An account
    whose balance call returns a JSON object carries [detailed_balances]
    (the reply's ["balances"], an empty list if absent) and
    [balance_last_updated] (the reply's ["lastUpdated"], the account's own if
    absent) and is otherwise unchanged; an account whose balance call fails,
    or for which none is made, is returned exactly as it was listed: nothing
    is added to it, neither an empty [detailed_balances] nor a flag. *)
Theorem partial_failure_result_shape (env : environment) (skip limit : Z) (w : world)
    (payload : gmap string json) (objs : list (gmap string json)) (w1 : world) :
  get_accounts_new env skip None limit None "desc" w = (inr (JObj payload), w1) →
  lists_accounts payload (JObj <$> objs) →
  ∃ r out w2,
    get_accounts_with_balances env skip limit w = (inr (JObj r), w2) ∧
    r !! "accounts" = Some (JArr out) ∧
    Forall3 entry_matches objs (balance_calls env objs w1) out.
Proof.
  intros Hraw Hlist.
  destruct (enrich_loop_outcomes env objs [] w1) as (out & w2 & Hloop & Hout).
  destruct (get_accounts_with_balances_listing env skip limit w payload objs w1 _ _
              Hraw Hlist Hloop) as (r & Hrun & Hacc & _).
  by exists r, out, w2.
Qed.

(** C8. Enrichment is balance-preserving: in every aggregation that
    returns, each returned entry agrees with the account it was listed as on
    every key other than [detailed_balances] and [balance_last_updated], and
    the sum of [balance.current] over the returned entries is the sum over
    the raw accounts-list response. *)
Theorem enrichment_preserves_balances (env : environment) (skip limit : Z)
    (w : world) (raw : json) (w1 : world) (result : json) (w2 : world) :
  get_accounts_new env skip None limit None "desc" w = (inr raw, w1) →
  get_accounts_with_balances env skip limit w = (inr result, w2) →
  ∃ listed accounts r out,
    py_get_default raw "accounts" (JArr []) = inr listed ∧
    py_iter listed = inr accounts ∧
    result = JObj r ∧
    r !! "accounts" = Some (JArr out) ∧
    Forall2 same_but_enrichment accounts out ∧
    total_current out = total_current accounts.
Proof.
  intros Hraw Hrun.
  destruct (get_accounts_with_balances_inv env skip limit w raw w1 result w2 Hraw Hrun)
    as (listed & accounts & r & out & Hl & Hi & Hloop & -> & Hacc & _).
  apply enrich_loop_inv in Hloop as (out' & -> & Hsame). cbn [app] in *.
  exists listed, accounts, r, out'. split_and!; try done.
  by apply total_current_same.
Qed.

(** ** The FX quote *)

Section Quote.
Context (env : environment).

Lemma make_quote_run (f : gmap string json) target amount w :
  let rate := default (JFloat 1.0) (f !! "conversionValue") in
  make_quote env (JObj f) target amount w =
    match converted_amount env amount rate with
    | inl e => (inl e, w)
    | inr c =>
        (inr (JObj (quote_dict (uuid4 env (uuids w))
                      (default (JStr "JOD") (f !! "sourceCurrency"))
                      target rate amount c
                      (isoformat env (plus_five_minutes (utcnow env (clock w))) +:+ "Z")
                      (isoformat env (utcnow env (S (clock w))) +:+ "Z"))),
         after_quote w)
    end.
Proof.
  cbv zeta. unfold make_quote, converted_amount, bind at 1, lift. cbn [py_get_default].
  unfold bind at 1.
  destruct (truthy amount); unfold lift, ret;
    [destruct (py_mul _ amount _) as [e|c]; [done|]|]; reflexivity.
Qed.

Lemma make_quote_inv fx_rate target amount w q w' :
  make_quote env fx_rate target amount w = (inr q, w') →
  ∃ f quote_id base rate c valid_until timestamp,
    fx_rate = JObj f ∧
    rate = default (JFloat 1.0) (f !! "conversionValue") ∧
    converted_amount env amount rate = inr c ∧
    q = JObj (quote_dict quote_id base target rate amount c valid_until timestamp).
Proof.
  destruct fx_rate as [| | | | | |f]; try done.
  rewrite make_quote_run. cbv zeta.
  destruct (converted_amount env amount _) as [e|c] eqn:Hc; [done|].
  intros [= <- <-]. by eexists f, _, _, _, c, _, _.
Qed.

Lemma quote_loop_run target_currency amount data : ∀ w,
  quote_loop env target_currency amount data w =
    match select_rate target_currency data with
    | inl e => (inl e, w)
    | inr None => (inr None, w)
    | inr (Some fx_rate) =>
        (let! quote := make_quote env fx_rate (JStr target_currency) amount in
         ret (Some quote)) w
    end.
Proof.
  induction data as [|fx_rate rest IH]; intros w; [done|].
  cbn [quote_loop select_rate]. unfold bind at 1, lift.
  destruct (py_get fx_rate "targetCurrency") as [e|target]; [done|]. cbn [res_bind].
  destruct (py_eq_str target target_currency); [done|]. apply IH.
Qed.

Lemma select_rate_Some target_currency data fx_rate :
  select_rate target_currency data = inr (Some fx_rate) →
  ∃ before after f,
    data = before ++ fx_rate :: after ∧
    fx_rate = JObj f ∧
    f !! "targetCurrency" = Some (JStr target_currency) ∧
    Forall (λ x, ∃ g, x = JObj g ∧
              py_eq_str (default JNull (g !! "targetCurrency")) target_currency = false)
           before.
Proof.
  induction data as [|x rest IH]; [done|]. cbn [select_rate].
  destruct x as [| | | | | |g]; try done. cbn [py_get py_get_default res_bind].
  destruct (py_eq_str _ target_currency) eqn:Heq.
  - intros [= <-]. exists [], rest, g. split_and!; [done|done| |constructor].
    destruct (g !! "targetCurrency") as [[]|]; try done. cbn in Heq.
    by apply String.eqb_eq in Heq as ->.
  - intros (before & after & f & -> & Hf & Ht & Hb)%IH.
    exists (JObj g :: before), after, f. split_and!; try done.
    constructor; [by exists g|done].
Qed.

Lemma select_rate_None target_currency data :
  select_rate target_currency data = inr None →
  Forall (λ x, ∃ g, x = JObj g ∧
            py_eq_str (default JNull (g !! "targetCurrency")) target_currency = false)
         data.
Proof.
  induction data as [|x rest IH]; [constructor|]. cbn [select_rate].
  destruct x as [| | | | | |g]; try done. cbn [py_get py_get_default res_bind].
  destruct (py_eq_str _ target_currency) eqn:Heq; [done|].
  intros Hrest. constructor; [by exists g|by apply IH].
Qed.

(** The exchange of [get_fx_quote], then its two branches. *)
Lemma get_fx_quote_run target_currency amount w :
  let rq := quote_request env w in
  let w1 := after_exchange 0 rq w in
  get_fx_quote env target_currency amount w =
    match partner env (length (sent w)) rq with
    | inl e => (inl e, w1)
    | inr r =>
        if status_code r =? 200 then
          (let! fx_data := lift (response_json r) in
           convert_fx_response env target_currency amount fx_data) w1
        else (inl (Exception (error_message "JoPACC FX API Error: " r)), w1)
    end.
Proof.
  cbv zeta. unfold get_fx_quote, bind at 1 2 3, fresh_uuid, http_get. cbn.
  fold (quote_request env w). destruct (partner env _ _) as [e|r]; [done|].
  by destruct (status_code r =? 200).
Qed.

(** On a payload [{"data": [entry, ...]}] the conversion is rate selection
    followed by [make_quote]. *)
Lemma convert_fx_response_run target_currency amount (fx : gmap string json)
    first rest w :
  fx !! "data" = Some (JArr (first :: rest)) →
  convert_fx_response env target_currency amount (JObj fx) w =
    match select_rate target_currency (first :: rest) with
    | inl e => (inl e, w)
    | inr (Some fx_rate) => make_quote env fx_rate (JStr target_currency) amount w
    | inr None =>
        (let! target :=
           lift (py_get_default first "targetCurrency" (JStr target_currency)) in
         make_quote env first target amount) w
    end.
Proof.
  intros Hdata. unfold convert_fx_response. cbv zeta. unfold bind at 1, lift.
  cbn [py_in]. rewrite Hdata. rewrite bool_decide_eq_true_2 by by eexists.
  unfold bind at 1. cbn [py_getitem]. rewrite Hdata. cbn [andb truthy].
  unfold bind at 1. cbn [py_iter]. unfold bind at 1. rewrite quote_loop_run.
  destruct (select_rate _ _) as [e|[fx_rate|]]; [done| |done].
  unfold bind, ret. by destruct (make_quote _ _ _ _ _) as [[e|q] w'].
Qed.

(** Whatever the payload, a quote that is returned was built by
    [make_quote]. *)
Lemma convert_fx_response_inv target_currency amount fx_data w q w' :
  convert_fx_response env target_currency amount fx_data w = (inr q, w') →
  ∃ fx_rate target w0, make_quote env fx_rate target amount w0 = (inr q, w').
Proof.
  unfold convert_fx_response. cbv zeta. unfold bind at 1, lift.
  destruct (py_in "data" fx_data) as [e|has]; [done|].
  destruct has; [|done]. unfold bind at 1.
  destruct (py_getitem fx_data "data") as [e|data]; [done|]. cbn [andb].
  destruct (truthy data); [|done]. unfold bind at 1.
  destruct (py_iter data) as [e|entries]; [done|]. unfold bind at 1.
  rewrite quote_loop_run.
  destruct (select_rate _ _) as [e|[fx_rate|]]; [done| |].
  - unfold bind, ret.
    destruct (make_quote env fx_rate _ amount w) as [[e|q'] w''] eqn:Hq; [done|].
    intros [= <- <-]. eauto.
  - unfold bind at 1. destruct (py_first data) as [e|first]; [done|].
    unfold bind at 1.
    destruct (py_get_default first _ _) as [e|target]; [done|]. eauto.
Qed.

Lemma get_fx_quote_inv target_currency amount w q w' :
  get_fx_quote env target_currency amount w = (inr q, w') →
  ∃ fx_rate target w0, make_quote env fx_rate target amount w0 = (inr q, w').
Proof.
  rewrite get_fx_quote_run. cbv zeta.
  destruct (partner env _ _) as [e|r]; [done|].
  destruct (status_code r =? 200); [|done]. unfold bind at 1, lift.
  destruct (response_json r) as [e|fx_data]; [done|].
  apply convert_fx_response_inv.
Qed.
End Quote.


Section QuoteResults.
Context (env : environment).

Lemma quote_dict_converted quote_id base target rate amount c valid_until timestamp :
  quote_dict quote_id base target rate amount c valid_until timestamp
    !! "convertedAmount" = Some c.
Proof. reflexivity. Qed.

Lemma quote_dict_amount quote_id base target rate amount c valid_until timestamp :
  quote_dict quote_id base target rate amount c valid_until timestamp
    !! "amount" = Some amount.
Proof. reflexivity. Qed.

Lemma quote_dict_rate quote_id base target rate amount c valid_until timestamp :
  quote_dict quote_id base target rate amount c valid_until timestamp
    !! "rate" = Some rate.
Proof. reflexivity. Qed.

Lemma quote_dict_target quote_id base target rate amount c valid_until timestamp :
  quote_dict quote_id base target rate amount c valid_until timestamp
    !! "targetCurrency" = Some target.
Proof. reflexivity. Qed.

Lemma quote_dict_warning quote_id base target rate amount c valid_until timestamp :
  quote_dict quote_id base target rate amount c valid_until timestamp
    !! "warning" = None.
Proof. reflexivity. Qed.

Lemma quote_dict_degraded quote_id base target rate amount c valid_until timestamp :
  quote_dict quote_id base target rate amount c valid_until timestamp
    !! "degraded" = None.
Proof. reflexivity. Qed.

(** A returned quote is a [quote_dict] whose converted amount follows
    the conditional expression of the source. *)
Lemma get_fx_quote_returns target_currency amount w q w' :
  get_fx_quote env target_currency amount w = (inr q, w') →
  ∃ quote_id base target rate c valid_until timestamp,
    converted_amount env amount rate = inr c ∧
    q = JObj (quote_dict quote_id base target rate amount c valid_until timestamp).
Proof.
  intros (fx_rate & target & w0 & Hq)%get_fx_quote_inv.
  apply make_quote_inv in Hq as (f & qid & base & rate & c & vu & ts & _ & _ & Hc & ->).
  by exists qid, base, target, rate, c, vu, ts.
Qed.

(** The quote on a well-formed table: the first exact match if there is
    one, else the first entry under its own target currency. *)
Lemma get_fx_quote_on_table target_currency amount w r (fx : gmap string json)
    first rest :
  partner env (length (sent w)) (quote_request env w) = inr r →
  status_code r = 200 →
  json_body r = Some (JObj fx) →
  fx !! "data" = Some (JArr (first :: rest)) →
  get_fx_quote env target_currency amount w =
    let w1 := after_exchange 0 (quote_request env w) w in
    match select_rate target_currency (first :: rest) with
    | inl e => (inl e, w1)
    | inr (Some fx_rate) => make_quote env fx_rate (JStr target_currency) amount w1
    | inr None =>
        (let! target :=
           lift (py_get_default first "targetCurrency" (JStr target_currency)) in
         make_quote env first target amount) w1
    end.
Proof.
  intros Hreply Hstatus Hbody Hdata. rewrite get_fx_quote_run. cbv zeta.
  rewrite Hreply, Hstatus. cbn [Z.eqb Pos.eqb]. unfold bind at 1, lift, response_json.
  rewrite Hbody. by apply convert_fx_response_run.
Qed.
End QuoteResults.

(** ** The account-scoped FX operations *)

Section AccountScoped.
Context (env : environment).

Lemma rates_result_run account_id account_currency (fx : gmap string json) w :
  ∃ rates last_updated w',
    rates_result env account_id account_currency (JObj fx) w =
      (inr (rates_dict account_id account_currency (JObj fx) rates last_updated), w').
Proof. unfold rates_result, bind, lift, ret, clock_read. cbn. eauto. Qed.

Lemma rates_result_inv account_id account_currency fx_response w result w' :
  rates_result env account_id account_currency fx_response w = (inr result, w') →
  ∃ rates last_updated,
    result = rates_dict account_id account_currency fx_response rates last_updated.
Proof.
  destruct fx_response; try done.
  unfold rates_result, bind, lift, ret, clock_read. cbn. intros [= <- <-]. eauto.
Qed.

(** The [except] branch of [get_fx_rates_for_account]. *)
Lemma rates_fallback_run account_id w :
  (let! fx_response := get_fx_rates env in
   let! result := rates_result env account_id (JStr "JOD") fx_response in
   ret (JObj (<["warning" := rates_warning]> result))) w =
  match get_fx_rates env w with
  | (inl e, w1) => (inl e, w1)
  | (inr fx_response, w1) =>
      match rates_result env account_id (JStr "JOD") fx_response w1 with
      | (inl e, w2) => (inl e, w2)
      | (inr result, w2) => (inr (JObj (<["warning" := rates_warning]> result)), w2)
      end
  end.
Proof.
  unfold bind at 1. destruct (get_fx_rates env w) as [[e|fx] w1]; [done|].
  unfold bind, ret. by destruct (rates_result _ _ _ _ _) as [[e|r] w2].
Qed.

Lemma spread_quote_lookup account_id (q : gmap string json) k v :
  q !! k = Some v →
  ∃ s, spread_quote account_id (JObj q) = inr s ∧ s !! k = Some v.
Proof.
  intros Hk. eexists. split; [done|]. by apply lookup_union_Some_l.
Qed.

(** The [try] block of [get_fx_rates_for_account]. *)
Lemma rates_body_inv account_id w a w' :
  (let! account_currency := verify_account env account_id in
   let! fx_response := get_fx_rates env in
   let! result := rates_result env account_id account_currency fx_response in
   ret (JObj result)) w = (inr a, w') →
  ∃ account_currency fx_response rates last_updated,
    a = JObj (rates_dict account_id account_currency fx_response rates last_updated).
Proof.
  intros H.
  apply bind_inv in H as [(? & ? & [=])|(cur & w1 & _ & H)].
  apply bind_inv in H as [(? & ? & [=])|(fx & w2 & _ & H)].
  apply bind_inv in H as [(? & ? & [=])|(result & w3 & Hres & H)].
  injection H as <- <-.
  apply rates_result_inv in Hres as (rates & lu & ->). by exists cur, fx, rates, lu.
Qed.

Lemma rates_body_run account_id w account_currency w1 (fx : gmap string json) w2 :
  verify_account env account_id w = (inr account_currency, w1) →
  get_fx_rates env w1 = (inr (JObj fx), w2) →
  ∃ rates last_updated w3,
    (let! account_currency := verify_account env account_id in
     let! fx_response := get_fx_rates env in
     let! result := rates_result env account_id account_currency fx_response in
     ret (JObj result)) w =
    (inr (JObj (rates_dict account_id account_currency (JObj fx) rates last_updated)), w3).
Proof.
  intros Hv Hfx.
  destruct (rates_result_run account_id account_currency fx w2) as (rates & lu & w3 & Hr).
  exists rates, lu, w3. rewrite (bind_inr _ _ _ _ _ Hv), (bind_inr _ _ _ _ _ Hfx).
  by rewrite (bind_inr _ _ _ _ _ Hr).
Qed.

(** The [except] branch of [get_fx_quote_for_account]. *)
Lemma quote_fallback_run account_id target_currency amount w :
  (let! quote_response := get_fx_quote env target_currency amount in
   let! spread := lift (spread_quote account_id quote_response) in
   ret (JObj (<["warning" := quote_warning]> spread))) w =
  match get_fx_quote env target_currency amount w with
  | (inl e, w1) => (inl e, w1)
  | (inr quote_response, w1) =>
      match spread_quote account_id quote_response with
      | inl e => (inl e, w1)
      | inr spread => (inr (JObj (<["warning" := quote_warning]> spread)), w1)
      end
  end.
Proof.
  unfold bind at 1. destruct (get_fx_quote env _ _ w) as [[e|q] w1]; [done|].
  unfold bind, lift, ret. by destruct (spread_quote _ _).
Qed.

(** The [try] block of [get_fx_quote_for_account], on a returned quote. *)
Lemma quote_body_run account_id target_currency amount w account_currency w1
    (q : gmap string json) w2 :
  verify_account env account_id w = (inr account_currency, w1) →
  get_fx_quote env target_currency amount w1 = (inr (JObj q), w2) →
  (let! account_currency := verify_account env account_id in
   let! quote_response := get_fx_quote env target_currency amount in
   let! base := lift (py_get_default quote_response "baseCurrency" account_currency) in
   let! rate := lift (py_get_default quote_response "rate" (JFloat 1.0)) in
   let! converted := lift (py_get quote_response "convertedAmount") in
   let! quote_id := lift (py_get quote_response "quoteId") in
   let! valid_until := lift (py_get quote_response "validUntil") in
   let! timestamp := lift (py_get quote_response "timestamp") in
   ret (JObj (account_quote_dict account_id account_currency quote_response base
                target_currency rate amount converted quote_id valid_until
                timestamp))) w =
  (inr (JObj (account_quote_dict account_id account_currency (JObj q)
                (default account_currency (q !! "baseCurrency"))
                target_currency
                (default (JFloat 1.0) (q !! "rate"))
                amount
                (default JNull (q !! "convertedAmount"))
                (default JNull (q !! "quoteId"))
                (default JNull (q !! "validUntil"))
                (default JNull (q !! "timestamp")))), w2).
Proof.
  intros Hv Hq. rewrite (bind_inr _ _ _ _ _ Hv), (bind_inr _ _ _ _ _ Hq). reflexivity.
Qed.

Lemma quote_body_inv account_id target_currency amount w a w' :
  (let! account_currency := verify_account env account_id in
   let! quote_response := get_fx_quote env target_currency amount in
   let! base := lift (py_get_default quote_response "baseCurrency" account_currency) in
   let! rate := lift (py_get_default quote_response "rate" (JFloat 1.0)) in
   let! converted := lift (py_get quote_response "convertedAmount") in
   let! quote_id := lift (py_get quote_response "quoteId") in
   let! valid_until := lift (py_get quote_response "validUntil") in
   let! timestamp := lift (py_get quote_response "timestamp") in
   ret (JObj (account_quote_dict account_id account_currency quote_response base
                target_currency rate amount converted quote_id valid_until
                timestamp))) w = (inr a, w') →
  ∃ account_currency w1 q,
    verify_account env account_id w = (inr account_currency, w1) ∧
    get_fx_quote env target_currency amount w1 = (inr (JObj q), w') ∧
    a = JObj (account_quote_dict account_id account_currency (JObj q)
                (default account_currency (q !! "baseCurrency"))
                target_currency
                (default (JFloat 1.0) (q !! "rate"))
                amount
                (default JNull (q !! "convertedAmount"))
                (default JNull (q !! "quoteId"))
                (default JNull (q !! "validUntil"))
                (default JNull (q !! "timestamp"))).
Proof.
  intros H.
  apply bind_inv in H as [(? & ? & [=])|(cur & w1 & Hv & H)].
  apply bind_inv in H as [(? & ? & [=])|(quote & w2 & Hq & H)].
  destruct (get_fx_quote_returns env _ _ _ _ _ Hq)
    as (qid & base & target & rate & c & vu & ts & _ & ->).
  injection H as <- <-. by eexists cur, w1, _.
Qed.
(** The dictionary built around a JSON object. *)
Lemma rates_result_object account_id account_currency (fx : gmap string json) w :
  rates_result env account_id account_currency (JObj fx) w =
    (inr (rates_dict account_id account_currency (JObj fx)
            (default (JArr []) (fx !! "rates"))
            (default (JStr (isoformat env (utcnow env (clock w)) +:+ "Z"))
               (fx !! "lastUpdated"))),
     World (uuids w) (S (clock w)) (sent w)).
Proof. reflexivity. Qed.

(** Any other JSON value has no [get]. *)
Lemma rates_result_other account_id account_currency v w :
  ¬ is_object v →
  rates_result env account_id account_currency v w = (inl AttributeError, w).
Proof. intros Hv. destruct v; try done. destruct Hv. by eexists. Qed.

Lemma rates_dict_reports account_id account_currency (fx : gmap string json) now :
  let result :=
    rates_dict account_id account_currency (JObj fx)
      (default (JArr []) (fx !! "rates"))
      (default (JStr (isoformat env now +:+ "Z")) (fx !! "lastUpdated")) in
  (result !! "warning" = None ∧
   reports_rates env account_id account_currency fx now result) ∧
  reports_rates env account_id account_currency fx now
    (<["warning" := rates_warning]> result).
Proof.
  cbv zeta. unfold reports_rates. split_and!; try reflexivity.
  - intros k Hk. rewrite !not_elem_of_cons in Hk. destruct_and!.
    unfold rates_dict. cbn [list_to_map foldr uncurry].
    by rewrite !lookup_insert_ne, lookup_empty.
  - intros k Hk. rewrite !not_elem_of_cons in Hk. destruct_and!.
    unfold rates_dict. cbn [list_to_map foldr uncurry].
    by rewrite !lookup_insert_ne, lookup_empty.
Qed.

Lemma account_quote_dict_reports account_id account_currency target_currency amount
    (q : gmap string json) :
  let result :=
    account_quote_dict account_id account_currency (JObj q)
      (default account_currency (q !! "baseCurrency")) target_currency
      (default (JFloat 1.0) (q !! "rate")) amount
      (default JNull (q !! "convertedAmount")) (default JNull (q !! "quoteId"))
      (default JNull (q !! "validUntil")) (default JNull (q !! "timestamp")) in
  result !! "warning" = None ∧
  reports_quote account_id account_currency target_currency amount q result.
Proof.
  cbv zeta. unfold reports_quote. split_and!; try reflexivity.
  intros k Hk. rewrite !not_elem_of_cons in Hk. destruct_and!.
  unfold account_quote_dict. cbn [list_to_map foldr uncurry].
  by rewrite !lookup_insert_ne, lookup_empty.
Qed.

Lemma spread_quote_reports account_id quote_id base target rate amount c
    valid_until timestamp :
  let q := quote_dict quote_id base target rate amount c valid_until timestamp in
  ∃ spread,
    spread_quote account_id (JObj q) = inr spread ∧
    spreads_quote account_id q (<["warning" := quote_warning]> spread).
Proof.
  cbv zeta. eexists. split; [reflexivity|]. unfold spreads_quote. split_and!.
  - rewrite lookup_insert_ne by done. by rewrite lookup_union_r.
  - rewrite lookup_insert_ne by done. by rewrite lookup_union_r.
  - rewrite lookup_insert_ne by done. by rewrite lookup_union_r.
  - by rewrite lookup_insert_eq.
  - intros k v Hk.
    assert (k ≠ "warning") as Hw
      by (intros ->; by rewrite quote_dict_warning in Hk).
    rewrite lookup_insert_ne by done. by apply lookup_union_Some_l.
  - intros k Hq Hk. rewrite !not_elem_of_cons in Hk. destruct_and!.
    rewrite lookup_insert_ne by done. apply lookup_union_None_2; [done|].
    cbn [list_to_map foldr uncurry]. by rewrite !lookup_insert_ne, lookup_empty.
Qed.
End AccountScoped.

(** ** Properties of the FX operations *)

(** C3 (amended). Disclosure of unverified FX results.  Neither
    [get_fx_rates_for_account] nor [get_fx_quote_for_account] ever puts a
    ["degraded"] key into its result.  When account verification succeeds
    and the FX call that follows it returns (for rates: returns a JSON
    object), the result has no ["warning"] key and carries the verified
    account's currency: for rates the five keys [account_id],
    [account_currency], [fx_data], [rates_for_account] and [last_updated],
    for quotes the eleven keys of the quote result.  When verification fails
    (account not listed, or the accounts fetch raised) the outcome is that of
    one further FX call.  If it raises, the operation raises the same
    exception.  If the FX-rates call returns a JSON value that is not an
    object, the operation raises [AttributeError].  Otherwise the result
    carries ["warning"] and the default currency ["JOD"]: for rates the same
    five keys plus [warning], for quotes the quote's own keys, spread into
    the result next to [account_id], [account_currency], [quote_data] and
    [warning]. *)
Theorem unverified_fx_is_disclosed_by_warning (env : environment)
    (account_id target_currency : string) (amount : json) (w : world) :
  let rates := get_fx_rates_for_account env account_id in
  let quote := get_fx_quote_for_account env account_id target_currency amount in
  (∀ result w', rates w = (inr result, w') ∨ quote w = (inr result, w') →
     ∃ r, result = JObj r ∧ r !! "degraded" = None) ∧
  (∀ account_currency w1,
     verify_account env account_id w = (inr account_currency, w1) →
     (∀ fx w2, get_fx_rates env w1 = (inr (JObj fx), w2) →
        ∃ r w', rates w = (inr (JObj r), w') ∧
                r !! "warning" = None ∧
                reports_rates env account_id account_currency fx
                  (utcnow env (clock w2)) r) ∧
     (∀ q w2, get_fx_quote env target_currency amount w1 = (inr q, w2) →
        ∃ qm r, q = JObj qm ∧
                quote w = (inr (JObj r), w2) ∧
                r !! "warning" = None ∧
                reports_quote account_id account_currency target_currency amount
                  qm r)) ∧
  (∀ e w1,
     verify_account env account_id w = (inl e, w1) →
     (∀ fx w2, get_fx_rates env w1 = (inr (JObj fx), w2) →
        ∃ r w', rates w = (inr (JObj r), w') ∧
                r !! "warning" = Some rates_warning ∧
                reports_rates env account_id (JStr "JOD") fx
                  (utcnow env (clock w2)) r) ∧
     (∀ v w2, get_fx_rates env w1 = (inr v, w2) → ¬ is_object v →
        rates w = (inl AttributeError, w2)) ∧
     (∀ e' w2, get_fx_rates env w1 = (inl e', w2) → rates w = (inl e', w2)) ∧
     (∀ q w2, get_fx_quote env target_currency amount w1 = (inr q, w2) →
        ∃ qm r, q = JObj qm ∧
                quote w = (inr (JObj r), w2) ∧
                spreads_quote account_id qm r) ∧
     (∀ e' w2, get_fx_quote env target_currency amount w1 = (inl e', w2) →
        quote w = (inl e', w2))).
Proof.
  cbv zeta. split_and!.
  - (* no "degraded" key, whichever branch returned *)
    intros result w' [Hrun|Hrun].
    + unfold get_fx_rates_for_account, try_except in Hrun.
      match type of Hrun with
      | match ?body w with _ => _ end = _ => destruct (body w) as [[e|a] w1] eqn:Hbody
      end.
      * rewrite rates_fallback_run in Hrun.
        destruct (get_fx_rates env w1) as [[e'|fx] w2]; [done|].
        destruct (rates_result env account_id (JStr "JOD") fx w2)
          as [[e'|r] w3] eqn:Hr; [done|].
        injection Hrun as <- <-. apply rates_result_inv in Hr as (rs & lu & ->).
        eexists. split; [done|]. by rewrite lookup_insert_ne.
      * injection Hrun as <- <-.
        apply rates_body_inv in Hbody as (cur & fx & rs & lu & ->). by eexists.
    + unfold get_fx_quote_for_account, try_except in Hrun.
      match type of Hrun with
      | match ?body w with _ => _ end = _ => destruct (body w) as [[e|a] w1] eqn:Hbody
      end.
      * rewrite quote_fallback_run in Hrun.
        destruct (get_fx_quote env target_currency amount w1) as [[e'|q] w2] eqn:Hq;
          [done|].
        destruct (get_fx_quote_returns env _ _ _ _ _ Hq)
          as (qid & base & target & rate & c & vu & ts & _ & ->).
        injection Hrun as <- <-. eexists. split; [done|].
        rewrite lookup_insert_ne by done. by apply lookup_union_None_2.
      * injection Hrun as <- <-.
        apply quote_body_inv in Hbody as (cur & w1' & q & _ & _ & ->). by eexists.
  - (* verification succeeded *)
    intros account_currency w1 Hv. split.
    + intros fx w2 Hfx.
      destruct (rates_dict_reports env account_id account_currency fx
                  (utcnow env (clock w2))) as ((Hwarning & Hreports) & _).
      eexists _, _. unfold get_fx_rates_for_account, try_except.
      rewrite (bind_inr _ _ _ _ _ Hv), (bind_inr _ _ _ _ _ Hfx).
      unfold bind at 1. rewrite rates_result_object. unfold ret.
      split; [reflexivity|]. split; [exact Hwarning|exact Hreports].
    + intros q w2 Hq.
      destruct (get_fx_quote_returns env _ _ _ _ _ Hq)
        as (qid & base & target & rate & c & vu & ts & _ & ->).
      destruct (account_quote_dict_reports account_id account_currency
                  target_currency amount
                  (quote_dict qid base target rate amount c vu ts))
        as (Hwarning & Hreports).
      eexists _, _. split; [reflexivity|]. unfold get_fx_quote_for_account.
      rewrite (try_except_inr _ _ _ _ _
                 (quote_body_run env account_id target_currency amount w
                    account_currency w1 _ w2 Hv Hq)).
      split; [reflexivity|]. split; [exact Hwarning|exact Hreports].
  - (* verification failed *)
    intros e w1 Hv.
    assert (∀ B (k : json → M B), (let! c := verify_account env account_id in k c) w
                                  = (inl e, w1)) as Hbody
      by (intros B k; by apply bind_inl).
    split_and!.
    + intros fx w2 Hfx.
      destruct (rates_dict_reports env account_id (JStr "JOD") fx
                  (utcnow env (clock w2))) as (_ & Hreports).
      eexists _, _. unfold get_fx_rates_for_account.
      rewrite (try_except_inl _ _ _ _ _ (Hbody _ _)), rates_fallback_run, Hfx.
      rewrite rates_result_object.
      split; [reflexivity|]. split; [by rewrite lookup_insert_eq|exact Hreports].
    + intros v w2 Hfx Hv'. unfold get_fx_rates_for_account.
      rewrite (try_except_inl _ _ _ _ _ (Hbody _ _)), rates_fallback_run, Hfx.
      by rewrite rates_result_other.
    + intros e' w2 Hfx. unfold get_fx_rates_for_account.
      by rewrite (try_except_inl _ _ _ _ _ (Hbody _ _)), rates_fallback_run, Hfx.
    + intros q w2 Hq.
      destruct (get_fx_quote_returns env _ _ _ _ _ Hq)
        as (qid & base & target & rate & c & vu & ts & _ & ->).
      destruct (spread_quote_reports account_id qid base target rate amount c vu ts)
        as (spread & Hspread & Hreports).
      eexists _, _. split; [reflexivity|]. unfold get_fx_quote_for_account.
      rewrite (try_except_inl _ _ _ _ _ (Hbody _ _)), quote_fallback_run, Hq, Hspread.
      split; [reflexivity|exact Hreports].
    + intros e' w2 Hq. unfold get_fx_quote_for_account.
      by rewrite (try_except_inl _ _ _ _ _ (Hbody _ _)), quote_fallback_run, Hq.
Qed.

(** X4. Rate selection on a well-formed table [{"data": [first, ...]}]: the
    first entry whose [targetCurrency] equals the request is quoted under the
    requested currency; when no entry matches, the first entry is quoted
    under its own [targetCurrency]; either way the quote's [rate] is that
    entry's [conversionValue], 1.0 if it has none. *)
Lemma fx_quote_selection (env : environment) (target_currency : string) (amount : json)
    (w : world) (r : response) (fx : gmap string json) (first : json)
    (rest : list json) (q : json) (w' : world) :
  partner env (length (sent w)) (quote_request env w) = inr r →
  status_code r = 200 →
  json_body r = Some (JObj fx) →
  fx !! "data" = Some (JArr (first :: rest)) →
  get_fx_quote env target_currency amount w = (inr q, w') →
  ∃ f, (select_rate target_currency (first :: rest) = inr (Some (JObj f)) ∧
        at_path ["targetCurrency"] q = Some (JStr target_currency) ∨
        select_rate target_currency (first :: rest) = inr None ∧
        first = JObj f ∧
        at_path ["targetCurrency"] q =
          Some (default (JStr target_currency) (f !! "targetCurrency"))) ∧
       at_path ["rate"] q = Some (default (JFloat 1.0) (f !! "conversionValue")).
Proof.
  intros Hreply Hstatus Hbody Hdata.
  rewrite (get_fx_quote_on_table env _ _ _ _ _ _ _ Hreply Hstatus Hbody Hdata). cbv zeta.
  destruct (select_rate _ _) as [e|[fx_rate|]] eqn:Hsel; [done| |].
  - intros Hq. apply make_quote_inv in Hq as (f & ? & ? & ? & ? & ? & ? & -> & -> & _ & ->).
    exists f. split; [left|]; done.
  - unfold bind at 1, lift.
    destruct (py_get_default first _ _) as [e|target] eqn:Ht; [done|].
    intros Hq. apply make_quote_inv in Hq as (f & ? & ? & ? & ? & ? & ? & -> & -> & _ & ->).
    injection Ht as <-. exists f. split; [right|]; done.
Qed.

(** C7 (the code at the failing input). Account [acc_1] is verified, the
    table lists USD and EUR, and GBP is requested: the quote falls back to
    the first rate (USD, 0.709), and the result of
    [get_fx_quote_for_account] labels that rate with the requested
    currency GBP at top level, the substituted currency appearing only
    inside [quote_data]. *)
Theorem account_quote_labels_fallback_with_requested_currency :
  let run :=
    get_fx_quote_for_account Scenario.env "acc_1" "GBP" (JInt 100) initial_world in
  field "warning" run = None ∧
  field "target_currency" run = Some (JStr "GBP") ∧
  field "rate" run = Some (JFloat 0.709) ∧
  (field "quote_data" run ≫= at_path ["targetCurrency"]) = Some (JStr "USD").
Proof. vm_compute. done. Qed.

(** C9 (amended). Scenario C: against the table [{USD: 0.709, EUR: 0.647}],
    a quote for ["USD"] and amount 100 has [rate] 0.709 and
    [convertedAmount] 70.89999999999999, the binary64 product of 100 and
    0.709, which is not 70.9: amounts are binary floating-point values. *)
Theorem scenario_c_quote_is_binary64 (env : environment) (w : world) (r : response)
    (amount : json) :
  partner env (length (sent w)) (quote_request env w) = inr r →
  status_code r = 200 →
  json_body r = Some Scenario.rate_table →
  amount = JInt 100 ∨ amount = JFloat 100 →
  let run := get_fx_quote env "USD" amount w in
  field "rate" run = Some (JFloat 0.709) ∧
  field "convertedAmount" run = Some (JFloat 0x1.1b99999999999p+6) ∧
  field "convertedAmount" run ≠ Some (JFloat 70.9).
Proof.
  intros Hreply Hstatus Hbody Hamount. cbv zeta. unfold field.
  rewrite (get_fx_quote_on_table env "USD" amount w r _
             (Scenario.rate "USD" 0.709) [Scenario.rate "EUR" 0.647]
             Hreply Hstatus Hbody eq_refl).
  cbv zeta.
  replace (select_rate "USD" _) with (inr (Some (Scenario.rate "USD" 0.709)) : res _)
    by reflexivity.
  unfold Scenario.rate. rewrite make_quote_run. cbv zeta.
  replace (converted_amount env amount _) with (inr (JFloat 0x1.1b99999999999p+6) : res json)
    by (by destruct Hamount as [-> | ->]; vm_compute).
  cbn [fst]. rewrite quote_dict_rate, quote_dict_converted.
  split_and!; [done|done|intros [=]].
Qed.

(** C10. A falsy amount ([None], [0], [0.0]) yields no converted amount:
    every quote [get_fx_quote] returns then has [convertedAmount] [None],
    whichever branch selected the rate, and so has every result of
    [get_fx_quote_for_account] (under ["converted_amount"] in the verified
    branch, under ["convertedAmount"] in the fallback branch). *)
Theorem falsy_amount_has_no_converted_amount (env : environment)
    (target_currency : string) (amount : json) (w : world) :
  amount = JNull ∨ amount = JInt 0 ∨ amount = JFloat 0 →
  (∀ q w', get_fx_quote env target_currency amount w = (inr q, w') →
     at_path ["convertedAmount"] q = Some JNull) ∧
  (∀ account_id result w',
     get_fx_quote_for_account env account_id target_currency amount w = (inr result, w') →
     at_path ["warning"] result = None ∧
       at_path ["converted_amount"] result = Some JNull ∨
     at_path ["warning"] result = Some quote_warning ∧
       at_path ["convertedAmount"] result = Some JNull).
Proof.
  intros Hamount.
  assert (truthy amount = false) as Hfalsy
    by (by destruct Hamount as [-> | [-> | ->]]).
  assert (∀ w0 q w', get_fx_quote env target_currency amount w0 = (inr q, w') →
            ∃ m, q = JObj m ∧ m !! "convertedAmount" = Some JNull ∧
                 m !! "warning" = None) as Hquote.
  { intros w0 q w' Hq.
    destruct (get_fx_quote_returns env _ _ _ _ _ Hq)
      as (qid & base & target & rate & c & vu & ts & Hc & ->).
    unfold converted_amount in Hc. rewrite Hfalsy in Hc. injection Hc as <-.
    by eexists. }
  split.
  - intros q w' Hq. destruct (Hquote _ _ _ Hq) as (m & -> & Hm & _). cbn. by rewrite Hm.
  - intros account_id result w' Hrun.
    unfold get_fx_quote_for_account, try_except in Hrun.
    match type of Hrun with
    | match ?body w with _ => _ end = _ => destruct (body w) as [[e|a] w1] eqn:Hbody
    end.
    + rewrite quote_fallback_run in Hrun.
      destruct (get_fx_quote env target_currency amount w1) as [[e'|q] w2] eqn:Hq; [done|].
      destruct (Hquote _ _ _ Hq) as (m & -> & Hm & _).
      injection Hrun as <- <-. right. cbn. split; [by rewrite lookup_insert_eq|].
      rewrite lookup_insert_ne by done. by rewrite (lookup_union_Some_l _ _ _ _ Hm).
    + injection Hrun as <- <-.
      apply quote_body_inv in Hbody as (cur & w1' & q & _ & Hq & ->).
      destruct (Hquote _ _ _ Hq) as (m & [= ->] & Hm & _). left. cbn. by rewrite Hm.
Qed.

(** C5 (amended). No synthetic data on failure: when the partner answers
    the accounts-list or the balances request with a status other than 200,
    the fetcher returns nothing in its place and raises Python's generic
    [Exception], built from one string: "JoPACC API Error: " (for balances
    "JoPACC Balance API Error: ") followed by the status code, " - " and the
    response body.  The error has no type and no field of its own; status
    code and body are text inside its message. *)
Theorem fetchers_raise_on_http_error (env : environment) (w : world) (r : response) :
  status_code r ≠ 200 →
  (∀ skip account_type limit account_status sort,
     partner env (length (sent w))
       (accounts_request env skip account_type limit account_status sort w) = inr r →
     (get_accounts_new env skip account_type limit account_status sort w).1 =
       inl (Exception ("JoPACC API Error: " +:+ pretty (status_code r) +:+ " - "
                       +:+ text r))) ∧
  (∀ account_id customer_ip,
     partner env (length (sent w)) (balances_request env account_id customer_ip w) = inr r →
     (get_account_balances env account_id customer_ip w).1 =
       inl (Exception ("JoPACC Balance API Error: " +:+ pretty (status_code r) +:+ " - "
                       +:+ text r))).
Proof.
  intros Hstatus. apply Z.eqb_neq in Hstatus. split.
  - intros skip account_type limit account_status sort Hreply.
    rewrite get_accounts_new_run. cbv zeta. cbn [fst]. rewrite Hreply. cbn [classify].
    by rewrite Hstatus.
  - intros account_id customer_ip Hreply.
    rewrite get_account_balances_run. cbv zeta. cbn [fst]. rewrite Hreply. cbn [classify].
    by rewrite Hstatus.
Qed.

(** ** Every effect of the service is a step *)

Section Tracking.
Context (env : environment).

Local Abbreviation tracks := (@tracks env _).
Local Abbreviation reach := (rtc (step env)).

Lemma tracks_ret {A} (a : A) : tracks (ret a).
Proof. intros w. apply rtc_refl. Qed.

Lemma tracks_raise {A} e : tracks (raise (A := A) e).
Proof. intros w. apply rtc_refl. Qed.

Lemma tracks_lift {A} (r : res A) : tracks (lift r).
Proof. intros w. apply rtc_refl. Qed.

Lemma tracks_bind {A B} (m : M A) (k : A → M B) :
  tracks m → (∀ a, tracks (k a)) → tracks (bind m k).
Proof.
  intros Hm Hk w. specialize (Hm w). unfold bind.
  destruct (m w) as [[e|a] w1]; [done|]. etrans; [exact Hm|apply Hk].
Qed.

Lemma tracks_try_except {A} (m : M A) h :
  tracks m → (∀ e, tracks (h e)) → tracks (try_except m h).
Proof.
  intros Hm Hh w. specialize (Hm w). unfold try_except.
  destruct (m w) as [[e|a] w1]; [|done]. etrans; [exact Hm|apply Hh].
Qed.

Lemma tracks_fresh_uuid : tracks (fresh_uuid env).
Proof. intros w. apply rtc_once, step_uuid. Qed.

Lemma tracks_clock_read : tracks (clock_read env).
Proof. intros w. apply rtc_once, step_clock. Qed.

Lemma outbound_accounts skip account_type limit account_status sort w :
  outbound env (uuids w)
    (accounts_request env skip account_type limit account_status sort w).
Proof. split; [by eexists|by right]. Qed.

Lemma outbound_balances account_id customer_ip w :
  outbound env (uuids w) (balances_request env account_id customer_ip w).
Proof. split; [done|by right]. Qed.

Lemma outbound_rates w : outbound env (uuids w) (rates_request env w).
Proof. split; [by eexists|by left]. Qed.

Lemma outbound_quote w : outbound env (uuids w) (quote_request env w).
Proof. split; [done|by left]. Qed.

Lemma tracks_get_accounts_new skip account_type limit account_status sort :
  tracks (get_accounts_new env skip account_type limit account_status sort).
Proof.
  intros w. rewrite get_accounts_new_run.
  apply rtc_once, step_exchange, outbound_accounts.
Qed.

Lemma tracks_get_account_balances account_id customer_ip :
  tracks (get_account_balances env account_id customer_ip).
Proof.
  intros w. rewrite get_account_balances_run.
  apply rtc_once, step_exchange, outbound_balances.
Qed.

Lemma tracks_get_fx_rates : tracks (get_fx_rates env).
Proof.
  intros w. rewrite get_fx_rates_run. apply rtc_once, step_exchange, outbound_rates.
Qed.

Lemma tracks_make_quote fx_rate target amount :
  tracks (make_quote env fx_rate target amount).
Proof.
  unfold make_quote.
  repeat (apply tracks_bind; [|intros ?]);
    try first [apply tracks_lift | apply tracks_fresh_uuid | apply tracks_clock_read
              | apply tracks_ret].
  destruct (truthy amount); [apply tracks_lift|apply tracks_ret].
Qed.

Lemma tracks_quote_loop target_currency amount data :
  tracks (quote_loop env target_currency amount data).
Proof.
  induction data as [|fx_rate rest IH]; [apply tracks_ret|]. cbn [quote_loop].
  apply tracks_bind; [apply tracks_lift|]. intros target.
  destruct (py_eq_str target target_currency); [|done].
  apply tracks_bind; [apply tracks_make_quote|]. intros q. apply tracks_ret.
Qed.

Lemma tracks_convert_fx_response target_currency amount fx_data :
  tracks (convert_fx_response env target_currency amount fx_data).
Proof.
  unfold convert_fx_response. cbv zeta.
  apply tracks_bind; [apply tracks_lift|]. intros has.
  apply tracks_bind; [destruct has; [apply tracks_lift|apply tracks_ret]|]. intros data.
  destruct (has && truthy data); [|apply tracks_raise].
  apply tracks_bind; [apply tracks_lift|]. intros entries.
  apply tracks_bind; [apply tracks_quote_loop|]. intros [q|]; [apply tracks_ret|].
  destruct (truthy data); [|apply tracks_raise].
  apply tracks_bind; [apply tracks_lift|]. intros first.
  apply tracks_bind; [apply tracks_lift|]. intros target. apply tracks_make_quote.
Qed.

Lemma tracks_get_fx_quote target_currency amount :
  tracks (get_fx_quote env target_currency amount).
Proof.
  intros w. rewrite get_fx_quote_run. cbv zeta.
  assert (reach w (after_exchange 0 (quote_request env w) w)) as Hsent
    by apply rtc_once, step_exchange, outbound_quote.
  destruct (partner env _ _) as [e|r]; [done|].
  destruct (status_code r =? 200); [|done].
  etrans; [exact Hsent|].
  apply (tracks_bind (lift (response_json r))); [apply tracks_lift|].
  intros fx_data. apply tracks_convert_fx_response.
Qed.

Lemma tracks_enrich_account account account_id :
  tracks (enrich_account env account account_id).
Proof.
  unfold enrich_account.
  apply tracks_bind; [apply tracks_get_account_balances|]. intros b.
  do 3 (apply tracks_bind; [apply tracks_lift|]; intros ?).
  destruct account; first [apply tracks_ret | apply tracks_raise].
Qed.

Lemma tracks_enrich_loop accounts : ∀ enriched,
  tracks (enrich_loop env accounts enriched).
Proof.
  induction accounts as [|account rest IH]; intros enriched; [apply tracks_ret|].
  cbn [enrich_loop]. apply tracks_bind; [apply tracks_lift|]. intros account_id.
  apply tracks_bind; [|intros entry; apply IH].
  destruct (truthy account_id); [|apply tracks_ret].
  apply tracks_try_except; [apply tracks_enrich_account|]. intros _. apply tracks_ret.
Qed.

Lemma tracks_get_accounts_with_balances skip limit :
  tracks (get_accounts_with_balances env skip limit).
Proof.
  unfold get_accounts_with_balances.
  apply tracks_bind; [apply tracks_get_accounts_new|]. intros raw.
  do 2 (apply tracks_bind; [apply tracks_lift|]; intros ?).
  apply tracks_bind; [apply tracks_enrich_loop|]. intros out.
  apply tracks_bind; [apply tracks_lift|]. intros hm. apply tracks_ret.
Qed.

Lemma tracks_verify_account account_id : tracks (verify_account env account_id).
Proof.
  unfold verify_account.
  apply tracks_bind; [apply tracks_get_accounts_new|]. intros raw.
  do 3 (apply tracks_bind; [apply tracks_lift|]; intros ?).
  destruct a1; [apply tracks_ret|apply tracks_raise].
Qed.

Lemma tracks_rates_result account_id account_currency fx_response :
  tracks (rates_result env account_id account_currency fx_response).
Proof.
  unfold rates_result.
  apply tracks_bind; [apply tracks_lift|]. intros rates.
  apply tracks_bind; [apply tracks_clock_read|]. intros now.
  apply tracks_bind; [apply tracks_lift|]. intros lu. apply tracks_ret.
Qed.

Lemma tracks_get_fx_rates_for_account account_id :
  tracks (get_fx_rates_for_account env account_id).
Proof.
  unfold get_fx_rates_for_account. apply tracks_try_except.
  - apply tracks_bind; [apply tracks_verify_account|]. intros cur.
    apply tracks_bind; [apply tracks_get_fx_rates|]. intros fx.
    apply tracks_bind; [apply tracks_rates_result|]. intros r. apply tracks_ret.
  - intros _. apply tracks_bind; [apply tracks_get_fx_rates|]. intros fx.
    apply tracks_bind; [apply tracks_rates_result|]. intros r. apply tracks_ret.
Qed.

Lemma tracks_get_fx_quote_for_account account_id target_currency amount :
  tracks (get_fx_quote_for_account env account_id target_currency amount).
Proof.
  unfold get_fx_quote_for_account. apply tracks_try_except.
  - apply tracks_bind; [apply tracks_verify_account|]. intros cur.
    apply tracks_bind; [apply tracks_get_fx_quote|]. intros q.
    do 6 (apply tracks_bind; [apply tracks_lift|]; intros ?). apply tracks_ret.
  - intros _. apply tracks_bind; [apply tracks_get_fx_quote|]. intros q.
    apply tracks_bind; [apply tracks_lift|]. intros s. apply tracks_ret.
Qed.

Lemma tracks_run_call c : tracks (run_call env c).
Proof.
  destruct c; cbn [run_call].
  - apply tracks_get_accounts_new.
  - apply tracks_get_account_balances.
  - apply tracks_get_accounts_with_balances.
  - apply tracks_get_fx_rates.
  - apply tracks_get_fx_quote.
  - apply tracks_get_fx_rates_for_account.
  - apply tracks_get_fx_quote_for_account.
Qed.

Lemma reach_run_calls cs : ∀ w, reach w (run_calls env cs w).
Proof.
  induction cs as [|c rest IH]; intros w; [apply rtc_refl|]. cbn [run_calls].
  etrans; [apply tracks_run_call|apply IH].
Qed.

(** *** What steps preserve *)

Lemma step_customer_id_policy w w' :
  step env w w' →
  Forall customer_id_policy (sent w) → Forall customer_id_policy (sent w').
Proof.
  destruct 1 as [w|w|w c rq [Hpolicy _]]; cbn; [done..|].
  intros Hlog. apply Forall_app. split; [done|]. by constructor.
Qed.

Lemma reach_customer_id_policy w w' :
  reach w w' →
  Forall customer_id_policy (sent w) → Forall customer_id_policy (sent w').
Proof. induction 1; eauto using step_customer_id_policy. Qed.

Lemma step_fresh_log w w' : step env w w' → fresh_log env w → fresh_log env w'.
Proof.
  destruct 1 as [w|w|w c rq [_ Hids]]; intros (draws & Hlog & Hnodup & Hbound).
  - exists draws. split_and!; [done..|].
    eapply Forall_impl; [exact Hbound|]. cbn. lia.
  - by exists draws.
  - assert (∃ a b, call_ids rq = [Some (uuid4 env a); Some (uuid4 env b)] ∧
                   a ≠ b ∧ (uuids w ≤ a < S (S (uuids w)))%nat ∧
                   (uuids w ≤ b < S (S (uuids w)))%nat) as (a & b & Hrq & Hab & Ha & Hb).
    { unfold call_ids.
      destruct Hids as [[-> ->]|[-> ->]]; eexists _, _; (split; [done|lia]). }
    exists (draws ++ [a; b]). cbn [sent uuids after_exchange]. split_and!.
    + unfold log_ids in *. rewrite bind_app, Hlog, fmap_app. f_equal.
      change ([rq] ≫= call_ids) with (call_ids rq ++ []). by rewrite Hrq.
    + apply NoDup_app. split_and!; [done| |].
      * intros n Hn Hin. rewrite Forall_forall in Hbound. apply Hbound in Hn.
        rewrite !elem_of_cons, elem_of_nil in Hin. lia.
      * apply NoDup_cons. split; [|apply NoDup_singleton].
        rewrite elem_of_cons, elem_of_nil. by intros [?|?].
    + apply Forall_app. split.
      * eapply Forall_impl; [exact Hbound|]. cbn. lia.
      * apply Forall_cons. split; [lia|]. apply Forall_singleton. lia.
Qed.

Lemma reach_fresh_log w w' : reach w w' → fresh_log env w → fresh_log env w'.
Proof. induction 1; eauto using step_fresh_log. Qed.

Lemma fresh_log_initial : fresh_log env initial_world.
Proof. exists []. split_and!; [done|constructor|constructor]. Qed.
End Tracking.

(** Values that occur once in a flattened list belong to one position. *)
Lemma NoDup_bind_lookup {A B} (f : A → list B) (l : list A) :
  NoDup (l ≫= f) →
  ∀ i j x y b, i ≠ j → l !! i = Some x → l !! j = Some y → b ∈ f x → b ∉ f y.
Proof.
  assert (∀ l : list A, NoDup (l ≫= f) →
            ∀ i j x y b, (i < j)%nat → l !! i = Some x → l !! j = Some y →
                         b ∈ f x → b ∉ f y) as Hlt.
  { clear l. induction l as [|z l IH]; [done|]. intros Hnd i j x y b Hij Hi Hj Hx Hy.
    change ((z :: l) ≫= f) with (f z ++ (l ≫= f)) in Hnd.
    apply NoDup_app in Hnd as (_ & Hdisj & Hnd).
    destruct j as [|j]; [lia|]. destruct i as [|i]; cbn in Hi, Hj.
    - injection Hi as ->. apply (Hdisj b Hx), list_elem_of_bind.
      exists y. split; [done|]. by eapply list_elem_of_lookup_2.
    - apply (IH Hnd i j x y b); [lia|done..]. }
  intros Hnd i j x y b Hij Hi Hj Hx Hy.
  destruct (Nat.lt_total i j) as [?|[?|?]]; [|done|].
  - by apply (Hlt l Hnd i j x y b).
  - by apply (Hlt l Hnd j i y x b).
Qed.

(** ** Properties of the outbound headers *)

(** C4 (amended). The [x-customer-id] header by call profile: on every
    outbound request of every sequence of operations, a balances call and an
    FX-quote call ([get_fx_quote]) carry no [x-customer-id], while an
    accounts-list call and an FX-rates call ([get_fx_rates]) carry one. *)
Theorem customer_id_header_by_call_profile (env : environment) (cs : list call) :
  Forall (λ rq,
            match endpoint_of rq with
            | EpBalances _ | EpFXQuote => customer_id rq = None
            | EpAccounts | EpFXRates => is_Some (customer_id rq)
            end)
         (sent (run_calls env cs initial_world)).
Proof.
  eapply Forall_impl.
  - apply (reach_customer_id_policy env initial_world); [apply reach_run_calls|].
    constructor.
  - intros rq. unfold customer_id_policy. by destruct (endpoint_of rq).
Qed.

(** C6. Fresh per-call identifiers: as long as the UUID generator does not
    repeat itself, after any sequence of operations every outbound request
    carries an interaction id and an idempotency key, no value occurs twice
    among all of them, and so the two ids of one call differ from each other
    and from both ids of every other call, also of a call to the same
    endpoint for another account within one aggregation. *)
Theorem ids_are_fresh_per_call (env : environment) (cs : list call) :
  Inj (=) (=) (uuid4 env) →
  let log := sent (run_calls env cs initial_world) in
  NoDup (log_ids log) ∧
  Forall is_Some (log_ids log) ∧
  (∀ i rq, log !! i = Some rq → interaction_id rq ≠ idempotency_key rq) ∧
  (∀ i j rq1 rq2, i ≠ j → log !! i = Some rq1 → log !! j = Some rq2 →
     interaction_id rq1 ≠ interaction_id rq2 ∧
     idempotency_key rq1 ≠ idempotency_key rq2 ∧
     interaction_id rq1 ≠ idempotency_key rq2).
Proof.
  intros Hinj log.
  destruct (reach_fresh_log env initial_world _ (reach_run_calls env cs initial_world)
              (fresh_log_initial env)) as (draws & Hlog & Hnodup & _).
  fold log in Hlog.
  assert (NoDup (log_ids log)) as Hnd.
  { rewrite Hlog. apply NoDup_fmap_2_strong; [|done].
    intros a b _ _ [= Hab]. by apply Hinj. }
  split_and!; [done| | |].
  - rewrite Hlog. apply Forall_fmap, Forall_true. by eexists.
  - intros i rq Hi Heq.
    assert (NoDup (call_ids rq)) as Hrq.
    { apply list_elem_of_split_length in Hi as (l1 & l2 & Hl & _). unfold log_ids in Hnd.
      rewrite Hl, bind_app in Hnd. apply NoDup_app in Hnd as (_ & _ & Hnd).
      change ((rq :: l2) ≫= call_ids) with (call_ids rq ++ (l2 ≫= call_ids)) in Hnd.
      by apply NoDup_app in Hnd as (? & _ & _). }
    unfold call_ids in Hrq. rewrite Heq in Hrq.
    apply NoDup_cons in Hrq as [Hrq _]. apply Hrq. by left.
  - intros i j rq1 rq2 Hij Hi Hj.
    pose proof (NoDup_bind_lookup call_ids log Hnd i j rq1 rq2) as Hdisj.
    unfold call_ids in Hdisj.
    split_and!; intros Heq.
    + apply (Hdisj (interaction_id rq1) Hij Hi Hj); [by left|]. rewrite Heq. by left.
    + apply (Hdisj (idempotency_key rq1) Hij Hi Hj); [by right; left|].
      rewrite Heq. by right; left.
    + apply (Hdisj (interaction_id rq1) Hij Hi Hj); [by left|].
      rewrite Heq. by right; left.
Qed.

(** ** The scenarios, run *)

Lemma scenario_uuid_inj : Inj (=) (=) Scenario.uuid.
Proof.
  intros a b Hab. unfold Scenario.uuid in Hab. cbn in Hab.
  injection Hab as Hab. by apply (inj pretty).
Qed.

(** Scenario B returns three entries. *)
Lemma two_tier_failure_policy_witness :
  ∃ r out w2,
    get_accounts_with_balances Scenario.env 0 10 initial_world = (inr (JObj r), w2) ∧
    r !! "accounts" = Some (JArr out) ∧
    r !! "totalCount" = Some (JInt (Z.of_nat (length Scenario.accounts))) ∧
    Forall2 same_but_enrichment Scenario.accounts out.
Proof.
  destruct (proj2 (two_tier_failure_policy Scenario.env 0 10 initial_world)
              Scenario.listing (Scenario.listed 0 10 initial_world) eq_refl)
    as (Hreturns & _).
  apply (Hreturns Scenario.accounts).
  - reflexivity.
  - repeat constructor; eexists; reflexivity.
Defined.

(** C1 (counterexample). The accounts-list fetch succeeds with the payload
    [{"accounts": null}], and the aggregation raises [TypeError]: [None]
    cannot be iterated.  It succeeds with a list whose second element is a
    string, and the aggregation raises [AttributeError]. *)
Lemma aggregation_raises_after_a_successful_fetch :
  ((get_accounts_new Scenario.null_listing 0 None 10 None "desc" initial_world).1 =
     inr (JObj (list_to_map [("accounts", JNull)])) ∧
   raised (get_accounts_with_balances Scenario.null_listing 0 10 initial_world) =
     Some TypeError) ∧
  ((get_accounts_new Cases.broken 0 None 10 None "desc" initial_world).1 =
     inr (JObj Cases.broken_fields) ∧
   raised (get_accounts_with_balances Cases.broken 0 10 initial_world) =
     Some AttributeError).
Proof. split_and!; reflexivity. Qed.

(** C2 (counterexample). Scenario B: three accounts are listed and the
    balance call for [acc_2] answers HTTP 500.  Three entries come back; the
    entry for [acc_2] is the listed account itself, with no
    [detailed_balances] key (so not an empty one) and nothing that flags it,
    while [acc_1] carries its balance lines. *)
Lemma scenario_b_failed_account_is_returned_as_listed :
  let run := get_accounts_with_balances Scenario.env 0 10 initial_world in
  length (returned_accounts run) = 3%nat ∧
  returned_accounts run !! 1%nat = Some (Scenario.account "acc_2" 200.50) ∧
  (returned_accounts run !! 1%nat ≫= at_path ["detailed_balances"]) = None ∧
  (returned_accounts run !! 0%nat ≫= at_path ["detailed_balances"]) =
    Some Scenario.balance_lines.
Proof. cbv zeta. split_and!; reflexivity. Qed.

Lemma partial_failure_result_shape_witness :
  let objs := [Cases.account_fields "acc_1" 100.00; Cases.account_fields "acc_2" 200.50;
               Cases.account_fields "acc_3" 50.25] in
  ∃ r out w2,
    get_accounts_with_balances Scenario.env 0 10 initial_world = (inr (JObj r), w2) ∧
    r !! "accounts" = Some (JArr out) ∧
    Forall3 entry_matches objs
      (balance_calls Scenario.env objs (Scenario.listed 0 10 initial_world)) out.
Proof.
  apply (partial_failure_result_shape Scenario.env 0 10 initial_world
           Scenario.listing_fields _ (Scenario.listed 0 10 initial_world)).
  - reflexivity.
  - reflexivity.
Defined.

(** C3 (counterexample). With the account verified, both operations return
    a result without a ["degraded"] key; with an unknown account the result
    carries ["warning"] but still no ["degraded"]; and while the partner
    answers 503 to everything, both operations raise. *)
Lemma fx_results_have_no_degraded_key_and_may_raise :
  let verified := get_fx_rates_for_account Scenario.env "acc_1" initial_world in
  let quoted :=
    get_fx_quote_for_account Scenario.env "acc_1" "USD" (JInt 100) initial_world in
  let unknown := get_fx_rates_for_account Scenario.env "acc_9" initial_world in
  (field "account_id" verified = Some (JStr "acc_1") ∧ field "degraded" verified = None) ∧
  (field "account_id" quoted = Some (JStr "acc_1") ∧ field "degraded" quoted = None) ∧
  (field "warning" unknown = Some rates_warning ∧ field "degraded" unknown = None) ∧
  raised (get_fx_rates_for_account Scenario.outage "acc_1" initial_world) =
    Some (Exception "JoPACC FX Rates API Error: 503 - Service Unavailable") ∧
  raised (get_fx_quote_for_account Scenario.outage "acc_1" "USD" (JInt 100) initial_world) =
    Some (Exception "JoPACC FX API Error: 503 - Service Unavailable").
Proof. cbv zeta. split_and!; reflexivity. Qed.

Lemma unverified_fx_is_disclosed_by_warning_witness :
  ∃ r w',
    get_fx_rates_for_account Scenario.env "acc_9" initial_world = (inr (JObj r), w') ∧
    r !! "warning" = Some rates_warning ∧
    reports_rates Scenario.env "acc_9" (JStr "JOD") Scenario.rates_fields
      (utcnow Scenario.env 2) r.
Proof.
  pose (w1 := Scenario.listed 0 50 initial_world).
  destruct (unverified_fx_is_disclosed_by_warning Scenario.env "acc_9" "USD" JNull
              initial_world) as (_ & _ & Hfailed).
  destruct (Hfailed (ValueError "Account acc_9 not found") w1) as (Hrates & _).
  - reflexivity.
  - apply (Hrates Scenario.rates_fields
             (after_exchange 1 (rates_request Scenario.env w1) w1)).
    reflexivity.
Defined.

(** C4 (counterexample). The one request [get_fx_quote] sends is an FX
    call without [x-customer-id]. *)
Lemma fx_quote_call_has_no_customer_id :
  let log := sent (run_calls Scenario.env [GetFxQuote "USD" (JInt 100)] initial_world) in
  endpoint_of <$> log = [EpFXQuote] ∧ customer_id <$> log = [None].
Proof. cbv zeta. split; reflexivity. Qed.

Lemma fetchers_raise_on_http_error_witness :
  (get_accounts_new Scenario.outage 0 None 10 None "desc" initial_world).1 =
    inl (Exception "JoPACC API Error: 503 - Service Unavailable") ∧
  (get_account_balances Scenario.outage (JStr "acc_1") "127.0.0.1" initial_world).1 =
    inl (Exception "JoPACC Balance API Error: 503 - Service Unavailable").
Proof.
  assert (status_code (Response 503 "Service Unavailable" None) ≠ 200) as Hstatus
    by (cbn; lia).
  destruct (fetchers_raise_on_http_error Scenario.outage initial_world _ Hstatus)
    as [Haccounts Hbalances].
  split.
  - apply (Haccounts 0 None 10 None "desc"). reflexivity.
  - apply (Hbalances (JStr "acc_1") "127.0.0.1"). reflexivity.
Defined.

(** C5 (counterexample). What the fetchers raise on HTTP 503 and 500 is
    the generic [Exception] around one formatted string, the same class
    [get_fx_quote] raises when the partner sent no FX data at all: neither a
    type nor a field tells a partner HTTP error, its status code or its body
    apart. *)
Lemma http_errors_are_generic_exceptions :
  raised (get_accounts_new Scenario.outage 0 None 10 None "desc" initial_world) =
    Some (Exception "JoPACC API Error: 503 - Service Unavailable") ∧
  raised (get_account_balances Scenario.env (JStr "acc_2") "127.0.0.1" initial_world) =
    Some (Exception "JoPACC Balance API Error: 500 - Internal Server Error") ∧
  raised (get_fx_quote Cases.empty_table "USD" (JInt 100) initial_world) =
    Some (Exception "JoPACC FX API returned no data").
Proof. split_and!; reflexivity. Qed.

Lemma ids_are_fresh_per_call_witness :
  NoDup (log_ids (sent (run_calls Scenario.env
                          [GetAccountsWithBalances 0 10;
                           GetFxQuoteForAccount "acc_1" "USD" (JInt 100)]
                          initial_world))).
Proof.
  apply (ids_are_fresh_per_call Scenario.env
           [GetAccountsWithBalances 0 10; GetFxQuoteForAccount "acc_1" "USD" (JInt 100)]).
  exact scenario_uuid_inj.
Defined.

(** Scenario A: three accounts with currents 100.00, 200.50 and 50.25. *)
Lemma enrichment_preserves_balances_witness :
  ∃ result r out,
    (get_accounts_with_balances Scenario.env 0 10 initial_world).1 = inr result ∧
    result = JObj r ∧
    r !! "accounts" = Some (JArr out) ∧
    Forall2 same_but_enrichment Scenario.accounts out ∧
    total_current out = total_current Scenario.accounts.
Proof.
  assert (has_returned (get_accounts_with_balances Scenario.env 0 10 initial_world) = true)
    as Hreturned by reflexivity.
  destruct (get_accounts_with_balances Scenario.env 0 10 initial_world)
    as [[e|result] w2] eqn:Hrun; [discriminate Hreturned|].
  destruct (enrichment_preserves_balances Scenario.env 0 10 initial_world
              Scenario.listing (Scenario.listed 0 10 initial_world) result w2
              eq_refl Hrun)
    as (listed & accounts & r & out & Hlisted & Haccounts & Hr & Hout & Hsame & Htotal).
  injection Hlisted as <-. injection Haccounts as <-.
  exists result, r, out. split; [reflexivity|]. split; [exact Hr|].
  split; [exact Hout|]. split; [exact Hsame|exact Htotal].
Defined.

(** C9 (counterexample). Scenario C on the code: the converted amount is
    70.89999999999999, not 70.9. *)
Lemma scenario_c_converted_amount_is_not_70_9 :
  let run := get_fx_quote Scenario.env "USD" (JInt 100) initial_world in
  field "rate" run = Some (JFloat 0.709) ∧
  field "convertedAmount" run = Some (JFloat 0x1.1b99999999999p+6) ∧
  field "convertedAmount" run ≠ Some (JFloat 70.9).
Proof.
  cbv zeta.
  assert (field "convertedAmount"
            (get_fx_quote Scenario.env "USD" (JInt 100) initial_world) =
          Some (JFloat 0x1.1b99999999999p+6)) as Hconverted by reflexivity.
  split_and!; [reflexivity|exact Hconverted|]. rewrite Hconverted. intros [=].
Qed.

Lemma scenario_c_quote_is_binary64_witness :
  let run := get_fx_quote Scenario.env "USD" (JFloat 100) initial_world in
  field "rate" run = Some (JFloat 0.709) ∧
  field "convertedAmount" run = Some (JFloat 0x1.1b99999999999p+6) ∧
  field "convertedAmount" run ≠ Some (JFloat 70.9).
Proof.
  apply (scenario_c_quote_is_binary64 Scenario.env initial_world
           (Response 200 EmptyString (Some Scenario.rate_table)) (JFloat 100)).
  - reflexivity.
  - reflexivity.
  - reflexivity.
  - right. reflexivity.
Defined.

Lemma falsy_amount_has_no_converted_amount_witness :
  ∃ q,
    (get_fx_quote Scenario.env "EUR" (JInt 0) initial_world).1 = inr q ∧
    at_path ["convertedAmount"] q = Some JNull.
Proof.
  assert (has_returned (get_fx_quote Scenario.env "EUR" (JInt 0) initial_world) = true)
    as Hreturned by reflexivity.
  destruct (get_fx_quote Scenario.env "EUR" (JInt 0) initial_world)
    as [[e|q] w'] eqn:Hrun; [discriminate Hreturned|].
  exists q. split; [reflexivity|].
  apply (proj1 (falsy_amount_has_no_converted_amount Scenario.env "EUR" (JInt 0)
                  initial_world (or_intror (or_introl eq_refl))) q w' Hrun).
Defined.

(** ** More about the aggregation *)

Section AggregationCalls.
Context (env : environment).

Lemma enrich_loop_cons_run (a : gmap string json) rest enriched w :
  enrich_loop env (JObj a :: rest) enriched w =
    enrich_loop env rest (enriched ++ [entry_for env a w]) (after_account env a w).
Proof.
  cbn [enrich_loop]. unfold entry_for, after_account, bind at 1, lift, py_get. cbn.
  destruct (truthy (default JNull (a !! "accountId"))); [|reflexivity].
  unfold bind, try_except. rewrite enrich_account_run. unfold balance_payload.
  destruct (classify _ _) as [e|[]]; reflexivity.
Qed.

Lemma after_account_sent a w :
  ∃ rqs, sent (after_account env a w) = sent w ++ rqs ∧
         endpoint_of <$> rqs = balance_endpoints [a] ∧
         Forall (λ rq, headers rq !! "x-customer-ip-address" = Some "127.0.0.1") rqs.
Proof.
  unfold after_account, balance_endpoints. cbn.
  destruct (truthy (default JNull (a !! "accountId"))).
  - eexists [_]. split_and!; [done|done|]. by repeat constructor.
  - exists []. split_and!; [by rewrite app_nil_r|done|constructor].
Qed.

Lemma balance_endpoints_cons a objs :
  balance_endpoints (a :: objs) = balance_endpoints [a] ++ balance_endpoints objs.
Proof.
  unfold balance_endpoints. cbn.
  by destruct (truthy (default JNull (a !! "accountId"))).
Qed.

(** What the loop sends while it works through a prefix of account
    objects, up to where it ends: the end of the list, or an element that is
    not an object. *)
Lemma enrich_loop_calls objs (tail : list json) :
  (tail = [] ∨ ∃ v rest, tail = v :: rest ∧ ¬ is_object v) →
  ∀ enriched w,
    ∃ rqs,
      sent (enrich_loop env ((JObj <$> objs) ++ tail) enriched w).2 = sent w ++ rqs ∧
      endpoint_of <$> rqs = balance_endpoints objs ∧
      Forall (λ rq, headers rq !! "x-customer-ip-address" = Some "127.0.0.1") rqs ∧
      (tail ≠ [] →
       (enrich_loop env ((JObj <$> objs) ++ tail) enriched w).1 = inl AttributeError).
Proof.
  intros Htail. induction objs as [|a objs IH]; intros enriched w.
  - exists []. rewrite app_nil_r. cbn [fmap list_fmap app].
    destruct Htail as [->|(v & rest & -> & Hv)].
    + split_and!; [done|done|constructor|done].
    + rewrite enrich_loop_cons_other by done. split_and!; [done|done|constructor|done].
  - rewrite fmap_cons, <-app_comm_cons, enrich_loop_cons_run.
    destruct (after_account_sent a w) as (rqs1 & Hsent1 & Hep1 & Hip1).
    destruct (IH (enriched ++ [entry_for env a w]) (after_account env a w))
      as (rqs2 & Hsent2 & Hep2 & Hip2 & Hfail).
    exists (rqs1 ++ rqs2). split_and!.
    + by rewrite Hsent2, Hsent1, app_assoc.
    + by rewrite fmap_app, Hep1, Hep2, (balance_endpoints_cons a objs).
    + by apply Forall_app.
    + done.
Qed.

Lemma new_requests_app w w' rqs : sent w' = sent w ++ rqs → new_requests w w' = rqs.
Proof. unfold new_requests. intros ->. by rewrite drop_app_length. Qed.

(** The aggregation, run on a payload that lists [accounts]. *)
Lemma get_accounts_with_balances_run skip limit w (payload : gmap string json)
    accounts w1 :
  get_accounts_new env skip None limit None "desc" w = (inr (JObj payload), w1) →
  lists_accounts payload accounts →
  get_accounts_with_balances env skip limit w =
    match enrich_loop env accounts [] w1 with
    | (inl e, w2) => (inl e, w2)
    | (inr out, w2) =>
        (inr (JObj (list_to_map [
           ("accounts", JArr out);
           ("totalCount", JInt (Z.of_nat (length out)));
           ("hasMore", default (JBool false) (payload !! "hasMore"))])), w2)
    end.
Proof.
  intros Hraw Hlist. unfold get_accounts_with_balances.
  rewrite (bind_inr _ _ _ _ _ Hraw). unfold bind at 1, lift. cbn [py_get_default].
  rewrite Hlist. unfold bind at 1. cbn [py_iter]. unfold bind at 1.
  by destruct (enrich_loop env accounts [] w1) as [[e|out] w2].
Qed.

Lemma get_accounts_new_sent skip account_type limit account_status sort w r w1 :
  get_accounts_new env skip account_type limit account_status sort w = (r, w1) →
  sent w1 = sent w ++ [accounts_request env skip account_type limit account_status sort w].
Proof. rewrite get_accounts_new_run. by intros [= _ <-]. Qed.
End AggregationCalls.

(** X1. Call sequence of the aggregation: on a payload that lists account
    objects, [get_accounts_with_balances] sends the accounts-list request
    first and then one balance request per account whose [accountId] is
    truthy, in the listed order and from customer IP 127.0.0.1; an account
    without an id costs no request. *)
Theorem aggregation_call_sequence (env : environment) (skip limit : Z) (w : world)
    (payload : gmap string json) (objs : list (gmap string json)) (w1 : world) :
  get_accounts_new env skip None limit None "desc" w = (inr (JObj payload), w1) →
  lists_accounts payload (JObj <$> objs) →
  let sent_now := new_requests w (get_accounts_with_balances env skip limit w).2 in
  endpoint_of <$> sent_now = EpAccounts :: balance_endpoints objs ∧
  Forall (λ rq, headers rq !! "x-customer-ip-address" = Some "127.0.0.1") sent_now.
Proof.
  intros Hraw Hlist. cbv zeta.
  rewrite (get_accounts_with_balances_run env skip limit w payload _ w1 Hraw Hlist).
  destruct (enrich_loop_calls env objs [] (or_introl eq_refl) [] w1)
    as (rqs & Hsent & Hep & Hip & _).
  rewrite app_nil_r in Hsent.
  rewrite (get_accounts_new_sent env _ _ _ _ _ _ _ _ Hraw) in Hsent.
  assert (new_requests w (enrich_loop env (JObj <$> objs) [] w1).2 =
          accounts_request env skip None limit None "desc" w :: rqs) as Hnew
    by (apply new_requests_app; by rewrite Hsent, <-app_assoc).
  destruct (enrich_loop env (JObj <$> objs) [] w1) as [[e|out] w2]; cbn [snd] in *;
    rewrite Hnew; (split; [by rewrite fmap_cons, Hep|by constructor]).
Qed.

(** X2. Paging fields of the aggregation: [hasMore] is the partner's own
    value ([False] when the payload has none), [totalCount] is the number of
    accounts on this page, and the result has no other key than [accounts],
    [totalCount] and [hasMore]: whatever else the partner sent, its own
    [totalCount] included, is dropped. *)
Theorem aggregation_paging_fields (env : environment) (skip limit : Z) (w : world)
    (payload : gmap string json) (accounts : list json) (w1 : world) :
  get_accounts_new env skip None limit None "desc" w = (inr (JObj payload), w1) →
  lists_accounts payload accounts →
  Forall is_object accounts →
  ∃ r, (get_accounts_with_balances env skip limit w).1 = inr (JObj r) ∧
       r !! "hasMore" = Some (default (JBool false) (payload !! "hasMore")) ∧
       r !! "totalCount" = Some (JInt (Z.of_nat (length accounts))) ∧
       ∀ k, k ≠ "accounts" → k ≠ "totalCount" → k ≠ "hasMore" → r !! k = None.
Proof.
  intros Hraw Hlist Hobj. apply is_object_fmap in Hobj as [objs ->].
  rewrite (get_accounts_with_balances_run env skip limit w payload _ w1 Hraw Hlist).
  destruct (enrich_loop_total env objs [] w1) as (out & w2 & -> & Hlen).
  cbn [app fst]. eexists. split; [done|]. split_and!; [done| |].
  - by rewrite Hlen, length_fmap.
  - intros k Hk1 Hk2 Hk3. cbn [list_to_map foldr uncurry].
    by rewrite !lookup_insert_ne, lookup_empty.
Qed.

(** X3. A listing with an element that is not an object: the aggregation
    raises [AttributeError] when it reaches that element and returns nothing,
    after it has sent the balance requests of the accounts before it. *)
Theorem aggregation_stops_at_non_object (env : environment) (skip limit : Z)
    (w : world) (payload : gmap string json) (objs : list (gmap string json))
    (v : json) (rest : list json) (w1 : world) :
  get_accounts_new env skip None limit None "desc" w = (inr (JObj payload), w1) →
  lists_accounts payload ((JObj <$> objs) ++ v :: rest) →
  ¬ is_object v →
  let run := get_accounts_with_balances env skip limit w in
  run.1 = inl AttributeError ∧
  endpoint_of <$> new_requests w run.2 = EpAccounts :: balance_endpoints objs.
Proof.
  intros Hraw Hlist Hv. cbv zeta.
  rewrite (get_accounts_with_balances_run env skip limit w payload _ w1 Hraw Hlist).
  destruct (enrich_loop_calls env objs (v :: rest)
              (or_intror (ex_intro _ v (ex_intro _ rest (conj eq_refl Hv)))) [] w1)
    as (rqs & Hsent & Hep & _ & Hfail).
  specialize (Hfail ltac:(done)).
  rewrite (get_accounts_new_sent env _ _ _ _ _ _ _ _ Hraw) in Hsent.
  assert (new_requests w (enrich_loop env ((JObj <$> objs) ++ v :: rest) [] w1).2 =
          accounts_request env skip None limit None "desc" w :: rqs) as Hnew
    by (apply new_requests_app; by rewrite Hsent, <-app_assoc).
  destruct (enrich_loop env ((JObj <$> objs) ++ v :: rest) [] w1) as [[e|out] w2];
    cbn [fst snd] in *; [|done].
  injection Hfail as ->. split; [done|]. by rewrite Hnew, fmap_cons, Hep.
Qed.

(** ** More about the FX quote *)

Section QuoteEdges.
Context (env : environment).

Lemma quiet_ret {A} (a : A) : quiet (ret a).
Proof. done. Qed.

Lemma quiet_raise {A} e : quiet (raise (A := A) e).
Proof. done. Qed.

Lemma quiet_lift {A} (r : res A) : quiet (lift r).
Proof. done. Qed.

Lemma quiet_fresh_uuid : quiet (fresh_uuid env).
Proof. done. Qed.

Lemma quiet_clock_read : quiet (clock_read env).
Proof. done. Qed.

Lemma quiet_bind {A B} (m : M A) (k : A → M B) :
  quiet m → (∀ a, quiet (k a)) → quiet (bind m k).
Proof.
  intros Hm Hk w. specialize (Hm w). unfold bind.
  destruct (m w) as [[e|a] w1]; [done|]. by rewrite Hk.
Qed.

Lemma quiet_make_quote fx_rate target amount :
  quiet (make_quote env fx_rate target amount).
Proof.
  unfold make_quote.
  repeat (apply quiet_bind; [|intros ?]);
    try first [apply quiet_lift | apply quiet_fresh_uuid | apply quiet_clock_read
              | apply quiet_ret].
  destruct (truthy amount); [apply quiet_lift|apply quiet_ret].
Qed.

Lemma quiet_quote_loop target_currency amount data :
  quiet (quote_loop env target_currency amount data).
Proof.
  induction data as [|fx_rate rest IH]; [apply quiet_ret|]. cbn [quote_loop].
  apply quiet_bind; [apply quiet_lift|]. intros target.
  destruct (py_eq_str target target_currency); [|done].
  apply quiet_bind; [apply quiet_make_quote|]. intros q. apply quiet_ret.
Qed.

Lemma quiet_convert_fx_response target_currency amount fx_data :
  quiet (convert_fx_response env target_currency amount fx_data).
Proof.
  unfold convert_fx_response. cbv zeta.
  apply quiet_bind; [apply quiet_lift|]. intros has.
  apply quiet_bind; [destruct has; [apply quiet_lift|apply quiet_ret]|]. intros data.
  destruct (has && truthy data); [|apply quiet_raise].
  apply quiet_bind; [apply quiet_lift|]. intros entries.
  apply quiet_bind; [apply quiet_quote_loop|]. intros [q|]; [apply quiet_ret|].
  destruct (truthy data); [|apply quiet_raise].
  apply quiet_bind; [apply quiet_lift|]. intros first.
  apply quiet_bind; [apply quiet_lift|]. intros target. apply quiet_make_quote.
Qed.

Lemma get_fx_quote_sent target_currency amount w :
  sent (get_fx_quote env target_currency amount w).2 = sent w ++ [quote_request env w].
Proof.
  rewrite get_fx_quote_run. cbv zeta. destruct (partner env _ _) as [e|r]; [done|].
  destruct (status_code r =? 200); [|done].
  by rewrite (quiet_bind (lift (response_json r)) _ (quiet_lift _)
                (quiet_convert_fx_response target_currency amount)).
Qed.

Lemma get_fx_rates_sent w :
  sent (get_fx_rates env w).2 = sent w ++ [rates_request env w].
Proof. by rewrite get_fx_rates_run. Qed.

(** On a payload without usable ["data"] the conversion raises at once. *)
Lemma convert_fx_response_no_data target_currency amount (fx : gmap string json) w :
  truthy (default JNull (fx !! "data")) = false →
  convert_fx_response env target_currency amount (JObj fx) w =
    (inl (Exception "JoPACC FX API returned no data"), w).
Proof.
  intros Hdata. unfold convert_fx_response. cbv zeta. unfold bind at 1, lift.
  cbn [py_in py_getitem]. destruct (fx !! "data") as [d|] eqn:Hd.
  - rewrite bool_decide_eq_true_2 by by eexists. unfold bind at 1. cbn in Hdata.
    by rewrite Hdata.
  - rewrite bool_decide_eq_false_2 by by intros [? ?]. done.
Qed.
End QuoteEdges.

(** X5. No FX data: when the partner answers the quote request with status
    200 and a JSON object whose ["data"] is missing or falsy (an empty list,
    [null]), [get_fx_quote] raises [Exception("JoPACC FX API returned no
    data")]; it has sent its one request and has drawn no quote id. *)
Theorem fx_quote_without_data_raises (env : environment) (target_currency : string)
    (amount : json) (w : world) (r : response) (fx : gmap string json) :
  partner env (length (sent w)) (quote_request env w) = inr r →
  status_code r = 200 →
  json_body r = Some (JObj fx) →
  truthy (default JNull (fx !! "data")) = false →
  get_fx_quote env target_currency amount w =
    (inl (Exception "JoPACC FX API returned no data"),
     after_exchange 0 (quote_request env w) w).
Proof.
  intros Hreply Hstatus Hbody Hdata. rewrite get_fx_quote_run. cbv zeta.
  rewrite Hreply, Hstatus. cbn [Z.eqb Pos.eqb]. unfold bind at 1, lift, response_json.
  rewrite Hbody. by apply convert_fx_response_no_data.
Qed.

(** X6. FX failures are raised, not replaced: for a status other than 200,
    [get_fx_rates] and [get_fx_quote] raise an exception whose message
    carries the status code and the response body. *)
Theorem fx_fetchers_raise_on_http_error (env : environment) (w : world) (r : response) :
  status_code r ≠ 200 →
  (partner env (length (sent w)) (rates_request env w) = inr r →
   (get_fx_rates env w).1 =
     inl (Exception ("JoPACC FX Rates API Error: " +:+ pretty (status_code r) +:+ " - "
                     +:+ text r))) ∧
  (∀ target_currency amount,
     partner env (length (sent w)) (quote_request env w) = inr r →
     (get_fx_quote env target_currency amount w).1 =
       inl (Exception ("JoPACC FX API Error: " +:+ pretty (status_code r) +:+ " - "
                       +:+ text r))).
Proof.
  intros Hstatus. apply Z.eqb_neq in Hstatus. split.
  - intros Hreply. rewrite get_fx_rates_run. cbv zeta. cbn [fst]. rewrite Hreply.
    cbn [classify]. by rewrite Hstatus.
  - intros target_currency amount Hreply. rewrite get_fx_quote_run. cbv zeta.
    by rewrite Hreply, Hstatus.
Qed.

(** X7. A rate that arrives as a decimal string: when the selected entry's
    [conversionValue] is a JSON string, a quote for a non-zero float amount
    raises [TypeError] (a float cannot multiply a string), while a quote
    without an amount returns that string as its [rate]. *)
Theorem fx_quote_with_string_rate (env : environment) (target_currency : string)
    (w : world) (r : response) (fx f : gmap string json) (first : json)
    (rest : list json) (s : string) :
  partner env (length (sent w)) (quote_request env w) = inr r →
  status_code r = 200 →
  json_body r = Some (JObj fx) →
  fx !! "data" = Some (JArr (first :: rest)) →
  select_rate target_currency (first :: rest) = inr (Some (JObj f)) →
  f !! "conversionValue" = Some (JStr s) →
  (∀ x, truthy (JFloat x) = true →
        (get_fx_quote env target_currency (JFloat x) w).1 = inl TypeError) ∧
  field "rate" (get_fx_quote env target_currency JNull w) = Some (JStr s) ∧
  field "convertedAmount" (get_fx_quote env target_currency JNull w) = Some JNull.
Proof.
  intros Hreply Hstatus Hbody Hdata Hsel Hrate.
  assert (∀ amount, get_fx_quote env target_currency amount w =
                    make_quote env (JObj f) (JStr target_currency) amount
                      (after_exchange 0 (quote_request env w) w)) as Hrun.
  { intros amount.
    rewrite (get_fx_quote_on_table env _ _ _ _ _ _ _ Hreply Hstatus Hbody Hdata).
    cbv zeta. by rewrite Hsel. }
  split_and!.
  - intros x Hx. rewrite Hrun, make_quote_run. cbv zeta. rewrite Hrate.
    unfold converted_amount. rewrite Hx. done.
  - unfold field. rewrite Hrun, make_quote_run. cbv zeta. rewrite Hrate.
    unfold converted_amount. cbn [truthy fst]. by rewrite quote_dict_rate.
  - unfold field. rewrite Hrun, make_quote_run. cbv zeta. rewrite Hrate.
    unfold converted_amount. cbn [truthy fst]. by rewrite quote_dict_converted.
Qed.

(** ** More about the account-scoped FX operations *)

Section Verification.
Context (env : environment).

Lemma find_account_first account_id before (a : gmap string json) after :
  Forall (other_account account_id) before →
  a !! "accountId" = Some (JStr account_id) →
  find_account account_id (before ++ JObj a :: after) =
    inr (Some (default (JStr "JOD") (a !! "currency"))).
Proof.
  intros Hbefore Ha. induction Hbefore as [|v before (g & -> & Hg) _ IH].
  - cbn. rewrite Ha. cbn. by rewrite String.eqb_refl.
  - cbn. by rewrite Hg.
Qed.

Lemma find_account_none account_id accounts :
  Forall (other_account account_id) accounts → find_account account_id accounts = inr None.
Proof.
  induction 1 as [|v accounts (g & -> & Hg) _ IH]; [done|]. cbn. by rewrite Hg.
Qed.

Lemma verify_account_listing account_id w (payload : gmap string json) accounts w1 :
  get_accounts_new env 0 None 50 None "desc" w = (inr (JObj payload), w1) →
  lists_accounts payload accounts →
  verify_account env account_id w =
    (match find_account account_id accounts with
     | inl e => inl e
     | inr None => inl (ValueError ("Account " +:+ account_id +:+ " not found"))
     | inr (Some account_currency) => inr account_currency
     end, w1).
Proof.
  intros Hraw Hlist. unfold verify_account. rewrite (bind_inr _ _ _ _ _ Hraw).
  unfold bind at 1, lift. cbn [py_get_default]. rewrite Hlist. unfold bind at 1.
  cbn [py_iter]. unfold bind.
  by destruct (find_account account_id accounts) as [e|[c|]].
Qed.

Lemma verify_account_sent account_id w :
  sent (verify_account env account_id w).2 =
    sent w ++ [accounts_request env 0 None 50 None "desc" w].
Proof.
  unfold verify_account, bind at 1. rewrite get_accounts_new_run. cbv zeta.
  destruct (classify _ _) as [e|raw]; [done|].
  unfold bind at 1, lift. destruct (py_get_default raw _ _) as [e|listed]; [done|].
  unfold bind at 1. destruct (py_iter listed) as [e|accounts]; [done|].
  unfold bind. by destruct (find_account account_id accounts) as [e|[c|]].
Qed.

Lemma quiet_rates_result account_id account_currency fx_response :
  quiet (rates_result env account_id account_currency fx_response).
Proof.
  unfold rates_result.
  apply quiet_bind; [apply quiet_lift|]. intros rates.
  apply quiet_bind; [apply quiet_clock_read|]. intros now.
  apply quiet_bind; [apply quiet_lift|]. intros lu. apply quiet_ret.
Qed.

(** The [except] branch of either operation, run after a failed [try]. *)
Lemma rates_fallback_sent account_id w :
  sent ((let! fx_response := get_fx_rates env in
         let! result := rates_result env account_id (JStr "JOD") fx_response in
         ret (JObj (<["warning" := rates_warning]> result))) w).2 =
    sent w ++ [rates_request env w].
Proof.
  unfold bind at 1. pose proof (get_fx_rates_sent env w) as Hsent.
  destruct (get_fx_rates env w) as [[e|fx] w1]; [done|]. cbn [snd] in Hsent.
  rewrite <-Hsent.
  apply (quiet_bind (rates_result env account_id (JStr "JOD") fx)
           (λ result, ret (JObj (<["warning" := rates_warning]> result)))).
  - apply quiet_rates_result.
  - intros result. apply quiet_ret.
Qed.

Lemma quote_fallback_sent account_id target_currency amount w :
  sent ((let! quote_response := get_fx_quote env target_currency amount in
         let! spread := lift (spread_quote account_id quote_response) in
         ret (JObj (<["warning" := quote_warning]> spread))) w).2 =
    sent w ++ [quote_request env w].
Proof.
  rewrite quote_fallback_run. pose proof (get_fx_quote_sent env target_currency amount w)
    as Hsent.
  destruct (get_fx_quote env target_currency amount w) as [[e|q] w1]; [done|].
  by destruct (spread_quote account_id q).
Qed.
End Verification.

(** X8. Retry after an FX failure: when the account is verified but the FX
    call inside the [try] block fails (it raises or, for rates, returns a
    JSON value that is not an object), the [except] branch repeats the FX
    call.  If the repeat returns (for rates: returns a JSON object), the
    result carries the warning "Account verification failed ..." and the
    default currency ["JOD"], although verification had succeeded; if the
    repeated FX-rates call returns a JSON value that is not an object, the
    operation raises [AttributeError]; if the repeat raises, the operation
    raises the same exception. *)
Theorem fx_retry_reports_verification_failure (env : environment)
    (account_id target_currency : string) (amount : json) (w : world)
    (account_currency : json) (w1 : world) :
  verify_account env account_id w = (inr account_currency, w1) →
  (∀ first w2,
     get_fx_rates env w1 = (first, w2) →
     (∃ e, first = inl e) ∨ (∃ v, first = inr v ∧ ¬ is_object v) →
     (∀ fx w3, get_fx_rates env w2 = (inr (JObj fx), w3) →
        ∃ r w', get_fx_rates_for_account env account_id w = (inr (JObj r), w') ∧
                r !! "warning" = Some rates_warning ∧
                r !! "account_currency" = Some (JStr "JOD")) ∧
     (∀ v w3, get_fx_rates env w2 = (inr v, w3) → ¬ is_object v →
        get_fx_rates_for_account env account_id w = (inl AttributeError, w3)) ∧
     (∀ e w3, get_fx_rates env w2 = (inl e, w3) →
        get_fx_rates_for_account env account_id w = (inl e, w3))) ∧
  (∀ e w2,
     get_fx_quote env target_currency amount w1 = (inl e, w2) →
     (∀ q w3, get_fx_quote env target_currency amount w2 = (inr q, w3) →
        ∃ r, get_fx_quote_for_account env account_id target_currency amount w =
               (inr (JObj r), w3) ∧
             r !! "warning" = Some quote_warning ∧
             r !! "account_currency" = Some (JStr "JOD")) ∧
     (∀ e' w3, get_fx_quote env target_currency amount w2 = (inl e', w3) →
        get_fx_quote_for_account env account_id target_currency amount w =
          (inl e', w3))).
Proof.
  intros Hv. split.
  - intros first w2 Hfirst Hfailed.
    assert (get_fx_rates_for_account env account_id w =
            (let! fx_response := get_fx_rates env in
             let! result := rates_result env account_id (JStr "JOD") fx_response in
             ret (JObj (<["warning" := rates_warning]> result))) w2) as ->.
    { unfold get_fx_rates_for_account.
      destruct Hfailed as [[e ->]|(v & -> & Hnot)].
      - rewrite (try_except_inl _ _ _ e w2); [reflexivity|].
        rewrite (bind_inr _ _ _ _ _ Hv). by apply bind_inl.
      - rewrite (try_except_inl _ _ _ AttributeError w2); [reflexivity|].
        rewrite (bind_inr _ _ _ _ _ Hv), (bind_inr _ _ _ _ _ Hfirst).
        apply bind_inl. by apply rates_result_other. }
    rewrite rates_fallback_run. split_and!.
    + intros fx w3 ->. rewrite rates_result_object. eexists _, _.
      split; [done|]. split; [by rewrite lookup_insert_eq|by rewrite lookup_insert_ne].
    + intros v w3 -> Hnot. by rewrite rates_result_other.
    + by intros e w3 ->.
  - intros e w2 Hfail.
    assert (get_fx_quote_for_account env account_id target_currency amount w =
            (let! quote_response := get_fx_quote env target_currency amount in
             let! spread := lift (spread_quote account_id quote_response) in
             ret (JObj (<["warning" := quote_warning]> spread))) w2) as ->.
    { unfold get_fx_quote_for_account.
      rewrite (try_except_inl _ _ _ e w2); [reflexivity|].
      rewrite (bind_inr _ _ _ _ _ Hv). by apply bind_inl. }
    rewrite quote_fallback_run. split.
    + intros q w3 Hretry.
      destruct (get_fx_quote_returns env _ _ _ _ _ Hretry)
        as (qid & base & target & rate & c & vu & ts & _ & ->).
      rewrite Hretry. eexists.
      split; [done|]. split; [by rewrite lookup_insert_eq|].
      rewrite lookup_insert_ne by done. by rewrite lookup_union_r.
    + by intros e' w3 ->.
Qed.

(** X9. The currency of a verified account: when the accounts list holds an
    account object whose [accountId] is the requested one, after account
    objects with other ids only, verification succeeds with that account's
    [currency], ["JOD"] if it has none, and [get_fx_rates_for_account] and
    [get_fx_quote_for_account] report it as [account_currency], without a
    warning, when the FX call of the [try] block returns (for rates: when it
    returns a JSON object). *)
Theorem fx_account_currency_is_first_match (env : environment)
    (account_id target_currency : string) (amount : json) (w : world)
    (payload : gmap string json) (before after : list json) (a : gmap string json)
    (w1 : world) :
  get_accounts_new env 0 None 50 None "desc" w = (inr (JObj payload), w1) →
  lists_accounts payload (before ++ JObj a :: after) →
  Forall (other_account account_id) before →
  a !! "accountId" = Some (JStr account_id) →
  let currency := default (JStr "JOD") (a !! "currency") in
  (∀ fx w2, get_fx_rates env w1 = (inr (JObj fx), w2) →
     ∃ r w', get_fx_rates_for_account env account_id w = (inr (JObj r), w') ∧
             r !! "account_currency" = Some currency ∧ r !! "warning" = None) ∧
  (∀ q w2, get_fx_quote env target_currency amount w1 = (inr q, w2) →
     ∃ r, get_fx_quote_for_account env account_id target_currency amount w =
            (inr (JObj r), w2) ∧
          r !! "account_currency" = Some currency ∧ r !! "warning" = None).
Proof.
  intros Hraw Hlist Hbefore Ha currency.
  assert (verify_account env account_id w = (inr currency, w1)) as Hv.
  { rewrite (verify_account_listing env account_id w payload _ w1 Hraw Hlist).
    by rewrite (find_account_first account_id before a after Hbefore Ha). }
  split.
  - intros fx w2 Hfx.
    destruct (rates_body_run env account_id w currency w1 fx w2 Hv Hfx)
      as (rs & lu & w3 & Hbody).
    eexists _, w3. unfold get_fx_rates_for_account.
    rewrite (try_except_inr _ _ _ _ _ Hbody). done.
  - intros q w2 Hq.
    destruct (get_fx_quote_returns env _ _ _ _ _ Hq)
      as (qid & base & target & rate & c & vu & ts & _ & ->).
    eexists. unfold get_fx_quote_for_account.
    rewrite (try_except_inr _ _ _ _ _
               (quote_body_run env account_id target_currency amount w
                  currency w1 _ w2 Hv Hq)). done.
Qed.

(** X10. An unknown account: when the accounts list holds account objects
    with other ids only (or none at all), verification ends in
    [ValueError("Account <id> not found")], and the FX operations answer
    from the [except] branch.  When its FX call returns (for rates: returns
    a JSON object), the result carries the warning and the currency ["JOD"]
    instead of an error; when the FX-rates call returns a JSON value that is
    not an object, the operation raises [AttributeError]; when the FX call
    raises, the operation raises the same exception, not the [ValueError]. *)
Theorem fx_unknown_account_gets_warning (env : environment)
    (account_id target_currency : string) (amount : json) (w : world)
    (payload : gmap string json) (accounts : list json) (w1 : world) :
  get_accounts_new env 0 None 50 None "desc" w = (inr (JObj payload), w1) →
  lists_accounts payload accounts →
  Forall (other_account account_id) accounts →
  verify_account env account_id w =
    (inl (ValueError ("Account " +:+ account_id +:+ " not found")), w1) ∧
  ((∀ fx w2, get_fx_rates env w1 = (inr (JObj fx), w2) →
      ∃ r w', get_fx_rates_for_account env account_id w = (inr (JObj r), w') ∧
              r !! "warning" = Some rates_warning ∧
              r !! "account_currency" = Some (JStr "JOD")) ∧
   (∀ v w2, get_fx_rates env w1 = (inr v, w2) → ¬ is_object v →
      get_fx_rates_for_account env account_id w = (inl AttributeError, w2)) ∧
   (∀ e w2, get_fx_rates env w1 = (inl e, w2) →
      get_fx_rates_for_account env account_id w = (inl e, w2))) ∧
  ((∀ q w2, get_fx_quote env target_currency amount w1 = (inr q, w2) →
      ∃ r, get_fx_quote_for_account env account_id target_currency amount w =
             (inr (JObj r), w2) ∧
           r !! "warning" = Some quote_warning ∧
           r !! "account_currency" = Some (JStr "JOD")) ∧
   (∀ e w2, get_fx_quote env target_currency amount w1 = (inl e, w2) →
      get_fx_quote_for_account env account_id target_currency amount w =
        (inl e, w2))).
Proof.
  intros Hraw Hlist Hother.
  assert (verify_account env account_id w =
          (inl (ValueError ("Account " +:+ account_id +:+ " not found")), w1)) as Hv.
  { rewrite (verify_account_listing env account_id w payload _ w1 Hraw Hlist).
    by rewrite (find_account_none account_id accounts Hother). }
  assert (∀ B (k : json → M B), (let! c := verify_account env account_id in k c) w
            = (inl (ValueError ("Account " +:+ account_id +:+ " not found")), w1))
    as Hbody by (intros B k; by apply bind_inl).
  split; [done|]. split.
  - unfold get_fx_rates_for_account.
    rewrite (try_except_inl _ _ _ _ _ (Hbody _ _)), rates_fallback_run. split_and!.
    + intros fx w2 ->. rewrite rates_result_object. eexists _, _.
      split; [done|]. split; [by rewrite lookup_insert_eq|by rewrite lookup_insert_ne].
    + intros v w2 -> Hnot. by rewrite rates_result_other.
    + by intros e w2 ->.
  - unfold get_fx_quote_for_account.
    rewrite (try_except_inl _ _ _ _ _ (Hbody _ _)), quote_fallback_run. split.
    + intros q w2 Hq.
      destruct (get_fx_quote_returns env _ _ _ _ _ Hq)
        as (qid & base & target & rate & c & vu & ts & _ & ->).
      rewrite Hq. eexists.
      split; [done|]. split; [by rewrite lookup_insert_eq|].
      rewrite lookup_insert_ne by done. by rewrite lookup_union_r.
    + by intros e w2 ->.
Qed.

Section CallOrder.
Context (env : environment).

Lemma sent_of_run {A} (m : M A) w r w' rq :
  sent (m w).2 = sent w ++ [rq] → m w = (r, w') → sent w' = sent w ++ [rq].
Proof. intros Hsent Hrun. by rewrite Hrun in Hsent. Qed.

(** What a [try] block has sent when it ends: the accounts request, then
    the FX request unless verification failed; both if it returned. *)
Lemma rates_body_sent account_id w rb wb :
  (let! account_currency := verify_account env account_id in
   let! fx_response := get_fx_rates env in
   let! result := rates_result env account_id account_currency fx_response in
   ret (JObj result)) w = (rb, wb) →
  ∃ rqs, sent wb = sent w ++ rqs ∧
         (endpoint_of <$> rqs = [EpAccounts; EpFXRates] ∨
          endpoint_of <$> rqs = [EpAccounts] ∧ ∃ e, rb = inl e).
Proof.
  intros Hb. apply bind_inv in Hb as [(e & Hv & ->)|(cur & w1 & Hv & Hb)].
  { eexists [_]. split; [exact (sent_of_run _ _ _ _ _ (verify_account_sent env _ _) Hv)|].
    right. eauto. }
  apply (sent_of_run _ _ _ _ _ (verify_account_sent env _ _)) in Hv.
  apply bind_inv in Hb as [(e & Hfx & ->)|(fx & w2 & Hfx & Hb)].
  { apply (sent_of_run _ _ _ _ _ (get_fx_rates_sent env _)) in Hfx.
    eexists [_; _]. split; [by rewrite Hfx, Hv, <-app_assoc|]. by left. }
  apply (sent_of_run _ _ _ _ _ (get_fx_rates_sent env _)) in Hfx.
  pose proof (quiet_bind (rates_result env account_id cur fx)
                (λ result, ret (JObj result))
                (quiet_rates_result env _ _ _) (λ _, quiet_ret _) w2) as Hquiet.
  rewrite Hb in Hquiet. cbn [snd] in Hquiet.
  eexists [_; _]. split; [by rewrite Hquiet, Hfx, Hv, <-app_assoc|]. by left.
Qed.

Lemma quote_body_sent account_id target_currency amount w rb wb :
  (let! account_currency := verify_account env account_id in
   let! quote_response := get_fx_quote env target_currency amount in
   let! base := lift (py_get_default quote_response "baseCurrency" account_currency) in
   let! rate := lift (py_get_default quote_response "rate" (JFloat 1.0)) in
   let! converted := lift (py_get quote_response "convertedAmount") in
   let! quote_id := lift (py_get quote_response "quoteId") in
   let! valid_until := lift (py_get quote_response "validUntil") in
   let! timestamp := lift (py_get quote_response "timestamp") in
   ret (JObj (account_quote_dict account_id account_currency quote_response base
                target_currency rate amount converted quote_id valid_until
                timestamp))) w = (rb, wb) →
  ∃ rqs, sent wb = sent w ++ rqs ∧
         (endpoint_of <$> rqs = [EpAccounts; EpFXQuote] ∨
          endpoint_of <$> rqs = [EpAccounts] ∧ ∃ e, rb = inl e).
Proof.
  intros Hb. apply bind_inv in Hb as [(e & Hv & ->)|(cur & w1 & Hv & Hb)].
  { eexists [_]. split; [exact (sent_of_run _ _ _ _ _ (verify_account_sent env _ _) Hv)|].
    right. eauto. }
  apply (sent_of_run _ _ _ _ _ (verify_account_sent env _ _)) in Hv.
  apply bind_inv in Hb as [(e & Hq & ->)|(q & w2 & Hq & Hb)].
  { apply (sent_of_run _ _ _ _ _ (get_fx_quote_sent env _ _ _)) in Hq.
    eexists [_; _]. split; [by rewrite Hq, Hv, <-app_assoc|]. by left. }
  apply (sent_of_run _ _ _ _ _ (get_fx_quote_sent env _ _ _)) in Hq.
  match type of Hb with
  | ?m w2 = _ => assert (quiet m) as Hquiet
  end.
  { repeat (apply quiet_bind; [apply quiet_lift|intros ?]). apply quiet_ret. }
  specialize (Hquiet w2). rewrite Hb in Hquiet. cbn [snd] in Hquiet.
  eexists [_; _]. split; [by rewrite Hquiet, Hq, Hv, <-app_assoc|]. by left.
Qed.
End CallOrder.

(** X11. Call order of the account-scoped FX operations: whatever the
    partner answers, [get_fx_rates_for_account] sends the accounts-list
    request first and then one FX-rates request, or two when the [try] block
    failed after its own FX request; [get_fx_quote_for_account] does the same
    with FX-quote requests.  No FX request ever precedes the accounts
    request, and no balance request is sent. *)
Theorem fx_resolver_call_order (env : environment)
    (account_id target_currency : string) (amount : json) (w : world) :
  let rates :=
    endpoint_of <$> new_requests w (get_fx_rates_for_account env account_id w).2 in
  let quote :=
    endpoint_of <$>
      new_requests w (get_fx_quote_for_account env account_id target_currency amount w).2 in
  (rates = [EpAccounts; EpFXRates] ∨ rates = [EpAccounts; EpFXRates; EpFXRates]) ∧
  (quote = [EpAccounts; EpFXQuote] ∨ quote = [EpAccounts; EpFXQuote; EpFXQuote]).
Proof.
  cbv zeta. split.
  - unfold get_fx_rates_for_account, try_except.
    match goal with
    | |- context [match ?body w with _ => _ end] =>
        destruct (body w) as [rb wb] eqn:Hb
    end.
    destruct (rates_body_sent env account_id w rb wb Hb) as (rqs & Hsent & Hrqs).
    destruct rb as [e|a]; cbn [snd].
    + rewrite (new_requests_app w _ (rqs ++ [rates_request env wb]))
        by (by rewrite rates_fallback_sent, Hsent, <-app_assoc).
      rewrite fmap_app. destruct Hrqs as [->|[-> _]]; [by right|by left].
    + rewrite (new_requests_app w _ rqs) by done.
      destruct Hrqs as [->|[_ [? [=]]]]. by left.
  - unfold get_fx_quote_for_account, try_except.
    match goal with
    | |- context [match ?body w with _ => _ end] =>
        destruct (body w) as [rb wb] eqn:Hb
    end.
    destruct (quote_body_sent env account_id target_currency amount w rb wb Hb)
      as (rqs & Hsent & Hrqs).
    destruct rb as [e|a]; cbn [snd].
    + rewrite (new_requests_app w _ (rqs ++ [quote_request env wb]))
        by (by rewrite quote_fallback_sent, Hsent, <-app_assoc).
      rewrite fmap_app. destruct Hrqs as [->|[-> _]]; [by right|by left].
    + rewrite (new_requests_app w _ rqs) by done.
      destruct Hrqs as [->|[_ [? [=]]]]. by left.
Qed.

(** ** The shape of every request *)

Section Shapes.
Context (env : environment).

Local Abbreviation keeps := (@keeps_shape env _).

Lemma quiet_keeps {A} (m : M A) : quiet m → keeps m.
Proof. intros Hm w Hw. by rewrite Hm. Qed.

Lemma keeps_bind {A B} (m : M A) (k : A → M B) :
  keeps m → (∀ a, keeps (k a)) → keeps (bind m k).
Proof.
  intros Hm Hk w Hw. specialize (Hm w Hw). unfold bind.
  destruct (m w) as [[e|a] w1]; [done|]. by apply Hk.
Qed.

Lemma keeps_try_except {A} (m : M A) h :
  keeps m → (∀ e, keeps (h e)) → keeps (try_except m h).
Proof.
  intros Hm Hh w Hw. specialize (Hm w Hw). unfold try_except.
  destruct (m w) as [[e|a] w1]; [|done]. by apply Hh.
Qed.

Lemma keeps_one {A} (m : M A) (rq : world → request) :
  (∀ w, sent (m w).2 = sent w ++ [rq w]) → (∀ w, shaped env (rq w)) → keeps m.
Proof.
  intros Hsent Hshaped w Hw. rewrite Hsent. apply Forall_app. split; [done|].
  by constructor.
Qed.

Lemma keeps_get_accounts_new skip account_type limit account_status sort :
  keeps (get_accounts_new env skip account_type limit account_status sort).
Proof.
  apply (keeps_one _ (accounts_request env skip account_type limit account_status sort)).
  - intros w. by rewrite get_accounts_new_run.
  - intros w. left. by eexists _, _, _, _, _, _.
Qed.

Lemma keeps_get_account_balances account_id customer_ip :
  keeps (get_account_balances env account_id customer_ip).
Proof.
  apply (keeps_one _ (balances_request env account_id customer_ip)).
  - intros w. by rewrite get_account_balances_run.
  - intros w. right. left. by eexists _, _, _.
Qed.

Lemma keeps_get_fx_rates : keeps (get_fx_rates env).
Proof.
  apply (keeps_one _ (rates_request env)).
  - apply get_fx_rates_sent.
  - intros w. right. right. left. by eexists.
Qed.

Lemma keeps_get_fx_quote target_currency amount :
  keeps (get_fx_quote env target_currency amount).
Proof.
  apply (keeps_one _ (quote_request env)).
  - apply get_fx_quote_sent.
  - intros w. right. right. right. by eexists.
Qed.

Lemma keeps_enrich_loop accounts : ∀ enriched,
  keeps (enrich_loop env accounts enriched).
Proof.
  induction accounts as [|account rest IH]; intros enriched;
    [apply quiet_keeps, quiet_ret|].
  cbn [enrich_loop]. apply keeps_bind; [apply quiet_keeps, quiet_lift|].
  intros account_id. apply keeps_bind; [|intros entry; apply IH].
  destruct (truthy account_id); [|apply quiet_keeps, quiet_ret].
  apply keeps_try_except; [|intros _; apply quiet_keeps, quiet_ret].
  unfold enrich_account. apply keeps_bind; [apply keeps_get_account_balances|].
  intros b. apply quiet_keeps.
  do 3 (apply quiet_bind; [apply quiet_lift|]; intros ?).
  destruct account; first [apply quiet_ret | apply quiet_raise].
Qed.

Lemma keeps_get_accounts_with_balances skip limit :
  keeps (get_accounts_with_balances env skip limit).
Proof.
  unfold get_accounts_with_balances.
  apply keeps_bind; [apply keeps_get_accounts_new|]. intros raw.
  do 2 (apply keeps_bind; [apply quiet_keeps, quiet_lift|]; intros ?).
  apply keeps_bind; [apply keeps_enrich_loop|]. intros out. apply quiet_keeps.
  apply quiet_bind; [apply quiet_lift|]. intros hm. apply quiet_ret.
Qed.

Lemma keeps_verify_account account_id : keeps (verify_account env account_id).
Proof.
  apply (keeps_one _ (accounts_request env 0 None 50 None "desc")).
  - apply verify_account_sent.
  - intros w. left. by eexists _, _, _, _, _, _.
Qed.

Lemma keeps_get_fx_rates_for_account account_id :
  keeps (get_fx_rates_for_account env account_id).
Proof.
  unfold get_fx_rates_for_account. apply keeps_try_except.
  - apply keeps_bind; [apply keeps_verify_account|]. intros cur.
    apply keeps_bind; [apply keeps_get_fx_rates|]. intros fx. apply quiet_keeps.
    apply quiet_bind; [apply quiet_rates_result|]. intros r. apply quiet_ret.
  - intros _. apply keeps_bind; [apply keeps_get_fx_rates|]. intros fx.
    apply quiet_keeps.
    apply quiet_bind; [apply quiet_rates_result|]. intros r. apply quiet_ret.
Qed.

Lemma keeps_get_fx_quote_for_account account_id target_currency amount :
  keeps (get_fx_quote_for_account env account_id target_currency amount).
Proof.
  unfold get_fx_quote_for_account. apply keeps_try_except.
  - apply keeps_bind; [apply keeps_verify_account|]. intros cur.
    apply keeps_bind; [apply keeps_get_fx_quote|]. intros q. apply quiet_keeps.
    do 6 (apply quiet_bind; [apply quiet_lift|]; intros ?). apply quiet_ret.
  - intros _. apply keeps_bind; [apply keeps_get_fx_quote|]. intros q.
    apply quiet_keeps.
    apply quiet_bind; [apply quiet_lift|]. intros s. apply quiet_ret.
Qed.

Lemma keeps_run_call c : keeps (run_call env c).
Proof.
  destruct c; cbn [run_call].
  - apply keeps_get_accounts_new.
  - apply keeps_get_account_balances.
  - apply keeps_get_accounts_with_balances.
  - apply keeps_get_fx_rates.
  - apply keeps_get_fx_quote.
  - apply keeps_get_fx_rates_for_account.
  - apply keeps_get_fx_quote_for_account.
Qed.

Lemma run_calls_shaped cs : ∀ w,
  Forall (shaped env) (sent w) → Forall (shaped env) (sent (run_calls env cs w)).
Proof.
  induction cs as [|c rest IH]; intros w Hw; [done|]. cbn [run_calls].
  by apply IH, keeps_run_call.
Qed.

Lemma shaped_credentials rq : shaped env rq → credentials env rq.
Proof.
  intros [(? & ? & ? & ? & ? & ? & ->)|[(? & ? & ? & ->)|[(? & ->)|(? & ->)]]];
    by split_and!.
Qed.

Lemma shaped_customer_context rq : shaped env rq → customer_context rq.
Proof.
  intros [(? & ? & ? & ? & ? & ? & ->)|[(? & ? & ? & ->)|[(? & ->)|(? & ->)]]];
    cbn; by split_and!.
Qed.
End Shapes.

(** X12. Credentials on every request: after any sequence of operations,
    every outbound request carries [Authorization], [x-financial-id] and
    [x-jws-signature], each set to the value of its environment variable or,
    when that is unset, to its default ("Bearer demo_token", "001", the
    empty string). *)
Theorem every_request_carries_credentials (env : environment) (cs : list call) :
  Forall (credentials env) (sent (run_calls env cs initial_world)).
Proof.
  eapply Forall_impl; [apply run_calls_shaped; constructor|].
  apply shaped_credentials.
Qed.

(** X13. The lean FX-quote profile: after any sequence of operations, every
    FX-quote request lacks [x-auth-date], [x-customer-ip-address] and
    [x-customer-user-agent], while every accounts-list, balances and FX-rates
    request carries all three, with the user agent
    "StableCoin-Fintech-App/1.0". *)
Theorem fx_quote_requests_omit_customer_context (env : environment) (cs : list call) :
  Forall customer_context (sent (run_calls env cs initial_world)).
Proof.
  eapply Forall_impl; [apply (run_calls_shaped env); constructor|].
  apply shaped_customer_context.
Qed.

(** ** The legacy methods *)

Section LegacyRuns.
Context (env : environment).

(** [convert_currency] from JOD is [get_fx_quote] followed by one clock
    read. *)
Lemma convert_currency_run to_currency amount w :
  convert_currency env "JOD" to_currency amount w =
    match get_fx_quote env to_currency amount w with
    | (inl e, w1) => (inl e, w1)
    | (inr (JObj q), w1) =>
        (inr (JObj (conversion_dict "JOD" to_currency amount
                      (default amount (q !! "convertedAmount"))
                      (default (JFloat 1.0) (q !! "rate"))
                      (default (JStr (isoformat env (utcnow env (clock w1)) +:+ "Z"))
                         (q !! "timestamp")))),
         World (uuids w1) (S (clock w1)) (sent w1))
    | (inr _, w1) => (inl AttributeError, w1)
    end.
Proof.
  unfold convert_currency. cbn [String.eqb Ascii.eqb Bool.eqb negb]. unfold bind at 1.
  destruct (get_fx_quote env to_currency amount w) as [[e|q] w1]; [done|].
  destruct q; reflexivity.
Qed.

Lemma legacy_account_complete v :
  complete v →
  ∃ a b,
    v = JObj a ∧ a !! "balance" = Some (JObj b) ∧
    legacy_account v =
      inr (JObj (legacy_dict (default JNull (a !! "accountId"))
                   (default JNull (a !! "accountName"))
                   (default JNull (a !! "accountNumber"))
                   (default JNull (a !! "bankName"))
                   (default JNull (a !! "bankCode"))
                   (default JNull (a !! "accountType"))
                   (default JNull (a !! "currency"))
                   (default JNull (b !! "current")) (default JNull (b !! "available"))
                   (default JNull (a !! "lastUpdated")))).
Proof.
  intros (a & b & -> & Hkeys & Hb & [c Hc] & [av Hav] & [lu Hlu]).
  unfold legacy_keys in Hkeys. rewrite !Forall_cons in Hkeys.
  destruct Hkeys as ([? H1] & [? H2] & [? H3] & [? H4] & [? H5] & [? H6] & [? H7] & _).
  exists a, b. split_and!; [done|done|].
  unfold legacy_account, py_getitem2. cbn [py_getitem].
  rewrite H1, H2, H3, H4, H5, H6, H7, Hb, Hlu. cbn [res_bind py_getitem].
  rewrite Hc, Hav. reflexivity.
Qed.

Lemma legacy_account_missing (a : gmap string json) k :
  k ∈ legacy_keys → a !! k = None → legacy_account (JObj a) = inl KeyError.
Proof.
  intros Hk Hnone. unfold legacy_account, py_getitem2. cbn [py_getitem].
  unfold legacy_keys in Hk. rewrite !elem_of_cons, elem_of_nil in Hk.
  repeat match goal with
         | |- context [a !! ?key] =>
             destruct (a !! key) eqn:?; cbn [res_bind]; [|reflexivity]
         end.
  destruct Hk as [->|[->|[->|[->|[->|[->|[->|[->|[]]]]]]]]]; congruence.
Qed.

Lemma legacy_loop_complete listed : ∀ accounts,
  Forall complete listed →
  ∃ records,
    legacy_loop listed accounts = inr (accounts ++ records) ∧
    Forall2 (λ v record, legacy_account v = inr record) listed records.
Proof.
  induction listed as [|v listed IH]; intros accounts Hall.
  - exists []. by rewrite app_nil_r.
  - apply Forall_cons in Hall as [Hv Hall].
    destruct (legacy_account_complete v Hv) as (a & b & _ & _ & Hrec).
    cbn [legacy_loop]. rewrite Hrec. cbn [res_bind].
    destruct (IH (accounts ++ [JObj (legacy_dict
                                       (default JNull (a !! "accountId"))
                                       (default JNull (a !! "accountName"))
                                       (default JNull (a !! "accountNumber"))
                                       (default JNull (a !! "bankName"))
                                       (default JNull (a !! "bankCode"))
                                       (default JNull (a !! "accountType"))
                                       (default JNull (a !! "currency"))
                                       (default JNull (b !! "current"))
                                       (default JNull (b !! "available"))
                                       (default JNull (a !! "lastUpdated")))]) Hall)
      as (records & -> & Hrecords).
    eexists (_ :: records). rewrite <-app_assoc. split; [done|]. by constructor.
Qed.

Lemma legacy_loop_missing before (a : gmap string json) after k : ∀ accounts,
  Forall complete before →
  k ∈ legacy_keys → a !! k = None →
  legacy_loop (before ++ JObj a :: after) accounts = inl KeyError.
Proof.
  induction before as [|v before IH]; intros accounts Hall Hk Hnone.
  - cbn. by rewrite (legacy_account_missing a k Hk Hnone).
  - apply Forall_cons in Hall as [Hv Hall].
    destruct (legacy_account_complete v Hv) as (? & ? & _ & _ & Hrec).
    cbn [app legacy_loop]. rewrite Hrec. cbn [res_bind]. by apply IH.
Qed.

Lemma get_user_accounts_run user_consent_id w (payload : gmap string json) w1 :
  get_accounts_new env 0 None 10 None "desc" w = (inr (JObj payload), w1) →
  get_user_accounts env user_consent_id w =
    (match payload !! "accounts" with
     | None => inl KeyError
     | Some listed_value =>
         res_bind (py_iter listed_value) (λ listed,
           res_bind (legacy_loop listed []) (λ accounts, inr (JArr accounts)))
     end, w1).
Proof.
  intros Hraw. unfold get_user_accounts. rewrite (bind_inr _ _ _ _ _ Hraw).
  unfold bind at 1, lift. cbn [py_getitem].
  destruct (payload !! "accounts") as [listed_value|]; [|done].
  unfold bind at 1. destruct (py_iter listed_value) as [e|listed]; [done|].
  cbn [res_bind]. unfold bind, ret. by destruct (legacy_loop listed []).
Qed.
End LegacyRuns.

(** X14. [convert_currency] is a guarded view of the quote: for a
    [from_currency] other than "JOD" (the comparison is exact) it raises
    [ValueError("Only JOD base currency is supported")] before anything is
    sent or drawn; from JOD, an exception of [get_fx_quote] is raised
    unchanged, and a quote that is returned gives a result whose
    [exchange_rate], [converted_amount] and [conversion_date] are the
    quote's [rate], [convertedAmount] and [timestamp], whose [to_currency]
    is the requested currency, and which costs no further request. *)
Theorem convert_currency_reports_the_quote (env : environment) (to_currency : string)
    (amount : json) (w : world) :
  (∀ from_currency, from_currency ≠ "JOD" →
     convert_currency env from_currency to_currency amount w =
       (inl (ValueError "Only JOD base currency is supported"), w)) ∧
  (∀ e w1, get_fx_quote env to_currency amount w = (inl e, w1) →
           convert_currency env "JOD" to_currency amount w = (inl e, w1)) ∧
  (∀ q w1, get_fx_quote env to_currency amount w = (inr q, w1) →
     ∃ r w', convert_currency env "JOD" to_currency amount w = (inr (JObj r), w') ∧
             sent w' = sent w1 ∧
             r !! "from_currency" = Some (JStr "JOD") ∧
             r !! "to_currency" = Some (JStr to_currency) ∧
             r !! "original_amount" = Some amount ∧
             r !! "exchange_rate" = at_path ["rate"] q ∧
             r !! "converted_amount" = at_path ["convertedAmount"] q ∧
             r !! "conversion_date" = at_path ["timestamp"] q).
Proof.
  split_and!.
  - intros from_currency Hne. unfold convert_currency.
    by rewrite (proj2 (String.eqb_neq from_currency "JOD") Hne).
  - intros e w1 Hq. by rewrite convert_currency_run, Hq.
  - intros q w1 Hq. rewrite convert_currency_run, Hq.
    destruct (get_fx_quote_returns env _ _ _ _ _ Hq)
      as (qid & base & target & rate & c & vu & ts & _ & ->).
    eexists _, _. split; [done|]. by split_and!.
Qed.

(** X15. No amount, no conversion: for an amount of [None], [0] or [0.0],
    every result [convert_currency] returns has [converted_amount] [None];
    the default of [quote.get("convertedAmount", amount)] never applies,
    because a quote always has the key. *)
Theorem convert_currency_without_amount (env : environment) (to_currency : string)
    (amount : json) (w : world) (result : json) (w' : world) :
  amount = JNull ∨ amount = JInt 0 ∨ amount = JFloat 0 →
  convert_currency env "JOD" to_currency amount w = (inr result, w') →
  at_path ["converted_amount"] result = Some JNull.
Proof.
  intros Hamount. rewrite convert_currency_run.
  destruct (get_fx_quote env to_currency amount w) as [[e|q] w1] eqn:Hq; [done|].
  destruct (get_fx_quote_returns env _ _ _ _ _ Hq)
    as (qid & base & target & rate & c & vu & ts & Hc & ->).
  intros [= <- <-]. unfold converted_amount in Hc.
  by destruct Hamount as [-> | [-> | ->]]; injection Hc as <-.
Qed.

(** X16. The fallback is silent in [convert_currency]: when no entry of the
    table matches the requested currency, the conversion uses the rate of
    the first entry.  If [amount * rate] can be computed (or the amount is
    falsy), the result still names the requested currency as [to_currency],
    next to that rate and that product, and has no key besides its six, so
    nothing in it names the currency that was actually used.  If the product
    raises (a rate that is not a number, an [int] beyond the range of
    [float], a repetition that is too long), [convert_currency] raises the
    same exception. *)
Theorem convert_currency_hides_the_fallback (env : environment) (to_currency : string)
    (amount : json) (w : world) (r : response) (fx f : gmap string json)
    (rest : list json) :
  partner env (length (sent w)) (quote_request env w) = inr r →
  status_code r = 200 →
  json_body r = Some (JObj fx) →
  fx !! "data" = Some (JArr (JObj f :: rest)) →
  select_rate to_currency (JObj f :: rest) = inr None →
  let rate := default (JFloat 1.0) (f !! "conversionValue") in
  (∀ c, converted_amount env amount rate = inr c →
     ∃ m w', convert_currency env "JOD" to_currency amount w = (inr (JObj m), w') ∧
             m !! "to_currency" = Some (JStr to_currency) ∧
             m !! "exchange_rate" = Some rate ∧
             m !! "converted_amount" = Some c ∧
             ∀ k, k ∉ ["from_currency"; "to_currency"; "original_amount";
                       "converted_amount"; "exchange_rate"; "conversion_date"] →
                  m !! k = None) ∧
  (∀ e, converted_amount env amount rate = inl e →
     (convert_currency env "JOD" to_currency amount w).1 = inl e).
Proof.
  intros Hreply Hstatus Hbody Hdata Hsel. cbv zeta.
  split; [intros c Hc|intros e Hc];
    rewrite convert_currency_run;
    rewrite (get_fx_quote_on_table env _ _ _ _ _ _ _ Hreply Hstatus Hbody Hdata);
    cbv zeta; rewrite Hsel; unfold bind at 1, lift; cbn [py_get_default];
    rewrite make_quote_run; cbv zeta; rewrite Hc.
  - eexists _, _. split; [done|]. split_and!; [done..|].
    intros k Hk. rewrite !not_elem_of_cons in Hk.
    destruct Hk as (? & ? & ? & ? & ? & ? & _).
    unfold conversion_dict. cbn [list_to_map foldr uncurry].
    by rewrite !lookup_insert_ne, lookup_empty.
  - reflexivity.
Qed.

Lemma at_path_key (a : gmap string json) k : at_path [k] (JObj a) = a !! k.
Proof. cbn. by destruct (a !! k). Qed.

(** X17. [get_user_accounts] maps every listed account: when each listed
    account is an object with all the fields the method reads, it returns
    one record per account, in the listed order, whose [account_id],
    [currency], [balance], [available_balance] and [last_updated] are the
    account's [accountId], [currency], [balance.current],
    [balance.available] and [lastUpdated], and whose [status] is "active". *)
Theorem get_user_accounts_maps_each_account (env : environment)
    (user_consent_id : string) (w : world) (payload : gmap string json)
    (listed : list json) (w1 : world) :
  get_accounts_new env 0 None 10 None "desc" w = (inr (JObj payload), w1) →
  payload !! "accounts" = Some (JArr listed) →
  Forall complete listed →
  ∃ records,
    get_user_accounts env user_consent_id w = (inr (JArr records), w1) ∧
    length records = length listed ∧
    ∀ i v, listed !! i = Some v →
      ∃ record,
        records !! i = Some record ∧
        at_path ["account_id"] record = at_path ["accountId"] v ∧
        at_path ["currency"] record = at_path ["currency"] v ∧
        at_path ["balance"] record = at_path ["balance"; "current"] v ∧
        at_path ["available_balance"] record = at_path ["balance"; "available"] v ∧
        at_path ["last_updated"] record = at_path ["lastUpdated"] v ∧
        at_path ["status"] record = Some (JStr "active").
Proof.
  intros Hraw Hlisted Hcomplete.
  destruct (legacy_loop_complete listed [] Hcomplete) as (records & Hloop & Hrecords).
  exists records. rewrite (get_user_accounts_run env _ _ _ _ Hraw), Hlisted.
  cbn [py_iter res_bind]. rewrite Hloop. cbn [res_bind app].
  split_and!; [done|by rewrite (Forall2_length _ _ _ Hrecords)|].
  intros i v Hi.
  destruct (Forall2_lookup_l _ _ _ _ _ Hrecords Hi) as (record & Hrecord & Hmap).
  exists record. split; [done|].
  rewrite Forall_forall in Hcomplete.
  pose proof (Hcomplete v (list_elem_of_lookup_2 _ _ _ Hi)) as Hv.
  pose proof Hv as (a' & b' & -> & Hkeys & Hb' & [c Hc] & [av Hav] & [lu Hlu]).
  destruct (legacy_account_complete _ Hv) as (a & b & [= <-] & Hb & Hrec).
  rewrite Hrec in Hmap. injection Hmap as <-.
  unfold legacy_keys in Hkeys. rewrite !Forall_cons in Hkeys.
  destruct Hkeys as ([? H1] & _ & _ & _ & _ & _ & [? H7] & _).
  assert (b' = b) as -> by congruence.
  cbn [at_path]. rewrite Hb. cbn. rewrite H1, H7, Hlu, Hc, Hav. done.
Qed.

(** X18. A payload without an ["accounts"] key: [get_user_accounts]
    subscripts the key and raises [KeyError], while
    [get_accounts_with_balances], which reads it with [get], on the same
    payload returns an empty list and a [totalCount] of 0. *)
Theorem missing_accounts_key_is_an_error_for_legacy_only (env : environment)
    (user_consent_id : string) (w : world) (payload : gmap string json) (w1 : world) :
  get_accounts_new env 0 None 10 None "desc" w = (inr (JObj payload), w1) →
  payload !! "accounts" = None →
  get_user_accounts env user_consent_id w = (inl KeyError, w1) ∧
  field "accounts" (get_accounts_with_balances env 0 10 w) = Some (JArr []) ∧
  field "totalCount" (get_accounts_with_balances env 0 10 w) = Some (JInt 0).
Proof.
  intros Hraw Hnone. split.
  - by rewrite (get_user_accounts_run env _ _ _ _ Hraw), Hnone.
  - unfold field.
    rewrite (get_accounts_with_balances_run env 0 10 w payload [] w1 Hraw)
      by (unfold lists_accounts; by rewrite Hnone).
    done.
Qed.

(** X19. [get_user_accounts] is all or nothing: when a listed account
    lacks one of the keys the method subscripts ([accountId], [accountName],
    [accountNumber], [bankName], [bankCode], [accountType], [currency],
    [balance]), the call raises [KeyError] and returns no record at all,
    also for the complete accounts listed before it. *)
Theorem get_user_accounts_fails_on_a_missing_field (env : environment)
    (user_consent_id : string) (w : world) (payload : gmap string json)
    (before after : list json) (a : gmap string json) (k : string) (w1 : world) :
  get_accounts_new env 0 None 10 None "desc" w = (inr (JObj payload), w1) →
  payload !! "accounts" = Some (JArr (before ++ JObj a :: after)) →
  Forall complete before →
  k ∈ legacy_keys →
  a !! k = None →
  get_user_accounts env user_consent_id w = (inl KeyError, w1).
Proof.
  intros Hraw Hlisted Hbefore Hk Hnone.
  rewrite (get_user_accounts_run env _ _ _ _ Hraw), Hlisted. cbn [py_iter res_bind].
  by rewrite (legacy_loop_missing before a after k [] Hbefore Hk Hnone).
Qed.

Section LegacyInvariants.
Context (env : environment).

Lemma tracks_convert_currency from_currency to_currency amount :
  tracks env (convert_currency env from_currency to_currency amount).
Proof.
  unfold convert_currency. destruct (negb _); [apply tracks_raise|].
  apply tracks_bind; [apply tracks_get_fx_quote|]. intros q.
  do 2 (apply tracks_bind; [apply tracks_lift|]; intros ?).
  apply tracks_bind; [apply tracks_clock_read|]. intros now.
  apply tracks_bind; [apply tracks_lift|]. intros date. apply tracks_ret.
Qed.

Lemma tracks_get_user_accounts user_consent_id :
  tracks env (get_user_accounts env user_consent_id).
Proof.
  unfold get_user_accounts.
  apply tracks_bind; [apply tracks_get_accounts_new|]. intros raw.
  do 3 (apply tracks_bind; [apply tracks_lift|]; intros ?). apply tracks_ret.
Qed.

Lemma keeps_convert_currency from_currency to_currency amount :
  keeps_shape env (convert_currency env from_currency to_currency amount).
Proof.
  unfold convert_currency. destruct (negb _); [apply quiet_keeps, quiet_raise|].
  apply keeps_bind; [apply keeps_get_fx_quote|]. intros q. apply quiet_keeps.
  do 2 (apply quiet_bind; [apply quiet_lift|]; intros ?).
  apply quiet_bind; [apply quiet_clock_read|]. intros now.
  apply quiet_bind; [apply quiet_lift|]. intros date. apply quiet_ret.
Qed.

Lemma keeps_get_user_accounts user_consent_id :
  keeps_shape env (get_user_accounts env user_consent_id).
Proof.
  unfold get_user_accounts.
  apply keeps_bind; [apply keeps_get_accounts_new|]. intros raw. apply quiet_keeps.
  do 3 (apply quiet_bind; [apply quiet_lift|]; intros ?). apply quiet_ret.
Qed.
End LegacyInvariants.

(** X20. The legacy methods keep the header discipline: run after any
    sequence of operations, [convert_currency] and [get_user_accounts] leave
    a request log on which no interaction id or idempotency key repeats
    (as long as the UUID generator does not repeat itself), the
    [x-customer-id] header follows the call profile, and every request
    carries the credentials. *)
Theorem legacy_methods_keep_the_header_discipline (env : environment) (cs : list call)
    (from_currency to_currency : string) (amount : json) (user_consent_id : string)
    (w' : world) :
  Inj (=) (=) (uuid4 env) →
  w' = (convert_currency env from_currency to_currency amount
          (run_calls env cs initial_world)).2 ∨
  w' = (get_user_accounts env user_consent_id (run_calls env cs initial_world)).2 →
  NoDup (log_ids (sent w')) ∧
  Forall customer_id_policy (sent w') ∧
  Forall (credentials env) (sent w').
Proof.
  intros Hinj Hw'.
  assert (rtc (step env) initial_world w' ∧ Forall (shaped env) (sent w')) as [Hreach Hshaped].
  { pose proof (reach_run_calls env cs initial_world) as Hcs.
    pose proof (run_calls_shaped env cs initial_world ltac:(constructor)) as Hsh.
    destruct Hw' as [-> | ->]; split.
    - etrans; [exact Hcs|apply tracks_convert_currency].
    - by apply keeps_convert_currency.
    - etrans; [exact Hcs|apply tracks_get_user_accounts].
    - by apply keeps_get_user_accounts. }
  split_and!.
  - destruct (reach_fresh_log env _ _ Hreach (fresh_log_initial env))
      as (draws & -> & Hnodup & _).
    apply NoDup_fmap_2_strong; [|done]. intros a b _ _ [= Hab]. by apply Hinj.
  - apply (reach_customer_id_policy env _ _ Hreach). constructor.
  - eapply Forall_impl; [exact Hshaped|]. apply shaped_credentials.
Qed.

(** ** More scenarios, run *)

Lemma not_object_string s : ¬ is_object (JStr s).
Proof. by intros [m ?]. Qed.

Lemma aggregation_call_sequence_witness :
  let objs := [Cases.account_fields "acc_1" 100.00; Cases.account_fields "acc_2" 200.50;
               Cases.account_fields "acc_3" 50.25] in
  let sent_now :=
    new_requests initial_world
      (get_accounts_with_balances Scenario.env 0 10 initial_world).2 in
  endpoint_of <$> sent_now = EpAccounts :: balance_endpoints objs ∧
  Forall (λ rq, headers rq !! "x-customer-ip-address" = Some "127.0.0.1") sent_now.
Proof.
  apply (aggregation_call_sequence Scenario.env 0 10 initial_world
           Scenario.listing_fields _ (Scenario.listed 0 10 initial_world)).
  - reflexivity.
  - reflexivity.
Defined.

Lemma aggregation_paging_fields_witness :
  ∃ r, (get_accounts_with_balances Cases.complete 0 10 initial_world).1 = inr (JObj r) ∧
       r !! "hasMore" =
         Some (default (JBool false) (Cases.complete_listing_fields !! "hasMore")) ∧
       r !! "totalCount" = Some (JInt (Z.of_nat (length Cases.complete_accounts))) ∧
       ∀ k, k ≠ "accounts" → k ≠ "totalCount" → k ≠ "hasMore" → r !! k = None.
Proof.
  apply (aggregation_paging_fields Cases.complete 0 10 initial_world
           Cases.complete_listing_fields Cases.complete_accounts
           (after_exchange 1
              (accounts_request Cases.complete 0 None 10 None "desc" initial_world)
              initial_world)).
  - reflexivity.
  - reflexivity.
  - repeat constructor; eexists; reflexivity.
Defined.

Lemma aggregation_stops_at_non_object_witness :
  let run := get_accounts_with_balances Cases.broken 0 10 initial_world in
  run.1 = inl AttributeError ∧
  endpoint_of <$> new_requests initial_world run.2 =
    EpAccounts :: balance_endpoints [Cases.account_fields "acc_1" 100.00].
Proof.
  apply (aggregation_stops_at_non_object Cases.broken 0 10 initial_world
           Cases.broken_fields [Cases.account_fields "acc_1" 100.00] (JStr "acc_2") []
           (after_exchange 1
              (accounts_request Cases.broken 0 None 10 None "desc" initial_world)
              initial_world)).
  - reflexivity.
  - reflexivity.
  - apply not_object_string.
Defined.

Lemma fx_quote_selection_witness :
  ∃ q f,
    (get_fx_quote Scenario.env "GBP" JNull initial_world).1 = inr q ∧
    (select_rate "GBP" [Scenario.rate "USD" 0.709; Scenario.rate "EUR" 0.647] =
       inr (Some (JObj f)) ∧
     at_path ["targetCurrency"] q = Some (JStr "GBP") ∨
     select_rate "GBP" [Scenario.rate "USD" 0.709; Scenario.rate "EUR" 0.647] = inr None ∧
     Scenario.rate "USD" 0.709 = JObj f ∧
     at_path ["targetCurrency"] q = Some (default (JStr "GBP") (f !! "targetCurrency"))) ∧
    at_path ["rate"] q = Some (default (JFloat 1.0) (f !! "conversionValue")).
Proof.
  assert (has_returned (get_fx_quote Scenario.env "GBP" JNull initial_world) = true)
    as Hreturned by reflexivity.
  destruct (get_fx_quote Scenario.env "GBP" JNull initial_world)
    as [[e|q] w'] eqn:Hrun; [discriminate Hreturned|].
  destruct (fx_quote_selection Scenario.env "GBP" JNull initial_world
              (Response 200 EmptyString (Some Scenario.rate_table)) Cases.table_fields
              (Scenario.rate "USD" 0.709) [Scenario.rate "EUR" 0.647] q w'
              eq_refl eq_refl eq_refl eq_refl Hrun) as (f & Hf).
  exists q, f. split; [reflexivity|exact Hf].
Defined.

Lemma fx_quote_without_data_raises_witness :
  get_fx_quote Cases.empty_table "USD" (JInt 100) initial_world =
    (inl (Exception "JoPACC FX API returned no data"),
     after_exchange 0 (quote_request Cases.empty_table initial_world) initial_world).
Proof.
  apply (fx_quote_without_data_raises Cases.empty_table "USD" (JInt 100) initial_world
           (Response 200 EmptyString (Some (JObj (list_to_map [("data", JArr [])]))))
           (list_to_map [("data", JArr [])])).
  - reflexivity.
  - reflexivity.
  - reflexivity.
  - reflexivity.
Defined.

Lemma fx_fetchers_raise_on_http_error_witness :
  (get_fx_rates Scenario.outage initial_world).1 =
    inl (Exception "JoPACC FX Rates API Error: 503 - Service Unavailable").
Proof.
  assert (status_code (Response 503 "Service Unavailable" None) ≠ 200) as Hstatus
    by (cbn; lia).
  apply (proj1 (fx_fetchers_raise_on_http_error Scenario.outage initial_world _ Hstatus)).
  reflexivity.
Defined.

Lemma fx_quote_with_string_rate_witness :
  (get_fx_quote Cases.string_table "USD" (JFloat 100) initial_world).1 = inl TypeError.
Proof.
  destruct (fx_quote_with_string_rate Cases.string_table "USD" initial_world
              (Response 200 EmptyString (Some (JObj Cases.string_table_fields)))
              Cases.string_table_fields
              (list_to_map [("sourceCurrency", JStr "JOD");
                            ("targetCurrency", JStr "USD");
                            ("conversionValue", JStr "0.709")])
              Cases.string_rate [] "0.709"
              eq_refl eq_refl eq_refl eq_refl eq_refl eq_refl) as (Hfloat & _).
  apply Hfloat. reflexivity.
Defined.

Lemma fx_retry_reports_verification_failure_witness :
  ∃ r w', get_fx_rates_for_account Cases.flaky "acc_1" initial_world = (inr (JObj r), w') ∧
          r !! "warning" = Some rates_warning ∧
          r !! "account_currency" = Some (JStr "JOD").
Proof.
  pose (w1 := after_exchange 1
                (accounts_request Cases.flaky 0 None 50 None "desc" initial_world)
                initial_world).
  pose (w2 := after_exchange 1 (rates_request Cases.flaky w1) w1).
  destruct (proj1 (fx_retry_reports_verification_failure Cases.flaky "acc_1" "USD" JNull
                     initial_world (JStr "JOD") w1 eq_refl)
              (inl (Exception "JoPACC FX Rates API Error: 503 - Service Unavailable")) w2
              eq_refl (or_introl (ex_intro _ _ eq_refl)))
    as (Hreturns & _).
  apply (Hreturns Scenario.rates_fields (after_exchange 1 (rates_request Cases.flaky w2) w2)).
  reflexivity.
Defined.

Lemma fx_account_currency_is_first_match_witness :
  ∃ r w', get_fx_rates_for_account Scenario.env "acc_2" initial_world = (inr (JObj r), w') ∧
          r !! "account_currency" = Some (JStr "JOD") ∧ r !! "warning" = None.
Proof.
  pose (w1 := Scenario.listed 0 50 initial_world).
  apply (proj1 (fx_account_currency_is_first_match Scenario.env "acc_2" "USD" JNull
                  initial_world Scenario.listing_fields
                  [Scenario.account "acc_1" 100.00] [Scenario.account "acc_3" 50.25]
                  (Cases.account_fields "acc_2" 200.50) w1
                  eq_refl eq_refl
                  (Forall_cons_2 _ _ _
                     (ex_intro _ (Cases.account_fields "acc_1" 100.00)
                        (conj eq_refl eq_refl))
                     (Forall_nil_2 _))
                  eq_refl)
           Scenario.rates_fields (after_exchange 1 (rates_request Scenario.env w1) w1)).
  reflexivity.
Defined.

Lemma fx_unknown_account_gets_warning_witness :
  verify_account Scenario.env "acc_9" initial_world =
    (inl (ValueError "Account acc_9 not found"), Scenario.listed 0 50 initial_world) ∧
  (∃ r w', get_fx_rates_for_account Scenario.env "acc_9" initial_world =
             (inr (JObj r), w') ∧
           r !! "warning" = Some rates_warning ∧
           r !! "account_currency" = Some (JStr "JOD")) ∧
  (∃ r w', get_fx_quote_for_account Scenario.env "acc_9" "USD" JNull initial_world =
             (inr (JObj r), w') ∧
           r !! "warning" = Some quote_warning ∧
           r !! "account_currency" = Some (JStr "JOD")).
Proof.
  pose (w1 := Scenario.listed 0 50 initial_world).
  assert (Forall (other_account "acc_9") Scenario.accounts) as Hother
    by (repeat constructor; eexists; split; reflexivity).
  destruct (fx_unknown_account_gets_warning Scenario.env "acc_9" "USD" JNull initial_world
              Scenario.listing_fields Scenario.accounts w1 eq_refl eq_refl Hother)
    as (Hverify & (Hrates & _) & (Hquote & _)).
  split; [exact Hverify|]. split.
  - apply (Hrates Scenario.rates_fields
             (after_exchange 1 (rates_request Scenario.env w1) w1)).
    reflexivity.
  - assert (has_returned (get_fx_quote Scenario.env "USD" JNull w1) = true)
      as Hreturned by reflexivity.
    destruct (get_fx_quote Scenario.env "USD" JNull w1) as [[e|q] w2] eqn:Hq;
      [discriminate Hreturned|].
    destruct (Hquote q w2 eq_refl) as (r & Hrun & Hshape).
    exists r, w2. split; [exact Hrun|exact Hshape].
Defined.

Lemma convert_currency_reports_the_quote_witness :
  convert_currency Scenario.outage "JOD" "USD" (JInt 100) initial_world =
    (inl (Exception "JoPACC FX API Error: 503 - Service Unavailable"),
     after_exchange 0 (quote_request Scenario.outage initial_world) initial_world) ∧
  convert_currency Scenario.env "USD" "JOD" (JInt 100) initial_world =
    (inl (ValueError "Only JOD base currency is supported"), initial_world).
Proof.
  split.
  - apply (proj1 (proj2 (convert_currency_reports_the_quote Scenario.outage "USD"
                           (JInt 100) initial_world))).
    reflexivity.
  - apply (proj1 (convert_currency_reports_the_quote Scenario.env "JOD" (JInt 100)
                    initial_world)).
    discriminate.
Defined.

Lemma convert_currency_without_amount_witness :
  ∃ result,
    (convert_currency Scenario.env "JOD" "USD" (JInt 0) initial_world).1 = inr result ∧
    at_path ["converted_amount"] result = Some JNull.
Proof.
  assert (has_returned (convert_currency Scenario.env "JOD" "USD" (JInt 0) initial_world)
          = true) as Hreturned by reflexivity.
  destruct (convert_currency Scenario.env "JOD" "USD" (JInt 0) initial_world)
    as [[e|result] w'] eqn:Hrun; [discriminate Hreturned|].
  exists result. split; [reflexivity|].
  apply (convert_currency_without_amount Scenario.env "USD" (JInt 0) initial_world
           result w' (or_intror (or_introl eq_refl)) Hrun).
Defined.

Lemma convert_currency_hides_the_fallback_witness :
  (∃ m w', convert_currency Scenario.env "JOD" "GBP" (JInt 100) initial_world =
             (inr (JObj m), w') ∧
           m !! "to_currency" = Some (JStr "GBP") ∧
           m !! "exchange_rate" =
             Some (default (JFloat 1.0)
                     (Cases.rate_fields "USD" 0.709 !! "conversionValue")) ∧
           m !! "converted_amount" = Some (JFloat 0x1.1b99999999999p+6) ∧
           ∀ k, k ∉ ["from_currency"; "to_currency"; "original_amount";
                     "converted_amount"; "exchange_rate"; "conversion_date"] →
                m !! k = None) ∧
  (convert_currency Cases.string_table "JOD" "GBP" (JInt (2 ^ 63)) initial_world).1 =
    inl OverflowError.
Proof.
  split.
  - apply (proj1 (convert_currency_hides_the_fallback Scenario.env "GBP" (JInt 100)
                    initial_world
                    (Response 200 EmptyString (Some Scenario.rate_table))
                    Cases.table_fields
                    (Cases.rate_fields "USD" 0.709) [Scenario.rate "EUR" 0.647]
                    eq_refl eq_refl eq_refl eq_refl eq_refl)).
    reflexivity.
  - apply (proj2 (convert_currency_hides_the_fallback Cases.string_table "GBP"
                    (JInt (2 ^ 63)) initial_world
                    (Response 200 EmptyString (Some (JObj Cases.string_table_fields)))
                    Cases.string_table_fields
                    (list_to_map [("sourceCurrency", JStr "JOD");
                                  ("targetCurrency", JStr "USD");
                                  ("conversionValue", JStr "0.709")])
                    [] eq_refl eq_refl eq_refl eq_refl eq_refl)).
    reflexivity.
Defined.

Lemma complete_account_is_complete account_id current available :
  complete (Cases.complete_account account_id current available).
Proof.
  eexists _, _. split; [reflexivity|]. split; [|split; [reflexivity|]].
  - repeat constructor; eexists; reflexivity.
  - repeat split; eexists; reflexivity.
Qed.

Lemma get_user_accounts_maps_each_account_witness :
  ∃ records,
    get_user_accounts Cases.complete "consent" initial_world =
      (inr (JArr records),
       after_exchange 1
         (accounts_request Cases.complete 0 None 10 None "desc" initial_world)
         initial_world) ∧
    length records = length Cases.complete_accounts ∧
    ∀ i v, Cases.complete_accounts !! i = Some v →
      ∃ record,
        records !! i = Some record ∧
        at_path ["account_id"] record = at_path ["accountId"] v ∧
        at_path ["currency"] record = at_path ["currency"] v ∧
        at_path ["balance"] record = at_path ["balance"; "current"] v ∧
        at_path ["available_balance"] record = at_path ["balance"; "available"] v ∧
        at_path ["last_updated"] record = at_path ["lastUpdated"] v ∧
        at_path ["status"] record = Some (JStr "active").
Proof.
  apply (get_user_accounts_maps_each_account Cases.complete "consent" initial_world
           Cases.complete_listing_fields Cases.complete_accounts).
  - reflexivity.
  - reflexivity.
  - repeat constructor; apply complete_account_is_complete.
Defined.

Lemma missing_accounts_key_is_an_error_for_legacy_only_witness :
  let w1 := after_exchange 1
              (accounts_request Cases.unlisted 0 None 10 None "desc" initial_world)
              initial_world in
  get_user_accounts Cases.unlisted "consent" initial_world = (inl KeyError, w1) ∧
  field "accounts" (get_accounts_with_balances Cases.unlisted 0 10 initial_world) =
    Some (JArr []) ∧
  field "totalCount" (get_accounts_with_balances Cases.unlisted 0 10 initial_world) =
    Some (JInt 0).
Proof.
  apply (missing_accounts_key_is_an_error_for_legacy_only Cases.unlisted "consent"
           initial_world ∅).
  - reflexivity.
  - reflexivity.
Defined.

Lemma get_user_accounts_fails_on_a_missing_field_witness :
  get_user_accounts Scenario.env "consent" initial_world =
    (inl KeyError, Scenario.listed 0 10 initial_world).
Proof.
  apply (get_user_accounts_fails_on_a_missing_field Scenario.env "consent" initial_world
           Scenario.listing_fields []
           [Scenario.account "acc_2" 200.50; Scenario.account "acc_3" 50.25]
           (Cases.account_fields "acc_1" 100.00) "accountName").
  - reflexivity.
  - reflexivity.
  - constructor.
  - unfold legacy_keys. rewrite !elem_of_cons. right. left. reflexivity.
  - reflexivity.
Defined.

Lemma legacy_methods_keep_the_header_discipline_witness :
  let w' := (get_user_accounts Scenario.env "consent"
               (run_calls Scenario.env [GetAccountsWithBalances 0 10] initial_world)).2 in
  NoDup (log_ids (sent w')) ∧
  Forall customer_id_policy (sent w') ∧
  Forall (credentials Scenario.env) (sent w').
Proof.
  apply (legacy_methods_keep_the_header_discipline Scenario.env
           [GetAccountsWithBalances 0 10] "JOD" "USD" JNull "consent").
  - exact scenario_uuid_inj.
  - right. reflexivity.
Defined.
